(** * fetch/google_trends.py: rate-limited, cached Google Trends retrieval

    A shallow embedding of [src/fetch/google_trends.py].  The Python module
    talks to three outside parties: the file system (a throttle stamp and one
    JSON file per cache key), the clock, and the network (the autocomplete
    endpoint and the pytrends client).  The embedding threads an explicit
    [world] through every function and takes the behaviour of the outside
    parties from an [env] record of oracles, so each Python function becomes
    a function in a state-and-exception monad [M].

    Modelling conventions.
    - A Python string is the [string] of its UTF-8 bytes: equality and
      [in] on the bytes are equality and [in] on the text.  [str.lower] and
      [str.strip] depend on the Unicode tables of the interpreter; they are
      taken from the [env] (fields [lower] and [strip]) and nothing is assumed
      about them.  [ascii_lower] and [ascii_strip] are what they do on ASCII
      text, which is all the examples use.
    - Numbers (scores, clock readings, delays) are exact rationals [Q]; the
      non-finite floats (nan, inf) are outside the model.
    - The clock advances only in [time.sleep]; everything else is
      instantaneous.  Properties that relate two calls are stated for any
      later world that holds the files the first call left, with the bound
      on the clock written out.
    - The cache directory is a map from cache keys to files: two keys are
      two files.  [Path.exists()] is taken to answer, for the stamp file and
      for the cache files; a file system on which the test itself raises (a
      directory that cannot be searched, a name that is too long) is outside
      the model, and the properties below speak of lookups that return.
    - [print] calls are not modelled; the [trace] of a world records the
      network calls and the sleeps. *)

From Stdlib Require Import QArith Lqa String Ascii.
From stdpp Require Import gmap strings list sorting.

Local Open Scope string_scope.
Local Open Scope list_scope.
Set Warnings "-clear-no-such-hyp".

(** ** Strings: [str.lower] and [str.strip] on ASCII text, and [in] *)

Definition is_upper (c : ascii) : bool :=
  let n := nat_of_ascii c in (65 <=? n)%nat && (n <=? 90)%nat.

Definition lower_char (c : ascii) : ascii :=
  if is_upper c then ascii_of_nat (nat_of_ascii c + 32) else c.

Fixpoint ascii_lower (s : string) : string :=
  match s with
  | EmptyString => EmptyString
  | String c s' => String (lower_char c) (ascii_lower s')
  end.

(** [str.isspace] on the ASCII range: TAB..CR, FS..US and the blank. *)
Definition is_space (c : ascii) : bool :=
  let n := nat_of_ascii c in
  ((9 <=? n)%nat && (n <=? 13)%nat) || ((28 <=? n)%nat && (n <=? 32)%nat).

Fixpoint lstrip (s : string) : string :=
  match s with
  | EmptyString => EmptyString
  | String c s' => if is_space c then lstrip s' else s
  end.

Fixpoint rstrip (s : string) : string :=
  match s with
  | EmptyString => EmptyString
  | String c s' =>
      match rstrip s' with
      | EmptyString => if is_space c then EmptyString else String c EmptyString
      | r => String c r
      end
  end.

Definition ascii_strip (s : string) : string := rstrip (lstrip s).

(** [needle in hay] for two Python strings. *)
Fixpoint contains (needle hay : string) : bool :=
  String.prefix needle hay
  || match hay with
     | EmptyString => false
     | String _ hay' => contains needle hay'
     end.

(** ** Numbers *)

Definition Qltb (x y : Q) : bool := negb (Qle_bool y x).

(** ** Records produced by the module *)

Inductive record_type := rising | top | interest | trending.
Inductive record_source := google_trends | google_trends_fallback | google_trending.

(** The dict appended to [results]; [type] and [source] are the Python keys
    ["type"] and ["source"]. *)
Record trend := {
  keyword : string;
  score : Q;
  type : record_type;
  source : record_source;
  timestamp : Q
}.

(** The dict of lines 228-234 and 243-249. *)
Definition primary_record (q : string) (s : Q) (ty : record_type) (t : Q) : trend :=
  {| keyword := q; score := s; type := ty; source := google_trends;
     timestamp := t |}.

(** The dict of lines 295-301. *)
Definition fallback_record (q : string) (s : Q) (t : Q) : trend :=
  {| keyword := q; score := s; type := interest;
     source := google_trends_fallback; timestamp := t |}.

(** The dict of lines 347-353; [ik] is the pair that [enumerate] yields. *)
Definition trending_record (t : Q) (ik : nat * string) : trend :=
  {| keyword := snd ik; score := inject_Z (100 - Z.of_nat (fst ik));
     type := trending; source := google_trending; timestamp := t |}.

(** ** What the provider returns *)

(** A cell of the [value] column: something [float()] converts to a finite
    number (identified with that number), or a text on which [float()]
    raises [ValueError].  The sentinel is [Text "Breakout"].  A cell that
    converts to nan or inf is outside the model. *)
Inductive raw_value := Numeric (q : Q) | Text (s : string).

Record row := { query : string; value : raw_value }.

(** [data[key]]: the optional ["rising"] and ["top"] frames of one keyword.
    [None] is a missing key or a [None] entry; an empty frame is [Some []]. *)
Record group := { g_rising : option (list row); g_top : option (list row) }.

(** The dict returned by [related_queries()], in iteration order. *)
Definition related := list (string * group).

(** ** Exceptions *)

Inductive exn :=
| TypeError (msg : string)
| ValueError (msg : string)
| OtherError (msg : string).

(** [str(e)] *)
Definition str (e : exn) : string :=
  match e with TypeError m | ValueError m | OtherError m => m end.

Inductive outcome (A : Type) :=
| Return (a : A)
| Raise (e : exn).
Arguments Return {A} a.
Arguments Raise {A} e.

(** ** The world *)

(** [cache/last_google_request.txt]: missing, not a number, or a stamp. *)
Inductive stamp_file := NoStamp | BadStamp | Stamp (t : Q).

(** [cache/<key>.json]: unreadable (bad JSON, missing field, bad date) or a
    well-formed [{timestamp, results}] object.  A list of records holds
    strings and numbers only, so [json.dump] followed by [json.load] gives
    the list back; the file is modelled by the list itself. *)
Inductive cache_file := Corrupt | Entry (stored_at : Q) (results : list trend).

Inductive event :=
| EvSuggest (seed : string)
| EvSleep (seconds : Q)
| EvTrendReq
| EvBuildPayload (kw_list : list string) (timeframe geo : string)
| EvRelatedQueries
| EvInterestOverTime
| EvTrendingSearches (pn : string).

Record world := {
  clock : Q;
  last_request : stamp_file;
  cache : gmap string cache_file;
  draws : nat;
  trace : list event
}.

(** The answer of the autocomplete endpoint: the status code and the value
    of [r.json()[1]], which raises on a body of another shape. *)
Record response := { status_code : Z; json_1 : outcome (list string) }.

Inductive write_result := Written | OpenFails | DumpFails.

(** The behaviour of everything outside the module: the interpreter's
    [str.lower] and [str.strip], the network, the random generator and the
    outcome of the writes. *)
Record env := {
  lower : string -> string;
  strip : string -> string;
  requests_get : string -> outcome response;
  set_order : list string -> list string;
  TrendReq_full : option exn;
  TrendReq_basic : option exn;
  build_payload : list string -> string -> string -> option exn;
  related_queries : nat -> outcome (option related);
  interest_over_time : outcome (option (gmap string Q));
  trending_searches : string -> outcome (list string);
  random_bits : nat -> Z;
  write_stamp : option exn;
  write_cache : string -> write_result
}.

(** ** The monad: state plus exceptions *)

Definition M (A : Type) : Type := world -> outcome A * world.

Global Instance M_ret : MRet M := fun A a w => (Return a, w).

Global Instance M_bind : MBind M := fun A B f m w =>
  match m w with
  | (Return a, w') => f a w'
  | (Raise e, w') => (Raise e, w')
  end.

Definition raise {A} (e : exn) : M A := fun w => (Raise e, w).

(** [try: body except Exception as e: handler e] *)
Definition try_except {A} (body : M A) (handler : exn -> M A) : M A := fun w =>
  match body w with
  | (Return a, w') => (Return a, w')
  | (Raise e, w') => handler e w'
  end.

(** [try: body except TypeError: handler] *)
Definition try_except_TypeError {A} (body : M A) (handler : M A) : M A := fun w =>
  match body w with
  | (Raise (TypeError _), w') => handler w'
  | r => r
  end.

(** Runs [body] and hands its outcome to the continuation: the shape of a
    [try ... except] whose two branches continue differently. *)
Definition attempt_ {A} (body : M A) : M (outcome A) := fun w =>
  let (r, w') := body w in (Return r, w').

(** [for x in l: s = body s x], stopping at the first exception. *)
Fixpoint for_fold {A S} (body : S -> A -> M S) (s : S) (l : list A) : M S :=
  match l with
  | [] => mret s
  | x :: l' => s' ← body s x; for_fold body s' l'
  end.

(** [enumerate(l)] *)
Definition enumerate {A} (l : list A) : list (nat * A) := imap pair l.

Definition get_world : M world := fun w => (Return w, w).

Definition lift_outcome {A} (o : outcome A) : M A := fun w => (o, w).

Definition lift_failure (o : option exn) : M unit := fun w =>
  match o with
  | None => (Return tt, w)
  | Some e => (Raise e, w)
  end.

Definition emit (e : event) : M unit := fun w =>
  (Return tt, {| clock := clock w; last_request := last_request w;
                 cache := cache w; draws := draws w;
                 trace := trace w ++ [e] |}).

(** [time.time()] and [datetime.now()] *)
Definition now : M Q := fun w => (Return (clock w), w).

(** [time.sleep(seconds)] *)
Definition sleep (seconds : Q) : M unit := fun w =>
  (Return tt, {| clock := (clock w + seconds)%Q; last_request := last_request w;
                 cache := cache w; draws := draws w;
                 trace := trace w ++ [EvSleep seconds] |}).

Section GoogleTrends.

Variable E : env.

(** [random.random()]: a 53-bit integer scaled into [0, 1). *)
Definition random : M Q := fun w =>
  (Return (Qmake (random_bits E (draws w) mod 2 ^ 53) (2 ^ 53)),
   {| clock := clock w; last_request := last_request w; cache := cache w;
      draws := S (draws w); trace := trace w |}).

(** [random.uniform(a, b)] *)
Definition uniform (a b : Q) : M Q :=
  r ← random; mret (a + (b - a) * r)%Q.

(** *** Request throttle *)

Definition MIN_REQUEST_INTERVAL : Q := 60.

(** Lines 30-48.  [NoStamp] is the file that [exists()] does not find;
    whatever goes wrong inside the [try] gives [True]. *)
Definition can_make_request : M bool :=
  w ← get_world;
  match last_request w with
  | NoStamp => mret true
  | BadStamp => mret true
  | Stamp last_request_time =>
      t ← now;
      let time_since_last := (t - last_request_time)%Q in
      if Qltb time_since_last MIN_REQUEST_INTERVAL then mret false
      else mret true
  end.

Definition set_stamp_file (f : stamp_file) : M unit := fun w =>
  (Return tt, {| clock := clock w; last_request := f; cache := cache w;
                 draws := draws w; trace := trace w |}).

Definition record_request_time : M unit :=
  lift_failure (write_stamp E);;
  t ← now;
  set_stamp_file (Stamp t).

(** *** Response cache *)

(** Lines 57-80.  [None] in the map is the file that [exists()] does not
    find; whatever goes wrong inside the [try] gives [None]. *)
Definition get_cached_results (cache_key : string) (max_age_hours : Q)
  : M (option (list trend)) :=
  w ← get_world;
  match cache w !! cache_key with
  | None => mret None
  | Some Corrupt => mret None
  | Some (Entry cache_time results) =>
      t ← now;
      let age := (t - cache_time)%Q in
      if Qltb age (max_age_hours * 3600) then mret (Some results)
      else mret None
  end.

Definition set_cache_file (cache_key : string) (f : cache_file) : M unit := fun w =>
  (Return tt, {| clock := clock w; last_request := last_request w;
                 cache := <[cache_key := f]> (cache w); draws := draws w;
                 trace := trace w |}).

(** Both failures are swallowed by the [except]; a failure inside
    [json.dump] happens after [open(..., 'w')] truncated the file. *)
Definition save_to_cache (cache_key : string) (results : list trend) : M unit :=
  match write_cache E cache_key with
  | Written => t ← now; set_cache_file cache_key (Entry t results)
  | OpenFails => mret tt
  | DumpFails => set_cache_file cache_key Corrupt
  end.

(** *** Keyword discovery *)

Definition seed_terms : list string :=
  ["education"; "exam"; "online course"; "study tips"; "scholarship"].

(** One round of the loop over [seed_terms[:3]].  Nothing after the
    [update] can raise, so the handler's set is the set before the round. *)
Definition autocomplete (all_keywords : gset string) (seed : string)
  : M (gset string) :=
  try_except
    (emit (EvSuggest seed);;
     r ← lift_outcome (requests_get E seed);
     all_keywords' ←
       (if (status_code r =? 200)%Z
        then suggestions ← lift_outcome (json_1 r);
             mret (all_keywords ∪ list_to_set (take 2 suggestions))
        else mret all_keywords);
     delay ← uniform 1 2;
     sleep delay;;
     mret all_keywords')
    (fun _ => mret all_keywords).

(** [list(all_keywords)] iterates the set in an order the interpreter
    chooses: [set_order E] applied to the elements. *)
Definition fetch_dynamic_keywords : M (list string) :=
  all_keywords ← for_fold autocomplete (list_to_set seed_terms) (take 3 seed_terms);
  mret (take 10 (set_order E (elements all_keywords))).

(** *** Ranking: [results.sort(key=lambda x: x['score'], reverse=True)]

    [list.sort] is stable, also under [reverse=True]; a stable insertion
    sort into non-increasing order has the same result. *)

Fixpoint insert_by_score (x : trend) (l : list trend) : list trend :=
  match l with
  | [] => [x]
  | y :: l' =>
      if Qltb (score x) (score y) then y :: insert_by_score x l' else x :: l
  end.

Fixpoint sort_by_score_reverse (l : list trend) : list trend :=
  match l with
  | [] => []
  | x :: l' => insert_by_score x (sort_by_score_reverse l')
  end.

(** *** Normalising the rows of [related_queries()] *)

(** [float(v)] *)
Definition float (v : raw_value) : M Q :=
  match v with
  | Numeric q => mret q
  | Text s => raise (ValueError ("could not convert string to float: '" +:+ s +:+ "'"))
  end.

(** [v == 'Breakout'] *)
Definition is_Breakout (v : raw_value) : bool :=
  match v with
  | Text s => String.eqb s "Breakout"
  | Numeric _ => false
  end.

(** The loop state: [results] and [seen_keywords]. *)
Definition accumulator : Type := list trend * gset string.

Definition rising_row (acc : accumulator) (r : row) : M accumulator :=
  let '(results, seen_keywords) := acc in
  let kw := strip E (lower E (query r)) in
  if bool_decide (kw ∈ seen_keywords) then mret acc
  else
    score ← (if is_Breakout (value r) then mret 100%Q else float (value r));
    t ← now;
    mret (results ++ [primary_record (query r) score rising t],
          seen_keywords ∪ {[kw]}).

Definition top_row (acc : accumulator) (r : row) : M accumulator :=
  let '(results, seen_keywords) := acc in
  let kw := strip E (lower E (query r)) in
  if bool_decide (kw ∈ seen_keywords) then mret acc
  else
    score ← float (value r);
    t ← now;
    mret (results ++ [primary_record (query r) score top t],
          seen_keywords ∪ {[kw]}).

(** The body of [for key in data]; an absent or empty frame is skipped. *)
Definition process_group (acc : accumulator) (kg : string * group)
  : M accumulator :=
  acc ← match g_rising (snd kg) with
        | Some rows => for_fold rising_row acc rows
        | None => mret acc
        end;
  match g_top (snd kg) with
  | Some rows => for_fold top_row acc rows
  | None => mret acc
  end.

(** Lines 216-250: the accumulated [results], in discovery order. *)
Definition process_queries (data : related) : M (list trend) :=
  acc ← for_fold process_group ([], ∅) data;
  mret (fst acc).

(** *** Fallback query *)

Definition interest_row (last : gmap string Q) (results : list trend)
    (kw : string) : M (list trend) :=
  let score := default 0%Q (last !! kw) in
  if Qltb 0 score then
    t ← now;
    mret (results ++ [fallback_record kw score t])
  else mret results.

(** [interest_over_time E] is the last row of the frame, or [None] for a
    missing or empty frame. *)
Definition fallback_interest (keywords : list string) (cache_key : string)
  : M (list trend) :=
  try_except
    (emit EvInterestOverTime;;
     df ← lift_outcome (interest_over_time E);
     match df with
     | None => mret []
     | Some last =>
         results ← for_fold (interest_row last) [] keywords;
         let results := sort_by_score_reverse results in
         save_to_cache cache_key results;;
         mret results
     end)
    (fun _ => mret []).

(** *** Retrieval strategy *)

(** The [except] branch of one attempt (lines 204-210). *)
Definition backoff (attempt : nat) (e : exn) : M unit :=
  if contains "429" (str e) then
    let wait_time := inject_Z (2 ^ Z.of_nat attempt * 30) in
    sleep wait_time
  else
    delay ← uniform 5 10;
    sleep delay.

(** The [for attempt in range(3)] loop around [related_queries()]; a
    [Return] is the [break]. *)
Fixpoint related_queries_retry (attempts : list nat) : M (option related) :=
  match attempts with
  | [] => mret None
  | attempt :: rest =>
      r ← attempt_ (emit EvRelatedQueries;;
                    lift_outcome (related_queries E attempt));
      match r with
      | Return data => mret data
      | Raise e => backoff attempt e;; related_queries_retry rest
      end
  end.

(** Lines 216-263: normalise the rows, fall back on an empty list,
    otherwise rank, cache and return. *)
Definition rank_queries (keywords : list string) (cache_key : string)
    (data : related) : M (list trend) :=
  results ← process_queries data;
  if (length results =? 0)%nat then fallback_interest keywords cache_key
  else
    let results := sort_by_score_reverse results in
    save_to_cache cache_key results;;
    mret results.

(** The body of the outer [try] (lines 187-263). *)
Definition query_provider (keywords : list string)
    (geo timeframe cache_key : string) : M (list trend) :=
  emit (EvBuildPayload keywords timeframe geo);;
  lift_failure (build_payload E keywords timeframe geo);;
  record_request_time;;
  data ← related_queries_retry (seq 0 3);
  match data with
  | None => fallback_interest keywords cache_key
  | Some data => rank_queries keywords cache_key data
  end.

(** The outer [except Exception as e] (lines 265-276). *)
Definition on_error (cache_key : string) (e : exn) : M (list trend) :=
  let error_msg := str e in
  if contains "429" error_msg || contains "rate" (lower E error_msg) then
    cached ← get_cached_results cache_key 24;
    match cached with
    | Some (r :: rs) => mret (r :: rs)
    | _ => mret []
    end
  else mret [].

(** [if cached: return cached] lets only a non-empty list through. *)
Definition fetch_google_trends (geo timeframe : string) (use_cache : bool)
    (cache_hours : Q) : M (list trend) :=
  let cache_key := "google_trends_" +:+ geo +:+ "_" +:+ timeframe in
  cached ← (if use_cache then get_cached_results cache_key cache_hours
            else mret None);
  match cached with
  | Some (r :: rs) => mret (r :: rs)
  | _ =>
      allowed ← can_make_request;
      if negb allowed then
        cached ← get_cached_results cache_key 24;
        match cached with
        | Some (r :: rs) => mret (r :: rs)
        | _ => mret []
        end
      else
        keywords ← fetch_dynamic_keywords;
        try_except_TypeError
          (emit EvTrendReq;; lift_failure (TrendReq_full E))
          (emit EvTrendReq;; lift_failure (TrendReq_basic E));;
        try_except (query_provider keywords geo timeframe cache_key)
                   (on_error cache_key)
  end.

(** *** Lightweight trending list *)

Definition edu_keywords : list string :=
  ["exam"; "result"; "admission"; "course"; "university";
   "college"; "school"; "education"; "student"; "study";
   "test"; "entrance"; "scholarship"; "degree"; "learning";
   "jee"; "neet"; "upsc"; "gate"; "cat"; "gre"; "ielts"].

(** [any(term in keyword.lower() for term in edu_keywords)] *)
Definition is_education (keyword : string) : bool :=
  existsb (fun term => contains term (lower E keyword)) edu_keywords.

Definition trending_row (results : list trend) (ik : nat * string)
  : M (list trend) :=
  let '(idx, keyword) := ik in
  if is_education keyword then
    t ← now;
    mret (results ++ [trending_record t (idx, keyword)])
  else mret results.

Definition get_trending_topics (geo : string) : M (list trend) :=
  let cache_key := "trending_topics_" +:+ geo in
  cached ← get_cached_results cache_key 0.5;
  match cached with
  | Some (r :: rs) => mret (r :: rs)
  | _ =>
      try_except
        (emit EvTrendReq;;
         lift_failure (TrendReq_basic E);;
         emit (EvTrendingSearches (lower E geo));;
         trending ← lift_outcome (trending_searches E (lower E geo));
         results ← for_fold trending_row [] (enumerate trending);
         save_to_cache cache_key results;;
         mret results)
        (fun _ => mret [])
  end.

End GoogleTrends.

(** ** Environments and worlds used in the examples *)

Definition quiet_env : env := {|
  lower := ascii_lower;
  strip := ascii_strip;
  requests_get := fun _ => Raise (OtherError "connection refused");
  set_order := fun l => l;
  TrendReq_full := None;
  TrendReq_basic := None;
  build_payload := fun _ _ _ => None;
  related_queries := fun _ => Return (Some []);
  interest_over_time := Return None;
  trending_searches := fun _ => Return [];
  random_bits := fun _ => 0%Z;
  write_stamp := None;
  write_cache := fun _ => Written
|}.

Definition fresh_world : world := {|
  clock := 1000; last_request := NoStamp; cache := ∅; draws := 0; trace := []
|}.

(** One keyword group with a repeated query text and tied scores. *)
Definition tie_data : related :=
  [("exam",
    {| g_rising := Some [ {| query := "exam result"; value := Text "Breakout" |};
                          {| query := "neet 2025"; value := Numeric 100 |};
                          {| query := " Exam Result "; value := Numeric 450 |};
                          {| query := "exam date"; value := Numeric 50 |} ];
       g_top := Some [ {| query := "NEET 2025"; value := Numeric 90 |};
                       {| query := "board exam"; value := Numeric 100 |} ] |})].

Definition tie_results : list trend :=
  [ primary_record "exam result" 100 rising 1000;
    primary_record "neet 2025" 100 rising 1000;
    primary_record "exam date" 50 rising 1000;
    primary_record "board exam" 100 top 1000 ].

(** The autocomplete endpoint suggests ["Exam"] for the seed ["exam"], the
    primary query has no rows, and the time series has a column for each of
    the two spellings. *)
Definition mixed_case_env : env := {|
  lower := ascii_lower;
  strip := ascii_strip;
  requests_get := fun seed =>
    if String.eqb seed "exam"
    then Return {| status_code := 200; json_1 := Return ["Exam"] |}
    else Raise (OtherError "timed out");
  set_order := fun l => l;
  TrendReq_full := None;
  TrendReq_basic := None;
  build_payload := fun _ _ _ => None;
  related_queries := fun _ => Return (Some []);
  interest_over_time := Return (Some (list_to_map [("exam", 80%Q); ("Exam", 60%Q)]));
  trending_searches := fun _ => Return [];
  random_bits := fun _ => 0%Z;
  write_stamp := None;
  write_cache := fun _ => Written
|}.

(** The pytrends constructor cannot reach the provider (it fetches a cookie
    over the network when it is built). *)
Definition offline_env : env := {|
  lower := ascii_lower;
  strip := ascii_strip;
  requests_get := fun _ => Raise (OtherError "connection refused");
  set_order := fun l => l;
  TrendReq_full := Some (OtherError "HTTPSConnectionPool: Max retries exceeded");
  TrendReq_basic := Some (OtherError "HTTPSConnectionPool: Max retries exceeded");
  build_payload := fun _ _ _ => Some (OtherError "connection refused");
  related_queries := fun _ => Raise (OtherError "connection refused");
  interest_over_time := Raise (OtherError "connection refused");
  trending_searches := fun _ => Raise (OtherError "connection refused");
  random_bits := fun _ => 0%Z;
  write_stamp := None;
  write_cache := fun _ => Written
|}.

(** The trending list of the scenario in the specification. *)
Definition scenario_env : env := {|
  lower := ascii_lower;
  strip := ascii_strip;
  requests_get := fun _ => Raise (OtherError "connection refused");
  set_order := fun l => l;
  TrendReq_full := None;
  TrendReq_basic := None;
  build_payload := fun _ _ _ => None;
  related_queries := fun _ => Return (Some tie_data);
  interest_over_time := Return None;
  trending_searches := fun _ =>
    Return ["iPhone 16 launch"; "JEE Main result 2025"; "Cricket score"];
  random_bits := fun _ => 0%Z;
  write_stamp := None;
  write_cache := fun _ => Written
|}.

(** The worlds after a write of [tie_results] under the key of the trending
    list and under the key of the default query, and after a recorded
    request. *)
Definition saved_world : world :=
  snd (save_to_cache quiet_env "trending_topics_IN" tie_results fresh_world).

Definition primed_world : world :=
  snd (save_to_cache quiet_env "google_trends_IN_now 1-d" tie_results fresh_world).

Definition stamped_world : world :=
  snd (record_request_time quiet_env fresh_world).

(** A world whose cache holds a just-written, empty entry for the default
    query. *)
Definition empty_entry_world : world := {|
  clock := 1000; last_request := NoStamp;
  cache := {[ "google_trends_IN_now 1-d" := Entry 1000 [] ]};
  draws := 0; trace := []
|}.

(** Every primary query is answered with a rate-limit error. *)
Definition rate_limited_env : env := {|
  lower := ascii_lower;
  strip := ascii_strip;
  requests_get := fun _ => Raise (OtherError "connection refused");
  set_order := fun l => l;
  TrendReq_full := None;
  TrendReq_basic := None;
  build_payload := fun _ _ _ => None;
  related_queries := fun _ =>
    Raise (OtherError "The request failed: Google returned a response with code 429");
  interest_over_time := Return None;
  trending_searches := fun _ => Return [];
  random_bits := fun _ => 0%Z;
  write_stamp := None;
  write_cache := fun _ => Written
|}.

(** The cache directory cannot be written. *)
Definition read_only_env : env := {|
  lower := ascii_lower;
  strip := ascii_strip;
  requests_get := fun _ => Raise (OtherError "connection refused");
  set_order := fun l => l;
  TrendReq_full := None;
  TrendReq_basic := None;
  build_payload := fun _ _ _ => None;
  related_queries := fun _ => Return (Some tie_data);
  interest_over_time := Return None;
  trending_searches := fun _ => Return [];
  random_bits := fun _ => 0%Z;
  write_stamp := Some (OtherError "[Errno 13] Permission denied");
  write_cache := fun _ => OpenFails
|}.

(** The sentinel in a row, and a numeric row of the same query text. *)
Definition breakout_row : row := {| query := "Exam Result"; value := Text "Breakout" |}.
Definition numeric_row : row := {| query := "Exam Result"; value := Numeric 450 |}.

Definition with_related (E : env) (f : nat -> outcome (option related)) : env :=
  {| lower := lower E; strip := strip E;
     requests_get := requests_get E; set_order := set_order E;
     TrendReq_full := TrendReq_full E; TrendReq_basic := TrendReq_basic E;
     build_payload := build_payload E; related_queries := f;
     interest_over_time := interest_over_time E;
     trending_searches := trending_searches E; random_bits := random_bits E;
     write_stamp := write_stamp E; write_cache := write_cache E |}.


(** ** Vocabulary of the properties *)

(** The comparison key of the deduplication: [row['query'].lower().strip()]. *)
Definition normalise (E : env) (q : string) : string := strip E (lower E q).

(** [a] may stand before [b] in a list ranked by score. *)
Definition score_ge (a b : trend) : Prop := (score b <= score a)%Q.

(** The records whose score is numerically [q]. *)
Definition has_score (q : Q) (t : trend) : bool := Qeq_bool (score t) q.

(** The raw rows of a provider answer in the order the loops visit them:
    per keyword, the ["rising"] frame and then the ["top"] frame. *)
Definition rows_of_group (g : group) : list (record_type * row) :=
  (pair rising <$> default [] (g_rising g)) ++ (pair top <$> default [] (g_top g)).

Definition rows_of (data : related) : list (record_type * row) :=
  flat_map (fun kg => rows_of_group (snd kg)) data.

Definition row_key (E : env) (tr : record_type * row) : string :=
  normalise E (query (snd tr)).

(** The rows that are the first of their key, given the keys seen before. *)
Fixpoint first_occurrences (E : env) (earlier : gset string)
    (rows : list (record_type * row)) : list (record_type * row) :=
  match rows with
  | [] => []
  | tr :: rows' =>
      if bool_decide (row_key E tr ∈ earlier) then first_occurrences E earlier rows'
      else tr :: first_occurrences E (earlier ∪ {[row_key E tr]}) rows'
  end.

(** Record [t] is the one lines 228-234 or 243-249 build from a raw row. *)
Definition built_from (t : trend) (tr : record_type * row) : Prop :=
  keyword t = query (snd tr) /\ type t = fst tr /\ source t = google_trends
  /\ (value (snd tr) = Numeric (score t)
      \/ (fst tr = rising /\ value (snd tr) = Text "Breakout" /\ score t = 100%Q)).

(** A piece [m] of the loops of lines 220-250 visits exactly [rows]: started
    from any [results] and [seen_keywords], a run that returns leaves the
    world alone, appends one record per first occurrence and adds the keys
    of all of [rows] to [seen_keywords]. *)
Definition visits (E : env) (m : accumulator -> M accumulator)
    (rows : list (record_type * row)) : Prop :=
  forall results seen w acc' w',
    m (results, seen) w = (Return acc', w') ->
    w' = w
    /\ exists new,
         acc' = (results ++ new, seen ∪ list_to_set (row_key E <$> rows))
         /\ Forall2 built_from new (first_occurrences E seen rows).

(** Every run of [m] returns, with a value satisfying [P]: no exception
    leaves [m]. *)
Definition yields {A} (m : M A) (P : A -> Prop) : Prop :=
  forall w, exists a w', m w = (Return a, w') /\ P a.

Definition never_raises {A} (m : M A) : Prop := yields m (fun _ => True).

Definition is_related_queries (e : event) : bool :=
  match e with EvRelatedQueries => true | _ => false end.

(** A run of [m] issues the primary query [related_queries()] at most [n]
    times. *)
Definition queries_at_most (n : nat) {A} (m : M A) : Prop :=
  forall w, exists evs,
    trace (snd (m w)) = trace w ++ evs
    /\ (length (List.filter is_related_queries evs) <= n)%nat.

(** The wait the retry loop takes after attempt number [attempt] failed with
    [e]: 30 * 2^attempt seconds on a rate-limit error, between 5 and 10
    seconds otherwise. *)
Definition backoff_wait (attempt : nat) (e : exn) (seconds : Q) : Prop :=
  if contains "429" (str e) then seconds = inject_Z (30 * 2 ^ Z.of_nat attempt)
  else (5 <= seconds /\ seconds <= 10)%Q.

(** The events of the loop of lines 199-210 from attempt number [attempt]
    on, and what it leaves in [data]: an attempt that raises is a query
    followed by one wait fitting the attempt and the error; the loop ends at
    the first query that returns (the [break]), or after attempt number 2
    with no data. *)
Inductive retries (E : env) : nat -> list event -> option related -> Prop :=
| retries_exhausted : retries E 3 [] None
| retries_break attempt data :
    (attempt < 3)%nat ->
    related_queries E attempt = Return data ->
    retries E attempt [EvRelatedQueries] data
| retries_again attempt e seconds evs data :
    (attempt < 3)%nat ->
    related_queries E attempt = Raise e ->
    backoff_wait attempt e seconds ->
    retries E (S attempt) evs data ->
    retries E attempt (EvRelatedQueries :: EvSleep seconds :: evs) data.

(** A call of [fetch_google_trends] gets as far as the primary query: the
    first lookup (when [use_cache] is on) returns, and not with a non-empty
    list; the throttle check returns [True]; the client is built (at once,
    or at the second try after a [TypeError]); [build_payload] accepts the
    keyword list this call discovers; the request time is recorded. *)
Definition reaches_query (E : env) (geo timeframe : string) (use_cache : bool)
    (cache_hours : Q) (w : world) : Prop :=
  let cache_key := "google_trends_" +:+ geo +:+ "_" +:+ timeframe in
  (exists cached,
     (if use_cache then get_cached_results cache_key cache_hours
      else mret None) w = (Return cached, w)
     /\ forall r rs, cached <> Some (r :: rs))
  /\ can_make_request w = (Return true, w)
  /\ (TrendReq_full E = None
      \/ (exists msg, TrendReq_full E = Some (TypeError msg))
         /\ TrendReq_basic E = None)
  /\ (forall keywords w1,
        fetch_dynamic_keywords E w = (Return keywords, w1) ->
        build_payload E keywords timeframe geo = None)
  /\ write_stamp E = None.

(** The lookups of [cache_key] return.  The existence check of line 61
    stands before the [try] of [get_cached_results], so a lookup returns
    only when that check answers; a property that depends on a lookup made
    along the way names this as a condition. *)
Definition lookups_return (cache_key : string) : Prop :=
  forall max_age_hours w, exists cached,
    get_cached_results cache_key max_age_hours w = (Return cached, w).

(** One of the three attempts of the primary query returns [data], the
    attempts before it having raised. *)
Definition answers_with (E : env) (data : related) : Prop :=
  exists i, (i < 3)%nat
            /\ related_queries E i = Return (Some data)
            /\ forall j, (j < i)%nat -> exists e, related_queries E j = Raise e.

(** The rows of [data] normalise, at any time, to a non-empty list: every
    value met converts, and there is at least one row. *)
Definition normalises (E : env) (data : related) : Prop :=
  forall w, exists results,
    process_queries E data w = (Return results, w) /\ results <> [].

(** ** More vocabulary: what a run leaves alone *)

(** Every run of [m], returning or raising, leads to a world related to the
    starting one by [R]. *)
Definition keeps (R : world -> world -> Prop) {A} (m : M A) : Prop :=
  forall w, R w (snd (m w)).

(** The files are as they were: no cache entry and no stamp was written. *)
Definition same_files (w w' : world) : Prop :=
  cache w' = cache w /\ last_request w' = last_request w.

(** The throttle sees no difference: same clock reading, same stamp. *)
Definition same_throttle (w w' : world) : Prop :=
  clock w' = clock w /\ last_request w' = last_request w.

(** What [if cached: return cached ... return []] makes of a lookup. *)
Definition payload_or_empty (cached : option (list trend)) : list trend :=
  match cached with
  | Some (r :: rs) => r :: rs
  | _ => []
  end.

(** The provider rejects the payload (more than five keywords, say). *)
Definition bad_payload_env : env := {|
  lower := ascii_lower;
  strip := ascii_strip;
  requests_get := fun _ => Raise (OtherError "connection refused");
  set_order := fun l => l;
  TrendReq_full := None;
  TrendReq_basic := None;
  build_payload := fun _ _ _ =>
    Some (OtherError "The request failed: Google returned a response with code 400");
  related_queries := fun _ => Return (Some tie_data);
  interest_over_time := Return None;
  trending_searches := fun _ => Return [];
  random_bits := fun _ => 0%Z;
  write_stamp := None;
  write_cache := fun _ => Written
|}.

(** The keyword has a positive value in the last row of the time series. *)
Definition has_interest (last : gmap string Q) (kw : string) : bool :=
  Qltb 0 (default 0%Q (last !! kw)).

(** A time series in which two of the five seed terms have a positive value. *)
Definition interest_env : env := {|
  lower := ascii_lower;
  strip := ascii_strip;
  requests_get := fun _ => Raise (OtherError "connection refused");
  set_order := fun l => l;
  TrendReq_full := None;
  TrendReq_basic := None;
  build_payload := fun _ _ _ => None;
  related_queries := fun _ => Return (Some []);
  interest_over_time :=
    Return (Some (list_to_map [("exam", 40%Q); ("education", 75%Q);
                               ("scholarship", 0%Q)]));
  trending_searches := fun _ => Return [];
  random_bits := fun _ => 0%Z;
  write_stamp := None;
  write_cache := fun _ => Written
|}.

(** What the accumulator takes from the autocomplete endpoint for [seed]:
    the first two suggestions of a 200 answer, and nothing when the request
    raises, the status is another one or the body has an unexpected shape. *)
Definition suggested (E : env) (seed : string) : list string :=
  match requests_get E seed with
  | Return r =>
      if (status_code r =? 200)%Z then
        match json_1 r with
        | Return suggestions => take 2 suggestions
        | Raise _ => []
        end
      else []
  | Raise _ => []
  end.

(** The seeds and everything taken from the endpoint for the first three. *)
Definition discovered (E : env) : gset string :=
  list_to_set seed_terms ∪ list_to_set (flat_map (suggested E) (take 3 seed_terms)).

Definition is_suggest (e : event) : bool :=
  match e with EvSuggest _ => true | _ => false end.

(** A raw row converts: its value is a number, or the sentinel in a
    "rising" frame. *)
Definition convertible (tr : record_type * row) : Prop :=
  match value (snd tr) with
  | Numeric _ => True
  | Text s => fst tr = rising /\ s = "Breakout"
  end.


(** A piece [m] of the loops of lines 220-250 gets through [rows]: it
    returns whenever the rows of [rows] that are first of their key convert. *)
Definition gets_through (E : env) (m : accumulator -> M accumulator)
    (rows : list (record_type * row)) : Prop :=
  forall results seen w,
    Forall convertible (first_occurrences E seen rows) ->
    exists acc', m (results, seen) w = (Return acc', w).

(** The constructor of the provider client lets [e] escape. *)
Definition constructor_raises (E : env) (e : exn) : Prop :=
  (TrendReq_full E = Some e /\ forall msg, e <> TypeError msg)
  \/ ((exists msg, TrendReq_full E = Some (TypeError msg))
      /\ TrendReq_basic E = Some e).

(** * Reddit listing (fetch/reddit_trends.py) *)

Module Reddit.

Definition SUBREDDITS : list string :=
  ["education"; "Teachers"; "teaching"; "EdTech"; "HigherEducation"; "academia";
   "college"; "university"; "gradschool"; "PhD"; "AskAcademia"; "Professors";
   "Scholarships"; "students"; "learnpython"; "learnprogramming";
   "learnmachinelearning"; "languagelearning"; "edX"; "Coursera"; "MOOCs";
   "learnmath"; "learnenglish"; "science"; "math"; "Physics"; "chemistry";
   "biology"; "Engineering"; "computerscience"; "datascience";
   "MachineLearning"; "deeplearning"; "ArtificialInteligence"; "robotics";
   "UPSC"; "JEENEETards"; "JEE"; "NEET"; "CATprep"; "GATEprep"; "SSC_CGL";
   "civilservices"; "IAS"; "SAT"; "ACT"; "GMAT"; "GRE"; "IELTS"; "TOEFL";
   "study"; "studyhack"; "GetStudying"; "productivity"; "research"].

(** A submission as the loop reads it: [post.title], and [post.score], an
    integer or [None]. *)
Record post := { title : string; post_score : option Z }.

(** The dict of lines 35-39. *)
Record item := { keyword : string; score : Z; source : string }.

(** Iterating [reddit.subreddit(name).hot(limit=8)]: the generator hands out
    a submission and goes on, is exhausted, or raises (the listing is fetched
    lazily, so a missing or private subreddit raises here). *)
Inductive listing :=
| Exhausted
| Next (p : post) (rest : listing)
| Fails (e : exn).

(** The behaviour of the Reddit client. *)
Record reddit_env := {
  Reddit : option exn;
  hot : string -> nat -> listing
}.

(** [int(post.score) if post.score else 0]: [None] and [0] are falsy. *)
Definition int_or_0 (s : option Z) : Z :=
  match s with
  | Some n => if (n =? 0)%Z then 0%Z else n
  | None => 0%Z
  end.

Definition record (p : post) : item :=
  {| keyword := title p; score := int_or_0 (post_score p); source := "reddit" |}.

(** Lines 34-39.  [results] is a list that is appended to in place: what was
    appended before the generator raised stays in it.  The loop gives back
    the list and the exception that ended it, if any. *)
Fixpoint append_posts (results : list item) (l : listing)
  : list item * option exn :=
  match l with
  | Exhausted => (results, None)
  | Next p rest => append_posts (results ++ [record p]) rest
  | Fails e => (results, Some e)
  end.

Section Fetch.

Variable E : env.
Variable R : reddit_env.

(** The body of the loop over the subreddits (lines 31-45).  The decimal
    constants are read as exact rationals, as all numbers of this model. *)
Definition subreddit (results : list item) (name : string) : M (list item) :=
  let (results, stopped) := append_posts results (hot R name 8) in
  try_except
    (lift_failure stopped;;
     seconds ← uniform E (2 # 10) (6 # 10);
     sleep seconds;;
     mret results)
    (fun _ => mret results).

Definition fetch_reddit_trends : M (list item) :=
  try_except
    (lift_failure (Reddit R);;
     for_fold subreddit [] SUBREDDITS)
    (fun _ => mret []).

End Fetch.

(** The submissions a listing hands out before it ends or raises. *)
Fixpoint yielded (l : listing) : list post :=
  match l with
  | Exhausted | Fails _ => []
  | Next p rest => p :: yielded rest
  end.

(** The listing ends without an exception. *)
Fixpoint completes (l : listing) : bool :=
  match l with
  | Exhausted => true
  | Next _ rest => completes rest
  | Fails _ => false
  end.

(** The records of one subreddit, and of all of them in the order of
    [SUBREDDITS]. *)
Definition records_of (R : reddit_env) (name : string) : list item :=
  record <$> yielded (hot R name 8).

Definition all_records (R : reddit_env) : list item :=
  match Reddit R with
  | None => flat_map (records_of R) SUBREDDITS
  | Some _ => []
  end.

(** The number of pauses of a run: one for each subreddit whose listing
    ends without an exception. *)
Definition pauses (R : reddit_env) : nat :=
  match Reddit R with
  | None => length (List.filter (fun name => completes (hot R name 8)) SUBREDDITS)
  | Some _ => 0
  end.

(** Two subreddits answer, one of them breaking off after its first
    submission; the others are empty. *)
Definition campus : reddit_env := {|
  Reddit := None;
  hot := fun name _ =>
    if String.eqb name "education" then
      Next {| title := "Exam season tips"; post_score := Some 120%Z |}
        (Next {| title := "New here"; post_score := None |} Exhausted)
    else if String.eqb name "Teachers" then
      Next {| title := "Grading load"; post_score := Some 0%Z |}
        (Fails (OtherError "received 403 HTTP response"))
    else Exhausted
|}.

End Reddit.

(** * The scheduled job (services/scheduler.py) *)

(** The three keys that [save_to_db] reads from a dict. *)
Class Item (A : Type) := {
  item_keyword : A -> string;
  item_source : A -> string;
  item_score : A -> Q
}.

(** The string under "source" in the dicts of google_trends.py. *)
Definition source_name (s : record_source) : string :=
  match s with
  | google_trends => "google_trends"
  | google_trends_fallback => "google_trends_fallback"
  | google_trending => "google_trending"
  end.

#[global] Instance trend_Item : Item trend := {|
  item_keyword := keyword;
  item_source := fun t => source_name (source t);
  item_score := score
|}.

#[global] Instance reddit_Item : Item Reddit.item := {|
  item_keyword := Reddit.keyword;
  item_source := Reddit.source;
  item_score := fun i => inject_Z (Reddit.score i)
|}.

Module Scheduler.

(** A row of the table [trends] (database/models.py) as the job fills it;
    [id] and [timestamp] are set by the database. *)
Record Trend := { keyword : string; source : string; score : Q }.

(** The files of the trends module and the table. *)
Record system := { files : world; table : list Trend }.

(** [db.commit()] is where the session talks to the database: it raises,
    or the rows added to the session are in the table. *)
Record db_env := { commit : list Trend -> option exn }.

Definition J (A : Type) : Type := system -> outcome A * system.

#[global] Instance J_ret : MRet J := fun A a s => (Return a, s).

#[global] Instance J_bind : MBind J := fun A B f m s =>
  match m s with
  | (Return a, s') => f a s'
  | (Raise e, s') => (Raise e, s')
  end.

(** A call into the fetch modules: it sees the files only. *)
Definition in_files {A} (m : M A) : J A := fun s =>
  let (r, w) := m (files s) in (r, {| files := w; table := table s |}).

Section Job.

Variable E : env.
Variable R : Reddit.reddit_env.
Variable D : db_env.

Definition new_Trend `{Item A} (item : A) : Trend :=
  {| keyword := item_keyword item; source := item_source item;
     score := item_score item |}.

(** Lines 8-18: the session collects the rows in the order of [db.add];
    [db.commit()] writes them. *)
Definition save_to_db `{Item A} (items : list A) : J unit := fun s =>
  let db := foldl (fun db item => db ++ [new_Trend item]) [] items in
  match commit D db with
  | Some e => (Raise e, s)
  | None => (Return tt, {| files := files s; table := table s ++ db |})
  end.

(** Lines 20-27; [fetch_google_trends()] is called with its defaults. *)
Definition scheduled_job : J unit :=
  google ← in_files (fetch_google_trends E "IN" "now 1-d" true 1);
  reddit ← in_files (Reddit.fetch_reddit_trends E R);
  save_to_db google;;
  save_to_db reddit.

End Job.

(** A database that takes every commit. *)
Definition sound_db : db_env := {| commit := fun _ => None |}.

Definition empty_system : system := {| files := fresh_world; table := [] |}.

End Scheduler.

(** * Video chart (fetch/youtube_trends.py) *)

Module YouTube.

(** An element of [response["items"]] as the loop reads it: under "snippet"
    (if the key is there) the title (if that key is there), and under
    "statistics" (if the key is there) the cell "viewCount", if there is
    one. *)
Record video := {
  snippet : option (option string);
  statistics : option (option raw_value)
}.

(** The dict of lines 20-24. *)
Record item := { keyword : string; score : Q; source : string }.

(** The behaviour of the API client: [build] raises or not; [execute]
    raises or gives the response, whose "items" may be missing. *)
Record youtube_env := {
  build : option exn;
  execute : outcome (option (list video))
}.

(** [d[key]] on a dict without the key. *)
Definition KeyError (key : string) : exn := OtherError ("'" +:+ key +:+ "'").

Definition subscript {A} (key : string) (o : option A) : outcome A :=
  match o with
  | Some a => Return a
  | None => Raise (KeyError key)
  end.

(** [float(x)] without the world: nothing is read or written. *)
Definition float (v : raw_value) : outcome Q :=
  match v with
  | Numeric q => Return q
  | Text s => Raise (ValueError ("could not convert string to float: '" +:+ s +:+ "'"))
  end.

(** The body of the loop (lines 17-24). *)
Definition video_item (results : list item) (v : video) : outcome (list item) :=
  match subscript "snippet" (snippet v) with
  | Raise e => Raise e
  | Return snippet =>
      match subscript "title" snippet with
      | Raise e => Raise e
      | Return title =>
          match subscript "statistics" (statistics v) with
          | Raise e => Raise e
          | Return statistics =>
              match float (default (Numeric 0) statistics) with
              | Raise e => Raise e
              | Return score =>
                  Return (results ++ [{| keyword := title; score := score;
                                         source := "youtube" |}])
              end
          end
      end
  end.

Fixpoint videos_loop (results : list item) (l : list video) : outcome (list item) :=
  match l with
  | [] => Return results
  | v :: l' =>
      match video_item results v with
      | Raise e => Raise e
      | Return results' => videos_loop results' l'
      end
  end.

Definition fetch_youtube_trends (Y : youtube_env) : outcome (list item) :=
  match build Y with
  | Some e => Raise e
  | None =>
      match execute Y with
      | Raise e => Raise e
      | Return response =>
          match subscript "items" response with
          | Raise e => Raise e
          | Return items => videos_loop [] items
          end
      end
  end.

(** What the loop makes of a video, when it makes something of it. *)
Definition charted (v : video) (i : item) : Prop :=
  exists title viewCount,
    snippet v = Some (Some title)
    /\ statistics v = Some viewCount
    /\ float (default (Numeric 0) viewCount) = Return (score i)
    /\ keyword i = title
    /\ source i = "youtube".

(** A chart of two videos, one of them without a view count. *)
Definition chart : youtube_env := {|
  build := None;
  execute := Return (Some [
    {| snippet := Some (Some "Board results explained");
       statistics := Some (Some (Numeric 1500000)) |};
    {| snippet := Some (Some "Live: convocation");
       statistics := Some None |}])
|}.

End YouTube.

(** ** Arithmetic on [Q] *)

Lemma Qltb_lt x y : Qltb x y = true <-> (x < y)%Q.
Proof.
  unfold Qltb. rewrite negb_true_iff, <- not_true_iff_false, Qle_bool_iff.
  split; [apply Qnot_le_lt | apply Qlt_not_le].
Qed.

Lemma Qltb_ge x y : Qltb x y = false <-> (y <= x)%Q.
Proof.
  unfold Qltb. rewrite negb_false_iff. apply Qle_bool_iff.
Qed.

(** ** Strings *)

Example normalise_example : normalise quiet_env "  JEE Main Result 2025 " = "jee main result 2025".
Proof. reflexivity. Qed.

Example strip_inner_blanks : ascii_strip "exam   date" = "exam   date".
Proof. reflexivity. Qed.

Lemma append_String c s t : String c s +:+ t = String c (s +:+ t).
Proof. reflexivity. Qed.

Lemma prefix_append needle hay :
  String.prefix needle hay = true <-> exists post, hay = needle +:+ post.
Proof.
  revert hay. induction needle as [|c needle IH]; intros hay; simpl.
  - split; [by exists hay|]. by destruct hay.
  - destruct hay as [|c' hay]; simpl.
    + split; [discriminate|]. intros [post Hpost].
      rewrite append_String in Hpost. discriminate.
    + destruct (ascii_dec c c') as [->|Hne].
      * rewrite IH. split; intros [post Hpost]; exists post;
          rewrite append_String in *; congruence.
      * split; [discriminate|]. intros [post Hpost].
        rewrite append_String in Hpost. congruence.
Qed.

Lemma contains_unfold needle hay :
  contains needle hay
  = String.prefix needle hay
    || match hay with
       | EmptyString => false
       | String _ hay' => contains needle hay'
       end.
Proof. by destruct hay. Qed.

(** [contains] is the substring test. *)
Lemma contains_substring needle hay :
  contains needle hay = true
  <-> exists pre post, hay = pre +:+ needle +:+ post.
Proof.
  induction hay as [|c hay IH]; rewrite contains_unfold, orb_true_iff, prefix_append.
  - split.
    + intros [[post Hpost]|?]; [|done]. by exists EmptyString, post.
    + intros (pre & post & Heq). left.
      destruct pre as [|c pre]; [by exists post|].
      rewrite append_String in Heq. discriminate.
  - rewrite IH. split.
    + intros [[post Hpost]|(pre & post & ->)].
      * by exists EmptyString, post.
      * by exists (String c pre), post.
    + intros ([|c' pre] & post & Heq).
      * left. by exists post.
      * right. rewrite append_String in Heq. injection Heq as -> ->.
        by exists pre, post.
Qed.

(** ** The ranking is a stable sort *)

Section Ranking.

Lemma insert_by_score_perm x l : insert_by_score x l ≡ₚ x :: l.
Proof.
  induction l as [|y l IH]; simpl; [done|].
  destruct (Qltb (score x) (score y)); [|done].
  rewrite IH. apply Permutation_swap.
Qed.

Lemma sort_by_score_reverse_perm l : sort_by_score_reverse l ≡ₚ l.
Proof.
  induction l as [|x l IH]; simpl; [done|].
  by rewrite insert_by_score_perm, IH.
Qed.

Lemma insert_by_score_sorted x l :
  StronglySorted score_ge l -> StronglySorted score_ge (insert_by_score x l).
Proof.
  induction 1 as [|y l Hl IH Hy]; simpl.
  - repeat constructor.
  - destruct (Qltb (score x) (score y)) eqn:Hxy.
    + constructor; [done|].
      rewrite insert_by_score_perm. constructor; [|done].
      apply Qltb_lt in Hxy. unfold score_ge. lra.
    + apply Qltb_ge in Hxy.
      constructor; [by constructor|].
      constructor; [done|].
      eapply Forall_impl; [exact Hy|].
      unfold score_ge. intros z Hz. lra.
Qed.

Lemma sort_by_score_reverse_sorted l :
  StronglySorted score_ge (sort_by_score_reverse l).
Proof.
  induction l as [|x l IH]; simpl; [constructor|].
  by apply insert_by_score_sorted.
Qed.

Lemma insert_by_score_filter q x l :
  List.filter (has_score q) (insert_by_score x l)
  = if has_score q x then x :: List.filter (has_score q) l
    else List.filter (has_score q) l.
Proof.
  induction l as [|y l IH]; simpl; [done|].
  destruct (Qltb (score x) (score y)) eqn:Hxy; [|done].
  simpl. rewrite IH. apply Qltb_lt in Hxy.
  unfold has_score in *.
  destruct (Qeq_bool (score x) q) eqn:Hx; [|done].
  destruct (Qeq_bool (score y) q) eqn:Hy; [|done].
  apply Qeq_bool_eq in Hx, Hy. lra.
Qed.

Lemma sort_by_score_reverse_stable q l :
  List.filter (has_score q) (sort_by_score_reverse l)
  = List.filter (has_score q) l.
Proof.
  induction l as [|x l IH]; simpl; [done|].
  rewrite insert_by_score_filter, IH. done.
Qed.

End Ranking.

(** ** Running the throttle and the cache *)

Ltac run :=
  unfold mbind, M_bind, mret, M_ret, try_except, try_except_TypeError,
    attempt_, lift_outcome, lift_failure, emit, now, get_world, raise,
    set_cache_file, set_stamp_file in *;
  simpl in *.

Lemma save_to_cache_returns E cache_key results w :
  exists w', save_to_cache E cache_key results w = (Return tt, w')
             /\ clock w' = clock w /\ trace w' = trace w.
Proof.
  unfold save_to_cache. destruct (write_cache E cache_key); run; eauto.
Qed.

Lemma get_cached_results_returns cache_key max_age_hours w :
  exists cached, get_cached_results cache_key max_age_hours w = (Return cached, w).
Proof.
  unfold get_cached_results. run.
  destruct (cache w !! cache_key) as [[|t rs]|]; eauto.
  destruct (Qltb _ _); eauto.
Qed.

Lemma get_cached_results_fresh cache_key max_age_hours w t rs :
  cache w !! cache_key = Some (Entry t rs) ->
  (clock w - t < max_age_hours * 3600)%Q ->
  get_cached_results cache_key max_age_hours w = (Return (Some rs), w).
Proof.
  intros Hc Hage. unfold get_cached_results. run. rewrite Hc.
  apply Qltb_lt in Hage. by rewrite Hage.
Qed.

Lemma can_make_request_returns w :
  exists allowed, can_make_request w = (Return allowed, w).
Proof.
  unfold can_make_request. run.
  destruct (last_request w); eauto. destruct (Qltb _ _); eauto.
Qed.

(** ** Which calls can raise *)

Section Exceptions.

Lemma yields_ret {A} (a : A) (P : A -> Prop) : P a -> yields (mret a) P.
Proof. intros Ha w. by exists a, w. Qed.

Lemma yields_bind {A B} (m : M A) (f : A -> M B) P Q :
  yields m P -> (forall a, P a -> yields (f a) Q) -> yields (m ≫= f) Q.
Proof.
  intros Hm Hf w. destruct (Hm w) as (a & w1 & Hrun & Ha).
  unfold mbind, M_bind. rewrite Hrun. by apply Hf.
Qed.

Lemma yields_weaken {A} (m : M A) (P Q : A -> Prop) :
  yields m P -> (forall a, P a -> Q a) -> yields m Q.
Proof.
  intros Hm HPQ w. destruct (Hm w) as (a & w' & Hrun & Ha). eauto.
Qed.

Lemma never_raises_bind {A B} (m : M A) (f : A -> M B) :
  never_raises m -> (forall a, never_raises (f a)) -> never_raises (m ≫= f).
Proof. intros Hm Hf. eapply yields_bind; [exact Hm|]. intros a _. apply Hf. Qed.

Lemma never_raises_try_except {A} (body : M A) handler :
  (forall e, never_raises (handler e)) -> never_raises (try_except body handler).
Proof.
  intros Hh w. unfold try_except.
  destruct (body w) as [[a|e] w']; [by exists a, w'|]. apply Hh.
Qed.

Lemma yields_for_fold {A S} (body : S -> A -> M S) (I : S -> Prop) l :
  (forall s a, I s -> yields (body s a) I) ->
  forall s, I s -> yields (for_fold body s l) I.
Proof.
  intros Hbody. induction l as [|a l IH]; intros s Hs; simpl.
  - by apply yields_ret.
  - eapply yields_bind; [by apply Hbody|]. apply IH.
Qed.

Lemma never_raises_get_cached_results cache_key max_age_hours :
  never_raises (get_cached_results cache_key max_age_hours).
Proof.
  intros w. destruct (get_cached_results_returns cache_key max_age_hours w) as [c ->].
  eauto.
Qed.


Lemma never_raises_cached_or (cached : option (list trend)) (k : M (list trend)) :
  never_raises k ->
  never_raises (match cached with
                | Some (r :: rs) => mret (r :: rs)
                | _ => k
                end).
Proof.
  intros Hk. destruct cached as [[|r rs]|]; try done. by apply yields_ret.
Qed.

Lemma never_raises_fallback_interest E keywords cache_key :
  never_raises (fallback_interest E keywords cache_key).
Proof.
  apply never_raises_try_except. intros _. by apply yields_ret.
Qed.

Lemma never_raises_on_error E cache_key e : never_raises (on_error E cache_key e).
Proof.
  unfold on_error. destruct (_ || _); [|by apply yields_ret].
  apply never_raises_bind; [apply never_raises_get_cached_results|].
  intros cached. apply never_raises_cached_or. by apply yields_ret.
Qed.

(** The lightweight path keeps its constructor inside the [try]. *)
Lemma get_trending_topics_never_raises E geo :
  never_raises (get_trending_topics E geo).
Proof.
  unfold get_trending_topics.
  apply never_raises_bind; [apply never_raises_get_cached_results|].
  intros cached. apply never_raises_cached_or.
  apply never_raises_try_except. intros _. by apply yields_ret.
Qed.

Lemma autocomplete_grows E all_keywords seed :
  yields (autocomplete E all_keywords seed) (fun s => all_keywords ⊆ s).
Proof.
  intros w. unfold autocomplete, uniform, random, sleep. run.
  destruct (requests_get E seed) as [r|e]; [|eauto].
  destruct (status_code r =? 200)%Z; [|eauto].
  destruct (json_1 r) as [suggestions|e]; [|eauto].
  eexists _, _. split; [done|]. set_solver.
Qed.

Lemma discovered_keywords_contain_seeds E :
  yields (for_fold (autocomplete E) (list_to_set seed_terms) (take 3 seed_terms))
         (fun s : gset string => list_to_set seed_terms ⊆ s).
Proof.
  apply (yields_for_fold (autocomplete E)
           (fun s : gset string => list_to_set seed_terms ⊆ s)); [|done].
  intros s seed Hs. eapply yields_weaken; [apply autocomplete_grows|].
  simpl. intros s' Hs'. by etrans.
Qed.

Lemma fetch_dynamic_keywords_never_raises E :
  never_raises (fetch_dynamic_keywords E).
Proof.
  unfold fetch_dynamic_keywords.
  eapply yields_bind; [apply discovered_keywords_contain_seeds|].
  intros s _. by apply yields_ret.
Qed.


End Exceptions.

(** ** Normalising the rows: deduplication and scores *)

Section Rows.

Variable E : env.

Lemma is_Breakout_true v : is_Breakout v = true <-> v = Text "Breakout".
Proof.
  destruct v as [q|s]; simpl; [split; discriminate|].
  rewrite String.eqb_eq. split; congruence.
Qed.

Lemma rising_row_seen results seen r w :
  normalise E (query r) ∈ seen ->
  rising_row E (results, seen) r w = (Return (results, seen), w).
Proof.
  intros Hin. unfold rising_row, normalise in *.
  rewrite bool_decide_eq_true_2 by done. done.
Qed.

Lemma top_row_seen results seen r w :
  normalise E (query r) ∈ seen ->
  top_row E (results, seen) r w = (Return (results, seen), w).
Proof.
  intros Hin. unfold top_row, normalise in *.
  rewrite bool_decide_eq_true_2 by done. done.
Qed.

Lemma rising_row_new results seen r w acc' w' :
  normalise E (query r) ∉ seen ->
  rising_row E (results, seen) r w = (Return acc', w') ->
  w' = w /\ exists t, acc' = (results ++ [t], seen ∪ {[normalise E (query r)]})
                      /\ built_from t (rising, r).
Proof.
  intros Hin. unfold rising_row, normalise in *.
  rewrite bool_decide_eq_false_2 by done.
  destruct (is_Breakout (value r)) eqn:Hb.
  - apply is_Breakout_true in Hb. run. intros [= <- <-].
    split; [done|]. eexists; split; [done|].
    unfold built_from; simpl. auto 10.
  - destruct (value r) as [q|s] eqn:Hv; run; [|discriminate].
    intros [= <- <-]. split; [done|]. eexists; split; [done|].
    unfold built_from; simpl. rewrite Hv. auto 10.
Qed.

Lemma top_row_new results seen r w acc' w' :
  normalise E (query r) ∉ seen ->
  top_row E (results, seen) r w = (Return acc', w') ->
  w' = w /\ exists t, acc' = (results ++ [t], seen ∪ {[normalise E (query r)]})
                      /\ built_from t (top, r).
Proof.
  intros Hin. unfold top_row, normalise in *.
  rewrite bool_decide_eq_false_2 by done.
  destruct (value r) as [q|s] eqn:Hv; run; [|discriminate].
  intros [= <- <-]. split; [done|]. eexists; split; [done|].
  unfold built_from; simpl. rewrite Hv. auto 10.
Qed.

Lemma first_occurrences_app seen l1 l2 :
  first_occurrences E seen (l1 ++ l2)
  = first_occurrences E seen l1
    ++ first_occurrences E (seen ∪ list_to_set (row_key E <$> l1)) l2.
Proof.
  revert seen. induction l1 as [|tr l1 IH]; intros seen; simpl.
  - by rewrite (right_id_L ∅ (∪)).
  - case_bool_decide as Hin; rewrite IH; simpl.
    + do 2 f_equal. set_solver.
    + do 3 f_equal. set_solver.
Qed.

Lemma visits_nil : visits E mret [].
Proof.
  intros results seen w acc' w' [= <- <-]. split; [done|].
  exists []. rewrite app_nil_r. split; [|constructor].
  f_equal. set_solver.
Qed.

Lemma visits_seq m1 m2 l1 l2 :
  visits E m1 l1 -> visits E m2 l2 ->
  visits E (fun acc => acc1 ← m1 acc; m2 acc1) (l1 ++ l2).
Proof.
  intros H1 H2 results seen w acc' w'. unfold mbind, M_bind.
  destruct (m1 (results, seen) w) as [[acc1|e] w1] eqn:Hm1; [|discriminate].
  apply H1 in Hm1 as (-> & new1 & -> & Hnew1).
  intros Hm2. apply H2 in Hm2 as (-> & new2 & -> & Hnew2).
  split; [done|]. exists (new1 ++ new2). split.
  - rewrite app_assoc, fmap_app, list_to_set_app_L. f_equal. set_solver.
  - rewrite first_occurrences_app. by apply Forall2_app.
Qed.

Lemma visits_for_fold {A} (step : accumulator -> A -> M accumulator)
    (rows_in : A -> list (record_type * row)) (l : list A) :
  (forall a, visits E (fun acc => step acc a) (rows_in a)) ->
  visits E (fun acc => for_fold step acc l) (flat_map rows_in l).
Proof.
  intros Hstep. induction l as [|a l IH]; simpl.
  - apply visits_nil.
  - apply (visits_seq (fun acc => step acc a) _ _ _ (Hstep a) IH).
Qed.

Lemma visits_row step ty r :
  (forall results seen w, normalise E (query r) ∈ seen ->
     step (results, seen) w = (Return (results, seen), w)) ->
  (forall results seen w acc' w', normalise E (query r) ∉ seen ->
     step (results, seen) w = (Return acc', w') ->
     w' = w /\ exists t, acc' = (results ++ [t], seen ∪ {[normalise E (query r)]})
                         /\ built_from t (ty, r)) ->
  visits E step [(ty, r)].
Proof.
  intros Hseen Hnew results seen w acc' w' Hrun. simpl.
  unfold row_key at 2; simpl. case_bool_decide as Hin.
  - rewrite Hseen in Hrun by done. injection Hrun as <- <-.
    split; [done|]. exists []. rewrite app_nil_r. split; [|constructor].
    f_equal. unfold row_key; simpl. set_solver.
  - apply Hnew in Hrun as (-> & t & -> & Ht); [|done].
    split; [done|]. exists [t]. split; [|by constructor; [|constructor]].
    f_equal. unfold row_key; simpl. set_solver.
Qed.

Lemma flat_map_singleton {A B} (f : A -> B) (l : list A) :
  flat_map (fun a => [f a]) l = f <$> l.
Proof. induction l; simpl; [done|]. by f_equal. Qed.

Lemma visits_frame step ty (rows : option (list row)) :
  (forall r, visits E (fun acc => step acc r) [(ty, r)]) ->
  visits E (fun acc => match rows with
                     | Some rows => for_fold step acc rows
                     | None => mret acc
                     end)
         (pair ty <$> default [] rows).
Proof.
  intros Hstep. destruct rows as [rows|]; simpl; [|apply visits_nil].
  rewrite <- flat_map_singleton. by apply visits_for_fold.
Qed.

Lemma visits_group kg :
  visits E (fun acc => process_group E acc kg) (rows_of_group (snd kg)).
Proof.
  unfold process_group, rows_of_group.
  apply (visits_seq
           (fun acc => match g_rising (snd kg) with
                       | Some rows => for_fold (rising_row E) acc rows
                       | None => mret acc
                       end)
           (fun acc => match g_top (snd kg) with
                       | Some rows => for_fold (top_row E) acc rows
                       | None => mret acc
                       end)).
  - apply visits_frame. intros r. apply visits_row.
    + intros. by apply rising_row_seen.
    + intros. by eapply rising_row_new.
  - apply visits_frame. intros r. apply visits_row.
    + intros. by apply top_row_seen.
    + intros. by eapply top_row_new.
Qed.

(** The accumulated list is built, row for row, from the first occurrences. *)
Lemma process_queries_first_occurrences data w results w' :
  process_queries E data w = (Return results, w') ->
  w' = w /\ Forall2 built_from results (first_occurrences E ∅ (rows_of data)).
Proof.
  unfold process_queries, mbind, M_bind.
  destruct (for_fold (process_group E) ([], ∅) data w) as [[acc|e] w1] eqn:Hrun;
    [|discriminate].
  apply (visits_for_fold (process_group E) (fun kg => rows_of_group (snd kg)) data
           visits_group) in Hrun as (-> & new & -> & Hnew).
  intros [= <- <-]. done.
Qed.

End Rows.

(** ** First occurrences *)

Section Uniqueness.

Variable E : env.

Lemma first_occurrences_fresh seen rows tr :
  tr ∈ first_occurrences E seen rows -> row_key E tr ∉ seen.
Proof.
  revert seen. induction rows as [|tr' rows IH]; intros seen; simpl.
  - by intros ?%elem_of_nil.
  - case_bool_decide as Hin; [by apply IH|].
    intros [->|Hin']%elem_of_cons; [done|].
    apply IH in Hin'. set_solver.
Qed.

Lemma first_occurrences_NoDup seen rows :
  NoDup (row_key E <$> first_occurrences E seen rows).
Proof.
  revert seen. induction rows as [|tr rows IH]; intros seen; simpl.
  - constructor.
  - case_bool_decide as Hin; [by apply IH|].
    rewrite fmap_cons. constructor; [|by apply IH].
    intros (tr' & Hkey & Hin')%list_elem_of_fmap.
    apply first_occurrences_fresh in Hin'. set_solver.
Qed.

Lemma first_occurrences_elem seen rows tr :
  tr ∈ first_occurrences E seen rows
  <-> exists pre post, rows = pre ++ (tr :: post)
                       /\ (row_key E tr ∉ seen)
                       /\ (row_key E tr ∉ row_key E <$> pre).
Proof.
  revert seen. induction rows as [|tr' rows IH]; intros seen; simpl.
  - split; [by intros ?%elem_of_nil|].
    intros (pre & post & Heq & _). by destruct pre.
  - case_bool_decide as Hin.
    + rewrite IH. split.
      * intros (pre & post & -> & Hs & Hp).
        exists (tr' :: pre), post. split; [done|]. split; [done|].
        rewrite fmap_cons, not_elem_of_cons. split; [congruence|done].
      * intros (pre & post & Heq & Hs & Hp). destruct pre as [|tr0 pre].
        { simpl in Heq. injection Heq as -> ->. done. }
        simpl in Heq. injection Heq as -> ->.
        rewrite fmap_cons, not_elem_of_cons in Hp.
        exists pre, post. tauto.
    + rewrite elem_of_cons, IH. split.
      * intros [->|(pre & post & -> & Hs & Hp)].
        { exists [], rows. simpl. split; [done|]. split; [done|].
          apply not_elem_of_nil. }
        exists (tr' :: pre), post. split; [done|].
        split; [set_solver|]. rewrite fmap_cons. set_solver.
      * intros (pre & post & Heq & Hs & Hp). destruct pre as [|tr0 pre].
        { simpl in Heq. injection Heq as -> ->. by left. }
        simpl in Heq. injection Heq as -> ->. right.
        rewrite fmap_cons, not_elem_of_cons in Hp.
        exists pre, post. split; [done|]. split; [set_solver|tauto].
Qed.

Lemma built_from_keys results rows :
  Forall2 built_from results rows ->
  (fun t => normalise E (keyword t)) <$> results = row_key E <$> rows.
Proof.
  induction 1 as [|t tr results rows (Hk & _) _ IH]; [done|].
  rewrite !fmap_cons. f_equal; [|exact IH].
  unfold row_key. by rewrite Hk.
Qed.

End Uniqueness.

(** ** The primary path ranks, caches and returns *)

Lemma rank_queries_returns E keywords cache_key data w results w1 :
  process_queries E data w = (Return results, w1) ->
  results <> [] ->
  exists w2,
    rank_queries E keywords cache_key data w
    = (Return (sort_by_score_reverse results), w2).
Proof.
  intros Hp Hne. unfold rank_queries.
  destruct (save_to_cache_returns E cache_key (sort_by_score_reverse results) w1)
    as (w2 & Hs & _).
  exists w2. unfold mbind, M_bind at 1. rewrite Hp.
  destruct results as [|r rs]; [done|]. cbn [length Nat.eqb].
  unfold mbind, M_bind. rewrite Hs. done.
Qed.

(** ** The retry loop and the way to the primary query *)

Section Retry.

Variable E : env.

Lemma random_range w :
  exists r w1, random E w = (Return r, w1) /\ trace w1 = trace w
               /\ (0 <= r)%Q /\ (r < 1)%Q.
Proof.
  unfold random. eexists _, _. split; [done|]. split; [done|].
  pose proof (Z.mod_pos_bound (random_bits E (draws w)) (2 ^ 53)%Z eq_refl) as [Hlo Hhi].
  unfold Qle, Qlt. simpl. split; lia.
Qed.

Lemma backoff_sleeps attempt e w :
  exists seconds w1,
    backoff E attempt e w = sleep seconds w1
    /\ trace w1 = trace w
    /\ backoff_wait attempt e seconds.
Proof.
  unfold backoff, backoff_wait. destruct (contains "429" (str e)).
  - exists (inject_Z (2 ^ Z.of_nat attempt * 30)), w.
    split; [done|]. split; [done|]. by rewrite Z.mul_comm.
  - destruct (random_range w) as (r & w1 & Hr & Htrace & Hlo & Hhi).
    exists (5 + (10 - 5) * r)%Q, w1. unfold uniform, mbind, M_bind, mret, M_ret.
    rewrite Hr. split; [done|]. split; [done|]. lra.
Qed.

Lemma related_queries_retry_Raise attempt rest e w :
  related_queries E attempt = Raise e ->
  exists seconds w1,
    related_queries_retry E (attempt :: rest) w = related_queries_retry E rest w1
    /\ trace w1 = trace w ++ [EvRelatedQueries; EvSleep seconds]
    /\ backoff_wait attempt e seconds.
Proof.
  intros Hraise.
  destruct (backoff_sleeps attempt e (snd (emit EvRelatedQueries w)))
    as (seconds & w1 & Hb & Htrace & Hwait).
  exists seconds, (snd (sleep seconds w1)). split; [|split; [|done]].
  - simpl. run. rewrite Hraise. simpl in Hb. rewrite Hb. done.
  - simpl in *. rewrite Htrace, <- app_assoc. done.
Qed.

Lemma related_queries_retry_no_data attempts w :
  (forall i data, i ∈ attempts -> related_queries E i <> Return (Some data)) ->
  exists w', related_queries_retry E attempts w = (Return None, w').
Proof.
  revert w. induction attempts as [|attempt rest IH]; intros w Hnone.
  - by exists w.
  - destruct (related_queries E attempt) as [[data|]|e] eqn:Hq.
    + destruct (Hnone attempt data); [apply list_elem_of_here|done].
    + eexists. simpl. run. rewrite Hq. done.
    + destruct (related_queries_retry_Raise attempt rest e w Hq)
        as (seconds & w1 & -> & _).
      apply IH. intros i data Hi. apply Hnone. by apply list_elem_of_further.
Qed.

Lemma related_queries_retry_data data i :
  forall start n w,
    (i < n)%nat ->
    related_queries E (start + i) = Return (Some data) ->
    (forall j, (j < i)%nat -> exists e, related_queries E (start + j) = Raise e) ->
    exists w', related_queries_retry E (seq start n) w = (Return (Some data), w').
Proof.
  induction i as [|i IH]; intros start n w Hlt Hdata Hbefore;
    (destruct n as [|n]; [lia|]); cbn [seq].
  - rewrite Nat.add_0_r in Hdata. eexists. simpl. run. rewrite Hdata. done.
  - destruct (Hbefore 0%nat) as [e He]; [lia|]. rewrite Nat.add_0_r in He.
    destruct (related_queries_retry_Raise start (seq (S start) n) e w He)
      as (seconds & w1 & -> & _).
    apply IH; [lia| |].
    + by rewrite Nat.add_succ_comm.
    + intros j Hj. rewrite Nat.add_succ_comm. apply Hbefore. lia.
Qed.

(** From a cache miss and an open throttle the call reaches the outer [try]
    with the discovered keywords. *)
Lemma fetch_google_trends_queries geo timeframe use_cache cache_hours w :
  reaches_query E geo timeframe use_cache cache_hours w ->
  exists keywords w1 w2,
    fetch_dynamic_keywords E w = (Return keywords, w1)
    /\ build_payload E keywords timeframe geo = None
    /\ (exists pre, trace w2 = trace w1 ++ pre
                     /\ Forall (fun ev => ev = EvTrendReq) pre)
    /\ fetch_google_trends E geo timeframe use_cache cache_hours w
       = try_except
           (query_provider E keywords geo timeframe
              ("google_trends_" +:+ geo +:+ "_" +:+ timeframe))
           (on_error E ("google_trends_" +:+ geo +:+ "_" +:+ timeframe)) w2.
Proof.
  intros ((cached & Hc & Hcached) & Hallowed & Hctor & Hbuild & _).
  set (cache_key := "google_trends_" +:+ geo +:+ "_" +:+ timeframe) in *.
  destruct (fetch_dynamic_keywords_never_raises E w) as (keywords & w1 & Hk & _).
  exists keywords, w1.
  assert (exists w2,
            (try_except_TypeError
               (emit EvTrendReq;; lift_failure (TrendReq_full E))
               (emit EvTrendReq;; lift_failure (TrendReq_basic E))) w1
            = (Return tt, w2)
            /\ exists pre, trace w2 = trace w1 ++ pre
                           /\ Forall (fun ev => ev = EvTrendReq) pre)
    as (w2 & Hbuilt & Htrace).
  { run. destruct Hctor as [->|[[msg ->] ->]]; eexists; (split; [reflexivity|]);
      simpl.
    - exists [EvTrendReq]. split; [done|]. by repeat constructor.
    - exists [EvTrendReq; EvTrendReq]. rewrite <- app_assoc.
      split; [done|]. by repeat constructor. }
  exists w2. split; [done|]. split; [by eapply Hbuild|]. split; [done|].
  unfold fetch_google_trends. fold cache_key.
  unfold mbind, M_bind at 1. rewrite Hc.
  assert (forall k : M (list trend),
            match cached with Some (r :: rs) => mret (r :: rs) | _ => k end = k)
    as -> by (intros k; destruct cached as [[|r rs]|]; [done| |done];
              by destruct (Hcached r rs)).
  unfold mbind, M_bind at 1. rewrite Hallowed. simpl.
  unfold mbind, M_bind at 1. rewrite Hk.
  unfold mbind in Hbuilt. unfold M_bind at 1. rewrite Hbuilt. done.
Qed.

Lemma query_provider_retries keywords geo timeframe cache_key w :
  build_payload E keywords timeframe geo = None ->
  write_stamp E = None ->
  query_provider E keywords geo timeframe cache_key w
  = (data ← related_queries_retry E (seq 0 3);
     match data with
     | None => fallback_interest E keywords cache_key
     | Some data => rank_queries E keywords cache_key data
     end)
      {| clock := clock w; last_request := Stamp (clock w);
         cache := cache w; draws := draws w;
         trace := trace w ++ [EvBuildPayload keywords timeframe geo] |}.
Proof.
  intros Hbuild Hstamp. unfold query_provider, record_request_time.
  unfold mbind, M_bind, emit, lift_failure, now, set_stamp_file.
  rewrite Hbuild, Hstamp. done.
Qed.

Lemma query_provider_no_data keywords geo timeframe cache_key w :
  build_payload E keywords timeframe geo = None ->
  write_stamp E = None ->
  (forall i data, (i < 3)%nat -> related_queries E i <> Return (Some data)) ->
  exists w', query_provider E keywords geo timeframe cache_key w
             = fallback_interest E keywords cache_key w'.
Proof.
  intros Hbuild Hstamp Hnone. rewrite query_provider_retries by done.
  match goal with
  | |- context [_ ?w2 = _] =>
      destruct (related_queries_retry_no_data (seq 0 3) w2) as [w' Hretry]
  end.
  { intros i data Hi. apply Hnone. apply elem_of_seq in Hi. lia. }
  exists w'. unfold mbind, M_bind. rewrite Hretry. done.
Qed.

Lemma query_provider_data keywords geo timeframe cache_key w data :
  build_payload E keywords timeframe geo = None ->
  write_stamp E = None ->
  answers_with E data ->
  exists w', query_provider E keywords geo timeframe cache_key w
             = rank_queries E keywords cache_key data w'.
Proof.
  intros Hbuild Hstamp (i & Hlt & Hdata & Hbefore).
  rewrite query_provider_retries by done.
  match goal with
  | |- context [_ ?w2 = _] =>
      destruct (related_queries_retry_data data i 0 3 w2) as [w' Hretry];
        [done..|]
  end.
  exists w'. unfold mbind, M_bind. rewrite Hretry. done.
Qed.

(** On the primary path the call returns the accumulated list of lines
    216-250, ranked. *)
Lemma fetch_google_trends_primary geo timeframe use_cache cache_hours w data :
  reaches_query E geo timeframe use_cache cache_hours w ->
  answers_with E data ->
  normalises E data ->
  exists results w2 w',
    process_queries E data w2 = (Return results, w2)
    /\ results <> []
    /\ fetch_google_trends E geo timeframe use_cache cache_hours w
       = (Return (sort_by_score_reverse results), w').
Proof.
  intros Hreach Hanswer Hnorm.
  destruct (fetch_google_trends_queries geo timeframe use_cache cache_hours w Hreach)
    as (keywords & w1 & w2 & _ & Hbuild & _ & ->).
  destruct Hreach as (_ & _ & _ & _ & Hstamp).
  destruct (query_provider_data keywords geo timeframe
              ("google_trends_" +:+ geo +:+ "_" +:+ timeframe) w2 data
              Hbuild Hstamp Hanswer) as [w3 Hq].
  destruct (Hnorm w3) as (results & Hp & Hne).
  destruct (rank_queries_returns E keywords
              ("google_trends_" +:+ geo +:+ "_" +:+ timeframe) data w3 results w3
              Hp Hne) as [w' Hrank].
  exists results, w3, w'. split; [done|]. split; [done|].
  unfold try_except. rewrite Hq, Hrank. done.
Qed.

End Retry.

(** ** Counting the primary queries of a call *)

Section Counting.

Lemma queries_silent {A} (m : M A) :
  (forall w, trace (snd (m w)) = trace w) -> queries_at_most 0 m.
Proof. intros Hm w. exists []. by rewrite app_nil_r, Hm. Qed.

Lemma queries_weaken {A} n k (m : M A) :
  (n <= k)%nat -> queries_at_most n m -> queries_at_most k m.
Proof.
  intros Hnk Hm w. destruct (Hm w) as (evs & Ht & Hn). exists evs.
  split; [done|lia].
Qed.

Lemma queries_ret {A} (a : A) : queries_at_most 0 (mret a).
Proof. by apply queries_silent. Qed.

Lemma queries_bind {A B} n k (m : M A) (f : A -> M B) :
  queries_at_most n m -> (forall a, queries_at_most k (f a)) ->
  queries_at_most (n + k) (m ≫= f).
Proof.
  intros Hm Hf w. destruct (Hm w) as (evs1 & Ht1 & Hn).
  unfold mbind, M_bind. destruct (m w) as [[a|e] w1]; simpl in *.
  - destruct (Hf a w1) as (evs2 & Ht2 & Hk). exists (evs1 ++ evs2).
    rewrite Ht2, Ht1, <- app_assoc, List.filter_app, length_app.
    split; [done|lia].
  - exists evs1. split; [done|lia].
Qed.

Lemma queries_bind_l {A B} n (m : M A) (f : A -> M B) :
  queries_at_most 0 m -> (forall a, queries_at_most n (f a)) ->
  queries_at_most n (m ≫= f).
Proof. apply (queries_bind 0 n). Qed.

Lemma queries_bind_r {A B} n (m : M A) (f : A -> M B) :
  queries_at_most n m -> (forall a, queries_at_most 0 (f a)) ->
  queries_at_most n (m ≫= f).
Proof.
  intros Hm Hf. replace n with (n + 0)%nat by lia. by apply queries_bind.
Qed.

Lemma queries_try_except {A} n (body : M A) handler :
  queries_at_most n body -> (forall e, queries_at_most 0 (handler e)) ->
  queries_at_most n (try_except body handler).
Proof.
  intros Hb Hh w. destruct (Hb w) as (evs1 & Ht1 & Hn).
  unfold try_except. destruct (body w) as [[a|e] w1]; simpl in *.
  - by exists evs1.
  - destruct (Hh e w1) as (evs2 & Ht2 & Hk). exists (evs1 ++ evs2).
    rewrite Ht2, Ht1, <- app_assoc, List.filter_app, length_app.
    split; [done|lia].
Qed.

Lemma queries_try_except_TypeError {A} (body handler : M A) :
  queries_at_most 0 body -> queries_at_most 0 handler ->
  queries_at_most 0 (try_except_TypeError body handler).
Proof.
  intros Hb Hh w. destruct (Hb w) as (evs1 & Ht1 & Hn).
  unfold try_except_TypeError.
  destruct (body w) as [[a|[msg|msg|msg]] w1]; simpl in *;
    try by exists evs1.
  destruct (Hh w1) as (evs2 & Ht2 & Hk). exists (evs1 ++ evs2).
  rewrite Ht2, Ht1, <- app_assoc, List.filter_app, length_app.
  split; [done|lia].
Qed.

Lemma queries_for_fold {A S} (body : S -> A -> M S) l :
  (forall s a, queries_at_most 0 (body s a)) ->
  forall s, queries_at_most 0 (for_fold body s l).
Proof.
  intros Hbody. induction l as [|a l IH]; intros s; simpl.
  - apply queries_ret.
  - by apply queries_bind_l.
Qed.

Lemma queries_emit e :
  is_related_queries e = false -> queries_at_most 0 (emit e).
Proof. intros He w. exists [e]. simpl. rewrite He. done. Qed.

Lemma queries_sleep seconds : queries_at_most 0 (sleep seconds).
Proof. intros w. by exists [EvSleep seconds]. Qed.

Lemma queries_uniform E a b : queries_at_most 0 (uniform E a b).
Proof. by apply queries_silent. Qed.

Lemma queries_lift_outcome {A} (o : outcome A) : queries_at_most 0 (lift_outcome o).
Proof. by apply queries_silent. Qed.

Lemma queries_lift_failure o : queries_at_most 0 (lift_failure o).
Proof. apply queries_silent. intros w. by destruct o. Qed.

Lemma queries_get_cached_results cache_key max_age_hours :
  queries_at_most 0 (get_cached_results cache_key max_age_hours).
Proof.
  apply queries_silent. intros w.
  by destruct (get_cached_results_returns cache_key max_age_hours w) as [c ->].
Qed.

Lemma queries_can_make_request : queries_at_most 0 can_make_request.
Proof.
  apply queries_silent. intros w.
  by destruct (can_make_request_returns w) as [b ->].
Qed.

Lemma queries_save_to_cache E cache_key results :
  queries_at_most 0 (save_to_cache E cache_key results).
Proof.
  apply queries_silent. intros w.
  destruct (save_to_cache_returns E cache_key results w) as (w' & Hs & _ & Ht).
  by rewrite Hs.
Qed.

Lemma queries_cached_or n (cached : option (list trend)) (k : M (list trend)) :
  queries_at_most n k ->
  queries_at_most n (match cached with
                     | Some (r :: rs) => mret (r :: rs)
                     | _ => k
                     end).
Proof.
  intros Hk. destruct cached as [[|r rs]|]; try done.
  intros w. exists []. rewrite app_nil_r. split; [done|simpl; lia].
Qed.

Create HintDb queries.

#[local] Hint Resolve queries_ret queries_sleep queries_uniform queries_lift_outcome
  queries_lift_failure queries_get_cached_results queries_can_make_request
  queries_save_to_cache : queries.

Lemma queries_fetch_dynamic_keywords E :
  queries_at_most 0 (fetch_dynamic_keywords E).
Proof.
  unfold fetch_dynamic_keywords. apply queries_bind_l; [|auto with queries].
  apply queries_for_fold. intros s seed. unfold autocomplete.
  apply queries_try_except; [|auto with queries].
  apply queries_bind_l; [by apply queries_emit|]. intros _.
  apply queries_bind_l; [auto with queries|]. intros r.
  apply queries_bind_l.
  { destruct (status_code r =? 200)%Z; [|auto with queries].
    apply queries_bind_l; auto with queries. }
  intros s'. apply queries_bind_l; [auto with queries|]. intros delay.
  apply queries_bind_l; auto with queries.
Qed.

Lemma queries_fallback_interest E keywords cache_key :
  queries_at_most 0 (fallback_interest E keywords cache_key).
Proof.
  unfold fallback_interest. apply queries_try_except; [|auto with queries].
  apply queries_bind_l; [by apply queries_emit|]. intros _.
  apply queries_bind_l; [auto with queries|]. intros [last|]; [|auto with queries].
  apply queries_bind_l.
  { apply queries_for_fold. intros results kw. unfold interest_row.
    destruct (Qltb _ _); [|auto with queries].
    apply queries_silent. done. }
  intros results. apply queries_bind_l; auto with queries.
Qed.

Lemma queries_row (step : accumulator -> row -> M accumulator) :
  (forall acc r w, trace (snd (step acc r w)) = trace w) ->
  forall (rows : option (list row)) acc,
    queries_at_most 0 (match rows with
                       | Some rows => for_fold step acc rows
                       | None => mret acc
                       end).
Proof.
  intros Hstep [rows|] acc; [|auto with queries].
  apply queries_for_fold. intros acc' r. apply queries_silent. apply Hstep.
Qed.

Lemma rising_row_trace E acc r w : trace (snd (rising_row E acc r w)) = trace w.
Proof.
  destruct acc as [results seen]. unfold rising_row.
  destruct (bool_decide _); [done|].
  destruct (is_Breakout (value r)); [done|]. by destruct (value r).
Qed.

Lemma top_row_trace E acc r w : trace (snd (top_row E acc r w)) = trace w.
Proof.
  destruct acc as [results seen]. unfold top_row.
  destruct (bool_decide _); [done|]. by destruct (value r).
Qed.

Lemma queries_rank_queries E keywords cache_key data :
  queries_at_most 0 (rank_queries E keywords cache_key data).
Proof.
  unfold rank_queries. apply queries_bind_l.
  - unfold process_queries. apply queries_bind_l; [|auto with queries].
    apply queries_for_fold. intros acc kg. unfold process_group.
    apply queries_bind_l.
    + apply queries_row, rising_row_trace.
    + intros acc'. apply queries_row, top_row_trace.
  - intros results. destruct (length results =? 0)%nat.
    + apply queries_fallback_interest.
    + apply queries_bind_l; auto with queries.
Qed.

Lemma queries_backoff E attempt e : queries_at_most 0 (backoff E attempt e).
Proof.
  unfold backoff. destruct (contains "429" (str e)); [auto with queries|].
  apply queries_bind_l; auto with queries.
Qed.

Lemma queries_related_queries_retry E attempts :
  queries_at_most (length attempts) (related_queries_retry E attempts).
Proof.
  induction attempts as [|attempt rest IH]; simpl; [apply queries_ret|].
  intros w. unfold mbind at 1, M_bind at 1, attempt_.
  unfold mbind at 1, M_bind at 1, emit, lift_outcome.
  destruct (related_queries E attempt) as [data|e].
  - exists [EvRelatedQueries]. simpl. split; [done|lia].
  - destruct (queries_bind_l (length rest) (backoff E attempt e)
                (fun _ => related_queries_retry E rest)
                (queries_backoff E attempt e) (fun _ => IH)
                {| clock := clock w; last_request := last_request w;
                   cache := cache w; draws := draws w;
                   trace := trace w ++ [EvRelatedQueries] |})
      as (evs & Ht & Hn).
    exists (EvRelatedQueries :: evs). simpl in *.
    rewrite Ht, <- app_assoc. split; [done|lia].
Qed.

Lemma queries_on_error E cache_key e : queries_at_most 0 (on_error E cache_key e).
Proof.
  unfold on_error. destruct (_ || _); [|auto with queries].
  apply queries_bind_l; [auto with queries|]. intros cached.
  apply queries_cached_or. auto with queries.
Qed.

(** One call of [fetch_google_trends] issues the primary query at most
    three times. *)
Lemma queries_fetch_google_trends E geo timeframe use_cache cache_hours :
  queries_at_most 3 (fetch_google_trends E geo timeframe use_cache cache_hours).
Proof.
  unfold fetch_google_trends. apply queries_bind_l.
  { destruct use_cache; auto with queries. }
  intros cached. apply queries_cached_or.
  apply queries_bind_l; [auto with queries|]. intros [|]; simpl.
  - apply queries_bind_l; [apply queries_fetch_dynamic_keywords|]. intros keywords.
    apply queries_bind_l.
    { apply queries_try_except_TypeError;
        (apply queries_bind_l; [by apply queries_emit|auto with queries]). }
    intros _. apply queries_try_except; [|apply queries_on_error].
    unfold query_provider.
    apply queries_bind_l; [by apply queries_emit|]. intros _.
    apply queries_bind_l; [auto with queries|]. intros _.
    apply queries_bind_l.
    { unfold record_request_time. apply queries_bind_l; [auto with queries|].
      intros _. by apply queries_silent. }
    intros _. apply queries_bind_r; [apply (queries_related_queries_retry E (seq 0 3))|].
    intros [data|]; [apply queries_rank_queries|apply queries_fallback_interest].
  - apply queries_bind_l; [auto with queries|]. intros cached'.
    apply queries_cached_or. apply (queries_weaken 0); [lia|auto with queries].
Qed.

End Counting.

(** ** The scenarios of the specification, run on the model *)

(** One rising row with the sentinel gives one record of score 100. *)
Example scenario_breakout :
  fst (fetch_google_trends
         (with_related quiet_env (fun _ =>
            Return (Some [("exam",
                           {| g_rising := Some [ {| query := "exam result";
                                                    value := Text "Breakout" |} ];
                              g_top := None |})])))
         "IN" "now 1-d" true 1 fresh_world)
  = Return [primary_record "exam result" 100 rising 1000].
Proof. vm_compute. reflexivity. Qed.

(** Rate-limit errors at all three attempts and no cache at any age: the
    call waits 30, 60 and 120 seconds, asks the fallback and returns the
    empty list. *)
Example scenario_rate_limited :
  let '(r, w') := fetch_google_trends rate_limited_env "IN" "now 1-d" true 1
                    fresh_world in
  r = Return []
  /\ List.filter (fun e => negb (is_related_queries e)) (trace w')
     = [EvSuggest "education"; EvSuggest "exam"; EvSuggest "online course";
        EvTrendReq;
        EvBuildPayload ["online course"; "scholarship"; "study tips";
                        "education"; "exam"] "now 1-d" "IN";
        EvSleep 30; EvSleep 60; EvSleep 120; EvInterestOverTime]
  /\ (clock w' == 1210)%Q.
Proof. vm_compute. repeat split; reflexivity. Qed.

(** A primary answer without rows sends the call to the fallback; with an
    empty time series the result is empty. *)
Example scenario_zero_rows :
  let '(r, w') := fetch_google_trends quiet_env "IN" "now 1-d" true 1 fresh_world in
  r = Return [] /\ last (trace w') = Some EvInterestOverTime.
Proof. vm_compute. split; reflexivity. Qed.

(** ** C1: uniqueness of the keywords *)

(** C1 (as amended). When a call of [fetch_google_trends] takes the
    primary-query path -- it gets as far as the primary query, which answers
    with [data], whose rows normalise to a non-empty list -- the returned
    list has pairwise distinct keywords under [lower().strip()] comparison,
    holds a record built from every raw row that is the first of its
    normalised query text, and holds no record that is not built from such a
    first occurrence: later duplicates are dropped. *)
Theorem primary_keywords_unique E geo timeframe use_cache cache_hours w data :
  reaches_query E geo timeframe use_cache cache_hours w ->
  answers_with E data ->
  normalises E data ->
  exists returned w',
    fetch_google_trends E geo timeframe use_cache cache_hours w
    = (Return returned, w')
    /\ NoDup ((fun t => normalise E (keyword t)) <$> returned)
    /\ (forall pre tr post,
          rows_of data = pre ++ (tr :: post) ->
          row_key E tr ∉ (row_key E <$> pre) ->
          exists t, t ∈ returned /\ built_from t tr)
    /\ (forall t, t ∈ returned ->
          exists pre tr post,
            rows_of data = pre ++ (tr :: post)
            /\ (row_key E tr ∉ row_key E <$> pre)
            /\ built_from t tr).
Proof.
  intros Hreach Hanswer Hnorm.
  destruct (fetch_google_trends_primary E geo timeframe use_cache cache_hours w
              data Hreach Hanswer Hnorm) as (results & w2 & w' & Hp & _ & Hrun).
  apply process_queries_first_occurrences in Hp as [_ Hbuilt].
  pose proof (sort_by_score_reverse_perm results) as Hperm.
  exists (sort_by_score_reverse results), w'.
  split; [done|]. split; [|split].
  - rewrite Hperm, (built_from_keys E _ _ Hbuilt).
    apply first_occurrences_NoDup.
  - intros pre tr post Hrows Hfirst.
    assert (tr ∈ first_occurrences E ∅ (rows_of data)) as Hin.
    { apply first_occurrences_elem. exists pre, post.
      split; [done|]. split; [apply not_elem_of_empty|done]. }
    apply list_elem_of_lookup in Hin as [i Hi].
    destruct (Forall2_lookup_r _ _ _ _ _ Hbuilt Hi) as (t & Ht & Hb).
    exists t. split; [|done]. rewrite Hperm. by eapply list_elem_of_lookup_2.
  - intros t Ht. rewrite Hperm in Ht.
    apply list_elem_of_lookup in Ht as [i Hi].
    destruct (Forall2_lookup_l _ _ _ _ _ Hbuilt Hi) as (tr & Htr & Hb).
    apply list_elem_of_lookup_2, first_occurrences_elem in Htr
      as (pre & post & Hrows & _ & Hfirst).
    by exists pre, tr, post.
Qed.

Lemma primary_keywords_unique_witness :
  exists returned w',
    fetch_google_trends scenario_env "IN" "now 1-d" true 1 fresh_world
    = (Return returned, w')
    /\ NoDup ((fun t => normalise scenario_env (keyword t)) <$> returned)
    /\ (forall pre tr post,
          rows_of tie_data = pre ++ (tr :: post) ->
          row_key scenario_env tr ∉ (row_key scenario_env <$> pre) ->
          exists t, t ∈ returned /\ built_from t tr)
    /\ (forall t, t ∈ returned ->
          exists pre tr post,
            rows_of tie_data = pre ++ (tr :: post)
            /\ (row_key scenario_env tr ∉ row_key scenario_env <$> pre)
            /\ built_from t tr).
Proof.
  apply (primary_keywords_unique scenario_env "IN" "now 1-d" true 1 fresh_world
           tie_data).
  - unfold reaches_query. split; [|split; [|split; [|split]]].
    + exists None. split; [vm_compute; reflexivity|discriminate].
    + vm_compute. reflexivity.
    + left. reflexivity.
    + intros keywords w1 _. reflexivity.
    + reflexivity.
  - exists 0%nat. split; [lia|]. split; [reflexivity|]. intros j Hj. lia.
  - intros w2. eexists. split; [vm_compute; reflexivity|discriminate].
Defined.

(** The fallback path has no deduplication: two keywords that differ only in
    case both come back, from a call that never raised. *)
Lemma fallback_keywords_not_unique :
  exists returned w',
    fetch_google_trends mixed_case_env "IN" "now 1-d" true 1 fresh_world
    = (Return returned, w')
    /\ (keyword <$> returned) = ["exam"; "Exam"]
    /\ ~ NoDup ((fun t => normalise mixed_case_env (keyword t)) <$> returned).
Proof.
  eexists _, _. split; [vm_compute; reflexivity|].
  split; [reflexivity|].
  vm_compute. intros Hnd. apply NoDup_cons in Hnd as [Hnotin _].
  apply Hnotin. apply list_elem_of_here.
Qed.

(** ** C2: the primary path returns its records ranked by score *)

(** C2 (the code departs from the claim on a NaN cell).  [float()] converts
    a NaN cell without raising, and no comparison with NaN holds, so
    [results.sort] of line 257 cannot rank such a list: with the values 10,
    NaN, 70 in this order it leaves 10 before 70.  The scores of this model
    are rationals, so that input is outside it; the fallback path never
    meets it, because its test [score > 0] fails for NaN.

    What holds for cells that are numbers: when a call takes the
    primary-query path, the returned list is a permutation of the
    accumulated list [results] of lines 216-250, it is ordered by
    non-increasing score, and for every score value the records having that
    score stand in the order in which they were discovered. *)
Lemma primary_results_ranked E geo timeframe use_cache cache_hours w data :
  reaches_query E geo timeframe use_cache cache_hours w ->
  answers_with E data ->
  normalises E data ->
  exists results w2 returned w',
    process_queries E data w2 = (Return results, w2)
    /\ fetch_google_trends E geo timeframe use_cache cache_hours w
       = (Return returned, w')
    /\ returned ≡ₚ results
    /\ StronglySorted score_ge returned
    /\ forall q, List.filter (has_score q) returned
                 = List.filter (has_score q) results.
Proof.
  intros Hreach Hanswer Hnorm.
  destruct (fetch_google_trends_primary E geo timeframe use_cache cache_hours w
              data Hreach Hanswer Hnorm) as (results & w2 & w' & Hp & _ & Hrun).
  exists results, w2, (sort_by_score_reverse results), w'.
  split; [done|]. split; [done|].
  split; [apply sort_by_score_reverse_perm|].
  split; [apply sort_by_score_reverse_sorted|].
  intros q. apply sort_by_score_reverse_stable.
Qed.

Lemma primary_results_ranked_witness :
  exists results w2 returned w',
    process_queries scenario_env tie_data w2 = (Return results, w2)
    /\ fetch_google_trends scenario_env "IN" "now 1-d" true 1 fresh_world
       = (Return returned, w')
    /\ returned ≡ₚ results
    /\ StronglySorted score_ge returned
    /\ forall q, List.filter (has_score q) returned
                 = List.filter (has_score q) results.
Proof.
  apply (primary_results_ranked scenario_env "IN" "now 1-d" true 1 fresh_world
           tie_data).
  - unfold reaches_query. split; [|split; [|split; [|split]]].
    + exists None. split; [vm_compute; reflexivity|discriminate].
    + vm_compute. reflexivity.
    + left. reflexivity.
    + intros keywords w1 _. reflexivity.
    + reflexivity.
  - exists 0%nat. split; [lia|]. split; [reflexivity|]. intros j Hj. lia.
  - intros w2. eexists. split; [vm_compute; reflexivity|discriminate].
Defined.

(** The same run end to end: the three records of score 100 come back in
    discovery order, ahead of the record of score 50. *)
Example fetch_google_trends_ties :
  fst (fetch_google_trends (with_related quiet_env (fun _ => Return (Some tie_data)))
         "IN" "now 1-d" true 1 fresh_world)
  = Return [ primary_record "exam result" 100 rising 1000;
             primary_record "neet 2025" 100 rising 1000;
             primary_record "board exam" 100 top 1000;
             primary_record "exam date" 50 rising 1000 ].
Proof. vm_compute. reflexivity. Qed.

(** ** C3: the score of a row *)

(** What the two loops do with a row whose normalised query text is new: a
    "rising" row with value "Breakout" yields a record of score 100; a
    "rising" or a "top" row with a numeric value yields a record whose
    score is that value. *)
Lemma row_score_mapping E results seen r w :
  normalise E (query r) ∉ seen ->
  (value r = Text "Breakout" ->
   rising_row E (results, seen) r w
   = (Return (results ++ [primary_record (query r) 100 rising (clock w)],
              seen ∪ {[normalise E (query r)]}), w))
  /\ (forall q, value r = Numeric q ->
        rising_row E (results, seen) r w
        = (Return (results ++ [primary_record (query r) q rising (clock w)],
                   seen ∪ {[normalise E (query r)]}), w)
        /\ top_row E (results, seen) r w
           = (Return (results ++ [primary_record (query r) q top (clock w)],
                      seen ∪ {[normalise E (query r)]}), w)).
Proof.
  intros Hnew. unfold rising_row, top_row, normalise in *.
  rewrite bool_decide_eq_false_2 by done. split.
  - intros ->. done.
  - intros q ->. done.
Qed.

Lemma row_score_mapping_witness :
  rising_row quiet_env ([], ∅) breakout_row fresh_world
  = (Return ([primary_record "Exam Result" 100 rising 1000], {["exam result"]}),
     fresh_world)
  /\ rising_row quiet_env ([], ∅) numeric_row fresh_world
     = (Return ([primary_record "Exam Result" 450 rising 1000], {["exam result"]}),
        fresh_world)
  /\ top_row quiet_env ([], ∅) numeric_row fresh_world
     = (Return ([primary_record "Exam Result" 450 top 1000], {["exam result"]}),
        fresh_world).
Proof.
  destruct (row_score_mapping quiet_env [] ∅ breakout_row fresh_world (not_elem_of_empty _))
    as [Hbreakout _].
  destruct (row_score_mapping quiet_env [] ∅ numeric_row fresh_world (not_elem_of_empty _))
    as [_ Hnumeric].
  specialize (Hbreakout eq_refl). specialize (Hnumeric 450%Q eq_refl).
  destruct Hnumeric as [Hrising Htop].
  split; [|split].
  - rewrite Hbreakout. vm_compute. reflexivity.
  - rewrite Hrising. vm_compute. reflexivity.
  - rewrite Htop. vm_compute. reflexivity.
Defined.

(** C3 (the code departs from the claim).  The sentinel test stands in the
    loop over the "rising" rows only (line 227); the loop over the "top"
    rows hands every value to [float()] (line 245).  A "rising" row with
    "Breakout" gets the score 100, but a "top" row with "Breakout" raises
    [ValueError]; the exception ends the outer [try], and the call returns
    the empty list although a record had been built from the "rising" row
    that came before it. *)
Theorem top_row_Breakout_raises :
  rising_row quiet_env ([], ∅) breakout_row fresh_world
  = (Return ([primary_record "Exam Result" 100 rising 1000], {["exam result"]}),
     fresh_world)
  /\ top_row quiet_env ([], ∅) breakout_row fresh_world
     = (Raise (ValueError "could not convert string to float: 'Breakout'"),
        fresh_world)
  /\ process_queries quiet_env
       [("exam", {| g_rising := Some [ {| query := "exam date";
                                          value := Numeric 50 |} ];
                    g_top := None |})] fresh_world
     = (Return [primary_record "exam date" 50 rising 1000], fresh_world)
  /\ fst (fetch_google_trends
            (with_related quiet_env (fun _ =>
               Return (Some [("exam", {| g_rising := Some [ {| query := "exam date";
                                                               value := Numeric 50 |} ];
                                         g_top := Some [breakout_row] |})])))
            "IN" "now 1-d" true 1 fresh_world)
     = Return [].
Proof. repeat split; vm_compute; reflexivity. Qed.

(** ** C4: an exception that reaches the caller *)

(** C4 (the code departs from the claim). The constructor of the provider
    client is called before the outer [try] of [fetch_google_trends]; when it
    fails with anything but a [TypeError], the exception reaches the caller.
    [get_trending_topics] builds its client inside the [try] and returns the
    empty list in the same environment. *)
Theorem fetch_google_trends_propagates :
  fst (fetch_google_trends offline_env "IN" "now 1-d" true 1 fresh_world)
  = Raise (OtherError "HTTPSConnectionPool: Max retries exceeded")
  /\ fst (get_trending_topics offline_env "IN" fresh_world) = Return [].
Proof. split; vm_compute; reflexivity. Qed.

(** ** C5: the lightweight trending list *)

Section Trending.

Variable E : env.

Lemma for_fold_trending_row l results w :
  for_fold (trending_row E) results l w
  = (Return (results ++ (trending_record (clock w)
                           <$> List.filter (fun ik => is_education E (snd ik)) l)),
     w).
Proof.
  revert results. induction l as [|[idx kw] l IH]; intros results; simpl.
  - by rewrite app_nil_r.
  - unfold mbind, M_bind. destruct (is_education E kw); run.
    + rewrite IH, <- app_assoc. done.
    + apply IH.
Qed.

Lemma is_education_iff keyword :
  is_education E keyword = true
  <-> exists term, In term edu_keywords /\ contains term (lower E keyword) = true.
Proof. unfold is_education. apply existsb_exists. Qed.

End Trending.

(** C5 (as amended). On a cache miss (no entry, a stale or unreadable one,
    or an empty payload) with a provider that answers, [get_trending_topics]
    returns one record for each entry of the provider's list that has an
    education term in its lower-cased text, in the provider's order, and the
    score of a record is 100 minus the position of its entry in the
    provider's list. *)
Theorem trending_topics_scores E geo w cached trending :
  get_cached_results ("trending_topics_" +:+ geo) 0.5 w = (Return cached, w) ->
  (forall r rs, cached <> Some (r :: rs)) ->
  TrendReq_basic E = None ->
  trending_searches E (lower E geo) = Return trending ->
  fst (get_trending_topics E geo w)
  = Return (trending_record (clock w)
              <$> List.filter (fun ik => is_education E (snd ik)) (enumerate trending)).
Proof.
  intros Hcache Hmiss Hctor Htrending. unfold get_trending_topics.
  unfold mbind, M_bind at 1. rewrite Hcache.
  assert (forall k : M (list trend),
            match cached with Some (r :: rs) => mret (r :: rs) | _ => k end = k)
    as -> by (intros k; destruct cached as [[|r rs]|]; [done| |done];
              by destruct (Hmiss r rs)).
  destruct (save_to_cache_returns E ("trending_topics_" +:+ geo)
              (trending_record (clock w)
                 <$> List.filter (fun ik => is_education E (snd ik)) (enumerate trending))
              {| clock := clock w; last_request := last_request w;
                 cache := cache w; draws := draws w;
                 trace := (trace w ++ [EvTrendReq]) ++ [EvTrendingSearches (lower E geo)] |})
    as (w' & Hsave & _).
  run. rewrite Hctor, Htrending. simpl.
  rewrite for_fold_trending_row. simpl. rewrite Hsave. done.
Qed.

Lemma trending_topics_scores_witness :
  fst (get_trending_topics scenario_env "IN" fresh_world)
  = Return [trending_record 1000 (1%nat, "JEE Main result 2025")].
Proof.
  rewrite (trending_topics_scores scenario_env "IN" fresh_world None
             ["iPhone 16 launch"; "JEE Main result 2025"; "Cricket score"]).
  - vm_compute. reflexivity.
  - vm_compute. reflexivity.
  - discriminate.
  - reflexivity.
  - reflexivity.
Defined.

(** The scenario of the specification: the one education entry is second in
    the provider's list, so its score is 99, not 100. *)
Lemma trending_scenario_scores_99 :
  exists t w',
    get_trending_topics scenario_env "IN" fresh_world = (Return [t], w')
    /\ keyword t = "JEE Main result 2025"
    /\ score t = 99%Q
    /\ ~ (score t == 100)%Q.
Proof.
  eexists _, _. split; [vm_compute; reflexivity|].
  split; [reflexivity|]. split; [reflexivity|].
  simpl. intros Heq. apply Qeq_bool_iff in Heq. discriminate.
Qed.

(** ** C6: the cache round trip *)

(** C6 (as amended). After a successful write of [results] under
    [cache_key], a read of that key returns [results] as long as the file is
    untouched and less than [max_age_hours] hours have passed on the clock:
    in particular a read that follows at once, for every positive
    [max_age_hours]. *)
Theorem cache_round_trip E cache_key results max_age_hours w w1 w2 :
  write_cache E cache_key = Written ->
  save_to_cache E cache_key results w = (Return tt, w1) ->
  cache w2 !! cache_key = cache w1 !! cache_key ->
  (clock w2 - clock w < max_age_hours * 3600)%Q ->
  get_cached_results cache_key max_age_hours w2 = (Return (Some results), w2).
Proof.
  intros Hwrite Hsave Hfile Hage. unfold save_to_cache in Hsave.
  rewrite Hwrite in Hsave. run. injection Hsave as <-. simpl in Hfile.
  rewrite lookup_insert_eq in Hfile.
  by apply (get_cached_results_fresh cache_key max_age_hours w2 (clock w)).
Qed.

Lemma cache_round_trip_witness :
  get_cached_results "trending_topics_IN" 0.5 saved_world
  = (Return (Some tie_results), saved_world).
Proof.
  apply (cache_round_trip quiet_env "trending_topics_IN" tie_results 0.5
           fresh_world saved_world saved_world).
  - reflexivity.
  - reflexivity.
  - reflexivity.
  - vm_compute. reflexivity.
Defined.

(** With a maximal age of zero the entry just written is already stale:
    the read that follows at once returns nothing.  Nor does a read return
    the payload when the write failed and was swallowed. *)
Lemma cache_round_trip_fails_at_zero :
  save_to_cache quiet_env "trending_topics_IN" tie_results fresh_world
  = (Return tt, saved_world)
  /\ cache saved_world !! "trending_topics_IN" = Some (Entry 1000 tie_results)
  /\ get_cached_results "trending_topics_IN" 0 saved_world
     = (Return None, saved_world)
  /\ save_to_cache read_only_env "trending_topics_IN" tie_results fresh_world
     = (Return tt, fresh_world)
  /\ get_cached_results "trending_topics_IN" 1 fresh_world
     = (Return None, fresh_world).
Proof. repeat split; vm_compute; reflexivity. Qed.

(** ** C7: a fresh cache entry short-cuts the retrieval *)

(** C7 (as amended). When the entry of the query key is fresh and its
    payload is a non-empty list, [fetch_google_trends] with [use_cache] set
    returns that payload and leaves the world as it was: no request is
    recorded, no file written, and the trace of network calls and sleeps is
    unchanged. *)
Theorem fresh_cache_hit E geo timeframe cache_hours w t r rs :
  cache w !! ("google_trends_" +:+ geo +:+ "_" +:+ timeframe)
  = Some (Entry t (r :: rs)) ->
  (clock w - t < cache_hours * 3600)%Q ->
  fetch_google_trends E geo timeframe true cache_hours w = (Return (r :: rs), w).
Proof.
  intros Hentry Hfresh. unfold fetch_google_trends.
  unfold mbind, M_bind at 1.
  rewrite (get_cached_results_fresh _ _ _ _ _ Hentry Hfresh). done.
Qed.

Lemma fresh_cache_hit_witness :
  fetch_google_trends offline_env "IN" "now 1-d" true 1 primed_world
  = (Return tie_results, primed_world).
Proof.
  apply (fresh_cache_hit offline_env "IN" "now 1-d" 1 primed_world 1000).
  - vm_compute. reflexivity.
  - vm_compute. reflexivity.
Defined.

(** A fresh entry whose payload is the empty list is not returned: the call
    goes on to the throttle and the provider, and here comes back with the
    provider's records. *)
Lemma empty_cache_entry_ignored :
  get_cached_results "google_trends_IN_now 1-d" 1 empty_entry_world
  = (Return (Some []), empty_entry_world)
  /\ exists returned w',
       fetch_google_trends scenario_env "IN" "now 1-d" true 1 empty_entry_world
       = (Return returned, w')
       /\ returned <> []
       /\ EvRelatedQueries ∈ trace w'.
Proof.
  split; [vm_compute; reflexivity|].
  eexists _, _. split; [vm_compute; reflexivity|].
  split; [discriminate|].
  apply list_elem_of_In. vm_compute. tauto.
Qed.

(** ** C8: the request throttle *)

(** C8 (the code departs from the claim when the stamp file cannot be
    looked for).  [LAST_REQUEST_FILE.exists()] of line 32 stands before the
    [try] of line 35.  When the file system refuses the look-up itself (the
    cache directory cannot be searched), [exists()] raises and the exception
    leaves [can_make_request] -- and [fetch_google_trends], which calls it
    outside its own [try] -- instead of the answer [True] that the bare
    [except] of line 47 gives for every failure of reading the stamp.  The
    stamp file of this model is missing, unreadable or a number, and the
    look-up itself always answers, so that input is outside the model. *)

(** X29. The window of the throttle: after a [record_request_time] that
    wrote the stamp, and as long as the stamp file is untouched, a check
    that returns says [False] while less than 60 seconds have passed on the
    clock, and [True] from then on. *)
Theorem throttle_window E w0 w1 w allowed :
  record_request_time E w0 = (Return tt, w1) ->
  last_request w = last_request w1 ->
  can_make_request w = (Return allowed, w) ->
  ((clock w - clock w0 < 60)%Q -> allowed = false)
  /\ ((60 <= clock w - clock w0)%Q -> allowed = true).
Proof.
  intros Hrecord Hstamp Hcheck. unfold record_request_time in Hrecord. run.
  destruct (write_stamp E); [discriminate|].
  injection Hrecord as <-. simpl in Hstamp.
  unfold can_make_request in Hcheck. run. rewrite Hstamp in Hcheck.
  unfold MIN_REQUEST_INTERVAL in Hcheck.
  split; intros Hage.
  - apply Qltb_lt in Hage. rewrite Hage in Hcheck. by injection Hcheck.
  - apply Qltb_ge in Hage. rewrite Hage in Hcheck. by injection Hcheck.
Qed.

Lemma throttle_window_witness :
  (exists allowed,
     can_make_request (snd (sleep 59 stamped_world))
     = (Return allowed, snd (sleep 59 stamped_world))
     /\ allowed = false)
  /\ (exists allowed,
        can_make_request (snd (sleep 60 stamped_world))
        = (Return allowed, snd (sleep 60 stamped_world))
        /\ allowed = true).
Proof.
  split.
  - exists false. split; [vm_compute; reflexivity|].
    apply (throttle_window quiet_env fresh_world stamped_world
             (snd (sleep 59 stamped_world)) false).
    + reflexivity.
    + reflexivity.
    + vm_compute. reflexivity.
    + vm_compute. reflexivity.
  - exists true. split; [vm_compute; reflexivity|].
    apply (throttle_window quiet_env fresh_world stamped_world
             (snd (sleep 60 stamped_world)) true).
    + reflexivity.
    + reflexivity.
    + vm_compute. reflexivity.
    + vm_compute. discriminate.
Defined.

(** ** C9: retries, waits and the fallback *)

Section RetryLoop.

Variable E : env.

(** The loop of lines 199-210 run from attempt number [attempt]. *)
Lemma related_queries_retry_retries n : forall attempt w,
  (attempt + n = 3)%nat ->
  exists evs data w',
    related_queries_retry E (seq attempt n) w = (Return data, w')
    /\ trace w' = trace w ++ evs
    /\ retries E attempt evs data.
Proof.
  induction n as [|n IH]; intros attempt w Hsum.
  - exists [], None, w. rewrite app_nil_r. replace attempt with 3%nat by lia.
    split; [done|]. split; [done|]. constructor.
  - cbn [seq]. destruct (related_queries E attempt) as [data|e] eqn:Hq.
    + exists [EvRelatedQueries], data. eexists. split; [|split].
      * cbn [related_queries_retry]. unfold mbind, M_bind, attempt_, emit, lift_outcome.
        rewrite Hq. reflexivity.
      * done.
      * apply retries_break; [lia|done].
    + destruct (related_queries_retry_Raise E attempt (seq (S attempt) n) e w Hq)
        as (seconds & w1 & -> & Htrace & Hwait).
      destruct (IH (S attempt) w1) as (evs & data & w' & Hrun & Htrace' & Hretries);
        [lia|].
      exists (EvRelatedQueries :: EvSleep seconds :: evs), data, w'.
      split; [done|]. split.
      * rewrite Htrace', Htrace, <- app_assoc. done.
      * eapply retries_again; [lia|done..].
Qed.

Lemma retries_at_most_3 attempt evs data :
  retries E attempt evs data ->
  (length (List.filter is_related_queries evs) + attempt <= 3)%nat.
Proof. induction 1; simpl in *; lia. Qed.

(** When every attempt raises, the loop asks three times and waits after
    each, the way the attempt and its error demand. *)
Lemma retries_three_failures evs data e0 e1 e2 :
  retries E 0 evs data ->
  related_queries E 0 = Raise e0 ->
  related_queries E 1 = Raise e1 ->
  related_queries E 2 = Raise e2 ->
  data = None
  /\ exists s0 s1 s2,
       evs = [EvRelatedQueries; EvSleep s0; EvRelatedQueries; EvSleep s1;
              EvRelatedQueries; EvSleep s2]
       /\ backoff_wait 0 e0 s0 /\ backoff_wait 1 e1 s1 /\ backoff_wait 2 e2 s2.
Proof.
  intros Hr H0 H1 H2.
  inversion Hr as [|a d Hlt Hq|a e s0 evs1 d Hlt Hq Hw0 Hr1]; subst; [congruence|].
  rewrite H0 in Hq. injection Hq as <-.
  inversion Hr1 as [|a d Hlt' Hq|a e s1 evs2 d Hlt' Hq Hw1 Hr2]; subst; [congruence|].
  rewrite H1 in Hq. injection Hq as <-.
  inversion Hr2 as [|a d Hlt'' Hq|a e s2 evs3 d Hlt'' Hq Hw2 Hr3]; subst; [congruence|].
  rewrite H2 in Hq. injection Hq as <-.
  inversion Hr3 as [|a d Hlt3 Hq|a e s3 evs4 d Hlt3 Hq Hw3 Hr4]; subst; try lia.
  split; [done|]. by exists s0, s1, s2.
Qed.

(** A call that gets as far as the primary query runs the loop and then
    asks no more; when the loop left no data the call is the fallback. *)
Lemma fetch_google_trends_retries geo timeframe use_cache cache_hours w :
  reaches_query E geo timeframe use_cache cache_hours w ->
  exists keywords w1 pre evs data w3 rest,
    fetch_dynamic_keywords E w = (Return keywords, w1)
    /\ Forall (fun ev => ev = EvTrendReq) pre
    /\ retries E 0 evs data
    /\ trace w3
       = trace w1 ++ pre ++ [EvBuildPayload keywords timeframe geo] ++ evs
    /\ trace (snd (fetch_google_trends E geo timeframe use_cache cache_hours w))
       = trace w3 ++ rest
    /\ List.filter is_related_queries rest = []
    /\ (data = None ->
        fetch_google_trends E geo timeframe use_cache cache_hours w
        = fallback_interest E keywords
            ("google_trends_" +:+ geo +:+ "_" +:+ timeframe) w3).
Proof.
  intros Hreach.
  destruct (fetch_google_trends_queries E geo timeframe use_cache cache_hours w
              Hreach) as (keywords & w1 & w2 & Hk & Hbuild & (pre & Hpre & Hctor) & ->).
  destruct Hreach as (_ & _ & _ & _ & Hstamp).
  set (cache_key := "google_trends_" +:+ geo +:+ "_" +:+ timeframe).
  destruct (related_queries_retry_retries 3 0
              {| clock := clock w2; last_request := Stamp (clock w2);
                 cache := cache w2; draws := draws w2;
                 trace := trace w2 ++ [EvBuildPayload keywords timeframe geo] |}
              eq_refl)
    as (evs & data & w3 & Hloop & Htrace & Hretries).
  cbn [trace] in Htrace.
  assert (try_except (query_provider E keywords geo timeframe cache_key)
            (on_error E cache_key) w2
          = try_except
              (match data with
               | Some data => rank_queries E keywords cache_key data
               | None => fallback_interest E keywords cache_key
               end) (on_error E cache_key) w3) as ->.
  { unfold try_except.
    rewrite (query_provider_retries E keywords geo timeframe cache_key w2
               Hbuild Hstamp).
    unfold mbind at 1, M_bind at 1. rewrite Hloop. by destruct data. }
  assert (queries_at_most 0
            (try_except
               (match data with
                | Some data => rank_queries E keywords cache_key data
                | None => fallback_interest E keywords cache_key
                end) (on_error E cache_key))) as Hq.
  { apply queries_try_except; [|intros e; apply queries_on_error].
    destruct data; [apply queries_rank_queries|apply queries_fallback_interest]. }
  destruct (Hq w3) as (rest & Hrest & Hlen).
  exists keywords, w1, pre, evs, data, w3, rest.
  split; [done|]. split; [done|]. split; [done|].
  split; [by rewrite Htrace, Hpre, <- !app_assoc|].
  split; [done|]. split.
  - destruct (List.filter is_related_queries rest); [done|simpl in Hlen; lia].
  - intros ->. unfold try_except.
    destruct (never_raises_fallback_interest E keywords cache_key w3)
      as (a & w' & -> & _). done.
Qed.

End RetryLoop.

(** C9. (1) A call of [fetch_google_trends] issues the primary query at most
    three times.  (2) A call that gets as far as the primary query runs the
    retry loop after building the payload: its trace from there on is that
    of the loop -- a query and one wait for every attempt that raised (30 *
    2^attempt seconds when the text of the error contains "429", a drawn
    delay between 5 and 10 seconds otherwise), ended by the query that
    returned or by the third failure -- and when the loop left no data the
    call is the fallback query for the discovered keywords, run from the
    world the loop left; otherwise it goes on to rank the rows of the answer.
    (3) In particular, when all three attempts raise, the loop is query,
    wait, query, wait, query, wait, and leaves no data. *)
Theorem retry_then_fallback E geo timeframe use_cache cache_hours w :
  (exists evs,
      trace (snd (fetch_google_trends E geo timeframe use_cache cache_hours w))
      = trace w ++ evs
      /\ (length (List.filter is_related_queries evs) <= 3)%nat)
  /\ (reaches_query E geo timeframe use_cache cache_hours w ->
      exists keywords w1 pre evs data w3 rest,
        fetch_dynamic_keywords E w = (Return keywords, w1)
        /\ Forall (fun ev => ev = EvTrendReq) pre
        /\ retries E 0 evs data
        /\ trace w3
           = trace w1 ++ pre ++ [EvBuildPayload keywords timeframe geo] ++ evs
        /\ trace (snd (fetch_google_trends E geo timeframe use_cache
                         cache_hours w))
           = trace w3 ++ rest
        /\ List.filter is_related_queries rest = []
        /\ (data = None ->
            fetch_google_trends E geo timeframe use_cache cache_hours w
            = fallback_interest E keywords
                ("google_trends_" +:+ geo +:+ "_" +:+ timeframe) w3))
  /\ (forall evs data e0 e1 e2,
        retries E 0 evs data ->
        related_queries E 0 = Raise e0 ->
        related_queries E 1 = Raise e1 ->
        related_queries E 2 = Raise e2 ->
        data = None
        /\ exists s0 s1 s2,
             evs = [EvRelatedQueries; EvSleep s0; EvRelatedQueries; EvSleep s1;
                    EvRelatedQueries; EvSleep s2]
             /\ backoff_wait 0 e0 s0 /\ backoff_wait 1 e1 s1
             /\ backoff_wait 2 e2 s2).
Proof.
  split; [apply queries_fetch_google_trends|]. split.
  - apply fetch_google_trends_retries.
  - apply retries_three_failures.
Qed.

Lemma retry_then_fallback_witness :
  exists keywords w1 pre w3,
    fetch_dynamic_keywords rate_limited_env fresh_world = (Return keywords, w1)
    /\ trace w3
       = trace w1 ++ pre
         ++ [EvBuildPayload keywords "now 1-d" "IN";
             EvRelatedQueries; EvSleep 30; EvRelatedQueries; EvSleep 60;
             EvRelatedQueries; EvSleep 120]
    /\ fetch_google_trends rate_limited_env "IN" "now 1-d" true 1 fresh_world
       = fallback_interest rate_limited_env keywords "google_trends_IN_now 1-d" w3.
Proof.
  destruct (retry_then_fallback rate_limited_env "IN" "now 1-d" true 1 fresh_world)
    as (_ & Hloop & Hthree).
  destruct Hloop
    as (keywords & w1 & pre & evs & data & w3 & rest & Hk & _ & Hr & Htrace
        & _ & _ & Hrun).
  { unfold reaches_query. split; [|split; [|split; [|split]]].
    + exists None. split; [vm_compute; reflexivity|discriminate].
    + vm_compute. reflexivity.
    + left. reflexivity.
    + intros keywords w1 _. reflexivity.
    + reflexivity. }
  destruct (Hthree evs data _ _ _ Hr eq_refl eq_refl eq_refl)
    as (-> & s0 & s1 & s2 & -> & H0 & H1 & H2).
  exists keywords, w1, pre, w3. split; [exact Hk|]. split.
  - rewrite Htrace.
    change (s0 = 30%Q) in H0. change (s1 = 60%Q) in H1. change (s2 = 120%Q) in H2.
    rewrite H0, H1, H2. reflexivity.
  - apply Hrun. reflexivity.
Defined.

(** ** C10: the discovered keyword list *)

Lemma seed_terms_size : size (list_to_set seed_terms : gset string) = 5%nat.
Proof.
  rewrite size_list_to_set; [done|].
  unfold seed_terms. repeat (constructor; [set_solver|]). constructor.
Qed.

(** C10. Whatever the autocomplete endpoint does, and in whatever order the
    interpreter iterates the accumulated set, [fetch_dynamic_keywords]
    returns, and its list has between 5 and 10 keywords. *)
Theorem fetch_dynamic_keywords_length E w :
  (forall l, set_order E l ≡ₚ l) ->
  exists keywords w',
    fetch_dynamic_keywords E w = (Return keywords, w')
    /\ (5 <= length keywords <= 10)%nat.
Proof.
  intros Horder. unfold fetch_dynamic_keywords.
  destruct (discovered_keywords_contain_seeds E w) as (s & w' & Hrun & Hseeds).
  exists (take 10 (set_order E (elements s))), w'. split.
  - unfold mbind, M_bind. rewrite Hrun. done.
  - rewrite length_take, (Permutation_length (Horder _)).
    apply subseteq_size in Hseeds. rewrite seed_terms_size in Hseeds.
    unfold size, set_size in Hseeds. simpl in Hseeds. lia.
Qed.

Lemma fetch_dynamic_keywords_length_witness :
  exists keywords w',
    fetch_dynamic_keywords mixed_case_env fresh_world = (Return keywords, w')
    /\ (5 <= length keywords <= 10)%nat.
Proof.
  apply (fetch_dynamic_keywords_length mixed_case_env fresh_world).
  intros l. simpl. reflexivity.
Defined.


(** * Further properties of the module *)

(** ** What a run leaves alone *)

Section Frames.

Context (R : world -> world -> Prop) `{!PreOrder R}.

Lemma keeps_ret {A} (a : A) : keeps R (mret a).
Proof. intros w. simpl. reflexivity. Qed.

Lemma keeps_bind {A B} (m : M A) (f : A -> M B) :
  keeps R m -> (forall a, keeps R (f a)) -> keeps R (m ≫= f).
Proof.
  intros Hm Hf w. specialize (Hm w). unfold mbind, M_bind.
  destruct (m w) as [[a|e] w1]; simpl in *; [|done].
  etrans; [exact Hm|apply Hf].
Qed.

Lemma keeps_try_except {A} (body : M A) handler :
  keeps R body -> (forall e, keeps R (handler e)) ->
  keeps R (try_except body handler).
Proof.
  intros Hb Hh w. specialize (Hb w). unfold try_except.
  destruct (body w) as [[a|e] w1]; simpl in *; [done|].
  etrans; [exact Hb|apply Hh].
Qed.

Lemma keeps_try_except_TypeError {A} (body handler : M A) :
  keeps R body -> keeps R handler -> keeps R (try_except_TypeError body handler).
Proof.
  intros Hb Hh w. specialize (Hb w). unfold try_except_TypeError.
  destruct (body w) as [[a|[msg|msg|msg]] w1]; simpl in *; try done.
  etrans; [exact Hb|apply Hh].
Qed.

Lemma keeps_attempt {A} (body : M A) : keeps R body -> keeps R (attempt_ body).
Proof.
  intros Hb w. specialize (Hb w). unfold attempt_.
  by destruct (body w) as [r w1].
Qed.

Lemma keeps_for_fold {A S} (body : S -> A -> M S) l :
  (forall s a, keeps R (body s a)) -> forall s, keeps R (for_fold body s l).
Proof.
  intros Hbody. induction l as [|a l IH]; intros s; simpl.
  - apply keeps_ret.
  - by apply keeps_bind.
Qed.

Lemma keeps_silent {A} (m : M A) : (forall w, snd (m w) = w) -> keeps R m.
Proof. intros Hm w. rewrite Hm. reflexivity. Qed.

Lemma keeps_cached_or (cached : option (list trend)) (k : M (list trend)) :
  keeps R k ->
  keeps R (match cached with
           | Some (r :: rs) => mret (r :: rs)
           | _ => k
           end).
Proof. intros Hk. destruct cached as [[|r rs]|]; try done. apply keeps_ret. Qed.

End Frames.

#[local] Instance same_files_preorder : PreOrder same_files.
Proof.
  split.
  - by intros w.
  - intros w1 w2 w3 [H1 H2] [H3 H4]. split; congruence.
Qed.

#[local] Instance same_throttle_preorder : PreOrder same_throttle.
Proof.
  split.
  - by intros w.
  - intros w1 w2 w3 [H1 H2] [H3 H4]. split; congruence.
Qed.

Section FileFrames.

Lemma files_emit e : keeps same_files (emit e).
Proof. by intros w. Qed.

Lemma files_sleep seconds : keeps same_files (sleep seconds).
Proof. by intros w. Qed.

Lemma files_uniform E a b : keeps same_files (uniform E a b).
Proof. by intros w. Qed.

Lemma files_lift_outcome {A} (o : outcome A) : keeps same_files (lift_outcome o).
Proof. by intros w. Qed.

Lemma files_lift_failure o : keeps same_files (lift_failure o).
Proof. intros w. by destruct o. Qed.

Lemma files_get_cached_results cache_key max_age_hours :
  keeps same_files (get_cached_results cache_key max_age_hours).
Proof.
  apply (keeps_silent same_files). intros w.
  by destruct (get_cached_results_returns cache_key max_age_hours w) as [c ->].
Qed.

Lemma files_can_make_request : keeps same_files can_make_request.
Proof.
  apply (keeps_silent same_files). intros w.
  by destruct (can_make_request_returns w) as [b ->].
Qed.

Lemma files_fetch_dynamic_keywords E : keeps same_files (fetch_dynamic_keywords E).
Proof.
  unfold fetch_dynamic_keywords.
  apply (keeps_bind same_files); [|intros s; by apply (keeps_ret same_files)].
  apply (keeps_for_fold same_files). intros s seed. unfold autocomplete.
  apply (keeps_try_except same_files); [|intros e; by apply (keeps_ret same_files)].
  apply (keeps_bind same_files); [apply files_emit|]. intros _.
  apply (keeps_bind same_files); [apply files_lift_outcome|]. intros r.
  apply (keeps_bind same_files); [|].
  { destruct (status_code r =? 200)%Z; [|by apply (keeps_ret same_files)].
    apply (keeps_bind same_files); [apply files_lift_outcome|].
    intros l. by apply (keeps_ret same_files). }
  intros s'. apply (keeps_bind same_files); [apply files_uniform|]. intros delay.
  apply (keeps_bind same_files); [apply files_sleep|]. intros _. by apply (keeps_ret same_files).
Qed.

Lemma files_on_error E cache_key e : keeps same_files (on_error E cache_key e).
Proof.
  unfold on_error. destruct (_ || _); [|by apply (keeps_ret same_files)].
  apply (keeps_bind same_files); [apply files_get_cached_results|]. intros cached.
  apply (keeps_cached_or same_files). by apply (keeps_ret same_files).
Qed.

End FileFrames.

(** ** The cache: lookup, expiry, overwrite *)

Lemma get_cached_results_Some cache_key max_age_hours w results w' :
  get_cached_results cache_key max_age_hours w = (Return (Some results), w') ->
  exists t, cache w !! cache_key = Some (Entry t results)
            /\ (clock w - t < max_age_hours * 3600)%Q.
Proof.
  unfold get_cached_results. run.
  destruct (cache w !! cache_key) as [[|t rs]|] eqn:Hfile; try discriminate.
  destruct (Qltb (clock w - t) (max_age_hours * 3600)) eqn:Hage; [|discriminate].
  intros [= <- <-]. exists t. split; [done|]. by apply Qltb_lt.
Qed.

(** X2. Of two successful writes under one key the later one wins: the read
    that follows returns the second payload, for every positive maximal
    age. *)
Theorem save_to_cache_overwrites E cache_key first second max_age_hours w :
  write_cache E cache_key = Written ->
  (0 < max_age_hours)%Q ->
  exists w2,
    (save_to_cache E cache_key first;; save_to_cache E cache_key second) w
    = (Return tt, w2)
    /\ get_cached_results cache_key max_age_hours w2 = (Return (Some second), w2).
Proof.
  intros Hwrite Hpos. unfold save_to_cache. rewrite Hwrite. run.
  eexists. split; [done|].
  apply (get_cached_results_fresh _ _ _ (clock w)); simpl.
  - apply lookup_insert_eq.
  - lra.
Qed.

Lemma save_to_cache_overwrites_witness :
  exists w2,
    (save_to_cache quiet_env "trending_topics_IN" [];;
     save_to_cache quiet_env "trending_topics_IN" tie_results) fresh_world
    = (Return tt, w2)
    /\ get_cached_results "trending_topics_IN" 0.5 w2
       = (Return (Some tie_results), w2).
Proof.
  apply (save_to_cache_overwrites quiet_env "trending_topics_IN" [] tie_results
           0.5 fresh_world).
  - reflexivity.
  - reflexivity.
Defined.

(** ** The degraded paths of [fetch_google_trends] *)

(** X4. When the first lookup misses (or [use_cache] is off) and the
    throttle denies the request, the call returns the payload of an entry
    younger than 24 hours when that payload is a non-empty list, and the
    empty list otherwise; the world is left as it was, so the provider is
    not contacted and nothing is written. *)
Theorem throttled_call E geo timeframe use_cache cache_hours w older :
  let cache_key := "google_trends_" +:+ geo +:+ "_" +:+ timeframe in
  (use_cache = true ->
   forall r rs, get_cached_results cache_key cache_hours w
                <> (Return (Some (r :: rs)), w)) ->
  can_make_request w = (Return false, w) ->
  get_cached_results cache_key 24 w = (Return older, w) ->
  fetch_google_trends E geo timeframe use_cache cache_hours w
  = (Return (payload_or_empty older), w).
Proof.
  intros cache_key Hmiss Hdenied Holder. unfold fetch_google_trends.
  fold cache_key.
  assert (exists cached,
            (if use_cache then get_cached_results cache_key cache_hours
             else mret None) w = (Return cached, w)
            /\ forall r rs, cached <> Some (r :: rs)) as (cached & Hc & Hcached).
  { destruct use_cache.
    - destruct (get_cached_results_returns cache_key cache_hours w) as [cached Hc].
      exists cached. split; [done|]. intros r rs ->. by apply (Hmiss eq_refl r rs).
    - by exists None. }
  unfold mbind, M_bind at 1. rewrite Hc.
  assert (forall k : M (list trend),
            match cached with Some (r :: rs) => mret (r :: rs) | _ => k end = k)
    as -> by (intros k; destruct cached as [[|r rs]|]; [done| |done];
              by destruct (Hcached r rs)).
  unfold mbind, M_bind at 1. rewrite Hdenied. simpl.
  unfold mbind, M_bind. rewrite Holder. by destruct older as [[|r rs]|].
Qed.

Lemma throttled_call_witness :
  fetch_google_trends offline_env "IN" "now 1-d" false 1
    (snd (set_stamp_file (Stamp 990) primed_world))
  = (Return tie_results, snd (set_stamp_file (Stamp 990) primed_world)).
Proof.
  apply (throttled_call offline_env "IN" "now 1-d" false 1
           (snd (set_stamp_file (Stamp 990) primed_world)) (Some tie_results)).
  - intros [=].
  - vm_compute. reflexivity.
  - vm_compute. reflexivity.
Defined.

Section ToTheTry.

Variable E : env.

(** A miss and an open throttle lead to the constructor; when it succeeds,
    the outer [try] starts with the files untouched. *)
Lemma fetch_google_trends_to_try geo timeframe use_cache cache_hours w :
  let cache_key := "google_trends_" +:+ geo +:+ "_" +:+ timeframe in
  (use_cache = true ->
   forall r rs, get_cached_results cache_key cache_hours w
                <> (Return (Some (r :: rs)), w)) ->
  can_make_request w = (Return true, w) ->
  (TrendReq_full E = None
   \/ (exists msg, TrendReq_full E = Some (TypeError msg))
      /\ TrendReq_basic E = None) ->
  exists keywords w1 w2,
    fetch_dynamic_keywords E w = (Return keywords, w1)
    /\ same_files w w2
    /\ fetch_google_trends E geo timeframe use_cache cache_hours w
       = try_except (query_provider E keywords geo timeframe cache_key)
                    (on_error E cache_key) w2.
Proof.
  intros cache_key Hmiss Hallowed Hctor.
  destruct (fetch_dynamic_keywords_never_raises E w) as (keywords & w1 & Hk & _).
  pose proof (files_fetch_dynamic_keywords E w) as Hfiles1. rewrite Hk in Hfiles1.
  assert (exists w2,
            (try_except_TypeError
               (emit EvTrendReq;; lift_failure (TrendReq_full E))
               (emit EvTrendReq;; lift_failure (TrendReq_basic E))) w1
            = (Return tt, w2) /\ same_files w1 w2) as (w2 & Hbuilt & Hfiles2).
  { unfold try_except_TypeError, mbind, M_bind, emit, lift_failure.
    destruct Hctor as [->|[[msg ->] ->]];
      (eexists; split; [reflexivity|by split]). }
  exists keywords, w1, w2. split; [done|]. split; [by etrans|].
  unfold fetch_google_trends. fold cache_key.
  assert (exists cached,
            (if use_cache then get_cached_results cache_key cache_hours
             else mret None) w = (Return cached, w)
            /\ forall r rs, cached <> Some (r :: rs)) as (cached & Hc & Hcached).
  { destruct use_cache.
    - destruct (get_cached_results_returns cache_key cache_hours w) as [cached Hc].
      exists cached. split; [done|]. intros r rs ->. by apply (Hmiss eq_refl r rs).
    - by exists None. }
  unfold mbind, M_bind at 1. rewrite Hc.
  assert (forall k : M (list trend),
            match cached with Some (r :: rs) => mret (r :: rs) | _ => k end = k)
    as -> by (intros k; destruct cached as [[|r rs]|]; [done| |done];
              by destruct (Hcached r rs)).
  unfold mbind, M_bind at 1. rewrite Hallowed. simpl.
  unfold mbind, M_bind at 1. rewrite Hk.
  unfold mbind in Hbuilt. unfold M_bind at 1. rewrite Hbuilt. done.
Qed.

End ToTheTry.

(** X5. When [build_payload] refuses the keyword list the call discovered,
    the call ends in the outer handler: it returns the empty list unless the
    text of the error contains "429" or, lower-cased, "rate", in which case
    it may return the payload of an entry of that key instead.  No request
    time is recorded and no file is written. *)
Theorem payload_failure E geo timeframe use_cache cache_hours w keywords w1 e :
  let cache_key := "google_trends_" +:+ geo +:+ "_" +:+ timeframe in
  lookups_return cache_key ->
  (use_cache = true ->
   forall r rs, get_cached_results cache_key cache_hours w
                <> (Return (Some (r :: rs)), w)) ->
  can_make_request w = (Return true, w) ->
  (TrendReq_full E = None
   \/ (exists msg, TrendReq_full E = Some (TypeError msg))
      /\ TrendReq_basic E = None) ->
  fetch_dynamic_keywords E w = (Return keywords, w1) ->
  build_payload E keywords timeframe geo = Some e ->
  exists returned w',
    fetch_google_trends E geo timeframe use_cache cache_hours w
    = (Return returned, w')
    /\ same_files w w'
    /\ (returned = []
        \/ (contains "429" (str e) || contains "rate" (lower E (str e)) = true
            /\ exists t, cache w !! cache_key = Some (Entry t returned))).
Proof.
  intros cache_key Hlookups Hmiss Hallowed Hctor Hk Hbuild.
  destruct (fetch_google_trends_to_try E geo timeframe use_cache cache_hours w
              Hmiss Hallowed Hctor) as (keywords' & w1' & w2 & Hk' & Hfiles & Hrun).
  rewrite Hk in Hk'. injection Hk' as <- <-.
  fold cache_key in Hrun.
  set (w3 := snd (emit (EvBuildPayload keywords timeframe geo) w2)).
  assert (try_except (query_provider E keywords geo timeframe cache_key)
            (on_error E cache_key) w2 = on_error E cache_key e w3) as Hhandler.
  { unfold try_except, query_provider. unfold mbind at 1, M_bind at 1.
    unfold mbind at 1, M_bind at 1. unfold emit at 1.
    unfold lift_failure. rewrite Hbuild. done. }
  rewrite Hhandler in Hrun.
  assert (same_files w w3) as Hfiles2 by (etrans; [exact Hfiles|done]).
  unfold on_error in Hrun.
  destruct (contains "429" (str e) || contains "rate" (lower E (str e))).
  - destruct (Hlookups 24%Q w3) as (cached & Hget).
    unfold mbind, M_bind in Hrun. rewrite Hget in Hrun.
    destruct cached as [[|r rs]|]; try (by exists [], w3; auto).
    exists (r :: rs), w3. split; [done|]. split; [done|]. right. split; [done|].
    apply get_cached_results_Some in Hget as (t & Ht & _).
    exists t. destruct Hfiles2 as [<- _]. done.
  - exists [], w3. auto.
Qed.

Lemma payload_failure_witness :
  exists returned w',
    fetch_google_trends bad_payload_env "IN" "now 1-d" true 1 fresh_world
    = (Return returned, w')
    /\ same_files fresh_world w'
    /\ (returned = []
        \/ (contains "429" "The request failed: Google returned a response with code 400"
            || contains "rate"
                 (ascii_lower "The request failed: Google returned a response with code 400")
            = true
            /\ exists t, cache fresh_world !! "google_trends_IN_now 1-d"
                         = Some (Entry t returned))).
Proof.
  apply (payload_failure bad_payload_env "IN" "now 1-d" true 1 fresh_world
           ["online course"; "scholarship"; "study tips"; "education"; "exam"]
           (snd (fetch_dynamic_keywords bad_payload_env fresh_world))
           (OtherError "The request failed: Google returned a response with code 400")).
  - intros hours w. apply get_cached_results_returns.
  - intros _ r rs. vm_compute. discriminate.
  - vm_compute. reflexivity.
  - left. reflexivity.
  - vm_compute. reflexivity.
  - reflexivity.
Defined.

(** ** A second call right after a first one *)

Section SecondCall.

Lemma sort_by_score_reverse_nil l : sort_by_score_reverse l = [] -> l = [].
Proof.
  intros Hnil. apply Permutation_nil.
  by rewrite <- Hnil, sort_by_score_reverse_perm.
Qed.

Lemma rank_queries_run E keywords cache_key data w results :
  process_queries E data w = (Return results, w) ->
  results <> [] ->
  write_cache E cache_key = Written ->
  rank_queries E keywords cache_key data w
  = (Return (sort_by_score_reverse results),
     {| clock := clock w; last_request := last_request w;
        cache := <[cache_key := Entry (clock w) (sort_by_score_reverse results)]>
                   (cache w);
        draws := draws w; trace := trace w |}).
Proof.
  intros Hp Hne Hwrite. unfold rank_queries, save_to_cache.
  unfold mbind, M_bind at 1. rewrite Hp, Hwrite.
  destruct results as [|r rs]; [done|]. done.
Qed.

Lemma query_provider_first E keywords geo timeframe cache_key w data :
  build_payload E keywords timeframe geo = None ->
  write_stamp E = None ->
  related_queries E 0 = Return (Some data) ->
  query_provider E keywords geo timeframe cache_key w
  = rank_queries E keywords cache_key data
      {| clock := clock w; last_request := Stamp (clock w);
         cache := cache w; draws := draws w;
         trace := (trace w ++ [EvBuildPayload keywords timeframe geo])
                  ++ [EvRelatedQueries] |}.
Proof.
  intros Hbuild Hstamp Hdata. rewrite query_provider_retries by done.
  cbn [seq related_queries_retry].
  unfold mbind, M_bind, attempt_, emit, lift_outcome. rewrite Hdata. done.
Qed.

(** A fresh non-empty entry is served by the first lookup. *)
Lemma fetch_google_trends_fresh_entry E geo timeframe cache_hours w t r rs :
  cache w !! ("google_trends_" +:+ geo +:+ "_" +:+ timeframe)
  = Some (Entry t (r :: rs)) ->
  (clock w - t < cache_hours * 3600)%Q ->
  fetch_google_trends E geo timeframe true cache_hours w = (Return (r :: rs), w).
Proof.
  intros Hentry Hfresh. unfold fetch_google_trends.
  unfold mbind, M_bind at 1.
  rewrite (get_cached_results_fresh _ _ _ _ _ Hentry Hfresh). done.
Qed.

(** Inside the throttle window a non-empty entry that is not older than the
    recorded request is served whatever the arguments: by the first lookup,
    or by the 24-hour lookup behind the closed throttle. *)
Lemma fetch_google_trends_in_window E geo timeframe use_cache cache_hours w
    ts te r rs :
  last_request w = Stamp ts ->
  cache w !! ("google_trends_" +:+ geo +:+ "_" +:+ timeframe)
  = Some (Entry te (r :: rs)) ->
  (ts <= te)%Q ->
  (clock w - ts < 60)%Q ->
  fetch_google_trends E geo timeframe use_cache cache_hours w
  = (Return (r :: rs), w).
Proof.
  intros Hstamp Hentry Hle Hwindow. unfold fetch_google_trends.
  set (cache_key := "google_trends_" +:+ geo +:+ "_" +:+ timeframe) in *.
  assert (get_cached_results cache_key 24 w = (Return (Some (r :: rs)), w))
    as Hday.
  { apply (get_cached_results_fresh _ _ _ te); [done|lra]. }
  assert (can_make_request w = (Return false, w)) as Hshut.
  { unfold can_make_request. run. rewrite Hstamp.
    assert (Qltb (clock w - ts) MIN_REQUEST_INTERVAL = true) as ->
      by (apply Qltb_lt; unfold MIN_REQUEST_INTERVAL; lra).
    done. }
  assert (exists cached,
            (if use_cache then get_cached_results cache_key cache_hours
             else mret None) w = (Return cached, w)
            /\ (forall r' rs', cached = Some (r' :: rs') -> r' :: rs' = r :: rs))
    as (cached & Hc & Hsame).
  { destruct use_cache; [|by exists None].
    destruct (get_cached_results_returns cache_key cache_hours w) as [cached Hc].
    exists cached. split; [done|]. intros r' rs' ->.
    apply get_cached_results_Some in Hc as (t & Ht & _).
    rewrite Hentry in Ht. by injection Ht as _ <- <-. }
  unfold mbind, M_bind at 1. rewrite Hc.
  destruct cached as [[|r' rs']|].
  - unfold mbind, M_bind. rewrite Hshut. simpl. by rewrite Hday.
  - by rewrite (Hsame r' rs' eq_refl).
  - unfold mbind, M_bind. rewrite Hshut. simpl. by rewrite Hday.
Qed.

(** The primary path writes what it returns, stamped with the clock
    reading it ends at. *)
Lemma fetch_google_trends_write_through E geo timeframe cache_hours w data :
  reaches_query E geo timeframe true cache_hours w ->
  answers_with E data ->
  normalises E data ->
  write_cache E ("google_trends_" +:+ geo +:+ "_" +:+ timeframe) = Written ->
  exists r rs w',
    fetch_google_trends E geo timeframe true cache_hours w = (Return (r :: rs), w')
    /\ cache w' !! ("google_trends_" +:+ geo +:+ "_" +:+ timeframe)
       = Some (Entry (clock w') (r :: rs)).
Proof.
  intros Hreach Hanswer Hnorm Hwrite.
  destruct (fetch_google_trends_queries E geo timeframe true cache_hours w Hreach)
    as (keywords & w1 & w2 & _ & Hbuild & _ & ->).
  destruct Hreach as (_ & _ & _ & _ & Hstamp).
  destruct (query_provider_data E keywords geo timeframe
              ("google_trends_" +:+ geo +:+ "_" +:+ timeframe) w2 data
              Hbuild Hstamp Hanswer) as [w3 Hq].
  destruct (Hnorm w3) as (results & Hp & Hne).
  pose proof (rank_queries_run E keywords _ data w3 results Hp Hne Hwrite) as Hrank.
  destruct (sort_by_score_reverse results) as [|r rs] eqn:Hsorted.
  { by apply sort_by_score_reverse_nil in Hsorted. }
  eexists r, rs, _. split.
  - unfold try_except. rewrite Hq, Hrank. reflexivity.
  - simpl. apply lookup_insert_eq.
Qed.

End SecondCall.

(** X6. Write-through: when a call with caching on takes the primary path
    and the cache file can be written, the list it returns is not empty and
    is the payload of the entry it leaves under its key, written no later
    than the call ends.  Any later call for that key with caching on -- in
    whatever environment, even with the provider gone -- that finds this
    entry younger than its maximal age returns the same list and leaves the
    world as it is. *)
Theorem primary_result_served_from_cache E geo timeframe cache_hours w data :
  let cache_key := "google_trends_" +:+ geo +:+ "_" +:+ timeframe in
  reaches_query E geo timeframe true cache_hours w ->
  answers_with E data ->
  normalises E data ->
  write_cache E cache_key = Written ->
  exists returned w' t,
    fetch_google_trends E geo timeframe true cache_hours w = (Return returned, w')
    /\ returned <> []
    /\ cache w' !! cache_key = Some (Entry t returned)
    /\ (t <= clock w')%Q
    /\ forall E' hours w'',
         cache w'' !! cache_key = Some (Entry t returned) ->
         (clock w'' - t < hours * 3600)%Q ->
         fetch_google_trends E' geo timeframe true hours w''
         = (Return returned, w'').
Proof.
  intros cache_key Hreach Hanswer Hnorm Hwrite.
  destruct (fetch_google_trends_write_through E geo timeframe cache_hours w data
              Hreach Hanswer Hnorm Hwrite) as (r & rs & w' & Hrun & Hentry).
  exists (r :: rs), w', (clock w'). split; [done|]. split; [done|].
  split; [done|]. split; [lra|].
  intros E' hours w'' Hentry' Hfresh.
  by apply (fetch_google_trends_fresh_entry E' geo timeframe hours w'' (clock w')).
Qed.

Lemma primary_result_served_from_cache_witness :
  exists returned w' t,
    fetch_google_trends scenario_env "IN" "now 1-d" true 1 fresh_world
    = (Return returned, w')
    /\ returned <> []
    /\ cache w' !! "google_trends_IN_now 1-d" = Some (Entry t returned)
    /\ (t <= clock w')%Q
    /\ forall E' hours w'',
         cache w'' !! "google_trends_IN_now 1-d" = Some (Entry t returned) ->
         (clock w'' - t < hours * 3600)%Q ->
         fetch_google_trends E' "IN" "now 1-d" true hours w''
         = (Return returned, w'').
Proof.
  apply (primary_result_served_from_cache scenario_env "IN" "now 1-d" 1
           fresh_world tie_data).
  - unfold reaches_query. split; [|split; [|split; [|split]]].
    + exists None. split; [vm_compute; reflexivity|discriminate].
    + vm_compute. reflexivity.
    + left. reflexivity.
    + intros keywords w1 _. reflexivity.
    + reflexivity.
  - exists 0%nat. split; [lia|]. split; [reflexivity|]. intros j Hj. lia.
  - intros w2. eexists. split; [vm_compute; reflexivity|discriminate].
  - reflexivity.
Defined.

(** X7. The throttle as a second line: when the primary query answers at
    its first attempt and the result is cached, the call leaves a recorded
    request time and, under its key, an entry that is not older than that
    time and holds the list returned.  Any later call for that key that
    finds this stamp and this entry less than 60 seconds after the recorded
    time returns the same list without touching anything, also with
    [use_cache] off or a maximal age of zero -- the request is denied and
    the 24-hour lookup finds the entry. *)
Theorem primary_result_served_when_throttled
    E geo timeframe use_cache cache_hours w data :
  let cache_key := "google_trends_" +:+ geo +:+ "_" +:+ timeframe in
  reaches_query E geo timeframe use_cache cache_hours w ->
  related_queries E 0 = Return (Some data) ->
  normalises E data ->
  write_cache E cache_key = Written ->
  exists returned w' ts te,
    fetch_google_trends E geo timeframe use_cache cache_hours w
    = (Return returned, w')
    /\ returned <> []
    /\ last_request w' = Stamp ts
    /\ cache w' !! cache_key = Some (Entry te returned)
    /\ (ts <= te)%Q
    /\ forall E' use_cache' cache_hours' w'',
         last_request w'' = Stamp ts ->
         cache w'' !! cache_key = Some (Entry te returned) ->
         (clock w'' - ts < 60)%Q ->
         fetch_google_trends E' geo timeframe use_cache' cache_hours' w''
         = (Return returned, w'').
Proof.
  intros cache_key Hreach Hdata Hnorm Hwrite.
  destruct (fetch_google_trends_queries E geo timeframe use_cache cache_hours w
              Hreach) as (keywords & w1 & w2 & _ & Hbuild & _ & ->).
  destruct Hreach as (_ & _ & _ & _ & Hstamp).
  pose proof (query_provider_first E keywords geo timeframe cache_key w2 data
                Hbuild Hstamp Hdata) as Hq.
  match type of Hq with _ = rank_queries _ _ _ _ ?w3 =>
    destruct (Hnorm w3) as (results & Hp & Hne);
    pose proof (rank_queries_run E keywords _ data w3 results Hp Hne Hwrite)
      as Hrank
  end.
  destruct (sort_by_score_reverse results) as [|r rs] eqn:Hsorted.
  { by apply sort_by_score_reverse_nil in Hsorted. }
  eexists (r :: rs), _, (clock w2), (clock w2).
  split; [|split; [|split; [|split; [|split]]]].
  - unfold try_except. fold cache_key. rewrite Hq, Hrank. reflexivity.
  - done.
  - done.
  - simpl. apply lookup_insert_eq.
  - lra.
  - intros E' use_cache' cache_hours' w'' Hs He Hwindow.
    apply (fetch_google_trends_in_window E' geo timeframe use_cache' cache_hours'
             w'' (clock w2) (clock w2)); [done|done|lra|done].
Qed.

Lemma primary_result_served_when_throttled_witness :
  exists returned w' ts te,
    fetch_google_trends scenario_env "IN" "now 1-d" false 1 fresh_world
    = (Return returned, w')
    /\ returned <> []
    /\ last_request w' = Stamp ts
    /\ cache w' !! "google_trends_IN_now 1-d" = Some (Entry te returned)
    /\ (ts <= te)%Q
    /\ forall E' use_cache' cache_hours' w'',
         last_request w'' = Stamp ts ->
         cache w'' !! "google_trends_IN_now 1-d" = Some (Entry te returned) ->
         (clock w'' - ts < 60)%Q ->
         fetch_google_trends E' "IN" "now 1-d" use_cache' cache_hours' w''
         = (Return returned, w'').
Proof.
  apply (primary_result_served_when_throttled scenario_env "IN" "now 1-d" false 1
           fresh_world tie_data).
  - unfold reaches_query. split; [|split; [|split; [|split]]].
    + exists None. split; [reflexivity|discriminate].
    + vm_compute. reflexivity.
    + left. reflexivity.
    + intros keywords w1 _. reflexivity.
    + reflexivity.
  - reflexivity.
  - intros w2. eexists. split; [vm_compute; reflexivity|discriminate].
  - reflexivity.
Defined.

(** ** Waiting and the throttle *)

Section Waits.

Variable E : env.

Lemma backoff_run attempt e w :
  exists seconds w1,
    backoff E attempt e w = (Return tt, w1)
    /\ backoff_wait attempt e seconds
    /\ clock w1 = (clock w + seconds)%Q
    /\ last_request w1 = last_request w.
Proof.
  unfold backoff, backoff_wait. destruct (contains "429" (str e)).
  - exists (inject_Z (2 ^ Z.of_nat attempt * 30)). eexists.
    split; [reflexivity|]. split; [|done]. by rewrite Z.mul_comm.
  - destruct (random_range E w) as (r & w1 & Hr & _ & Hlo & Hhi).
    unfold uniform, mbind, M_bind, mret, M_ret. rewrite Hr.
    exists (5 + (10 - 5) * r)%Q. eexists.
    split; [reflexivity|]. split; [lra|].
    unfold random in Hr. injection Hr as <- <-. done.
Qed.

Lemma related_queries_retry_Raise_clock attempt rest e w :
  related_queries E attempt = Raise e ->
  exists seconds w1,
    related_queries_retry E (attempt :: rest) w = related_queries_retry E rest w1
    /\ backoff_wait attempt e seconds
    /\ clock w1 = (clock w + seconds)%Q
    /\ last_request w1 = last_request w.
Proof.
  intros Hraise.
  destruct (backoff_run attempt e (snd (emit EvRelatedQueries w)))
    as (seconds & w1 & Hb & Hwait & Hclock & Hstamp).
  exists seconds, w1. split; [|done].
  cbn [related_queries_retry]. unfold mbind at 1, M_bind at 1, attempt_.
  unfold mbind at 1, M_bind at 1, emit at 1, lift_outcome. rewrite Hraise.
  unfold mbind, M_bind. unfold emit in Hb. cbn [snd] in Hb. rewrite Hb. done.
Qed.

Lemma throttle_save_to_cache cache_key results :
  keeps same_throttle (save_to_cache E cache_key results).
Proof.
  intros w. unfold save_to_cache. by destruct (write_cache E cache_key).
Qed.

Lemma throttle_fallback_interest keywords cache_key :
  keeps same_throttle (fallback_interest E keywords cache_key).
Proof.
  unfold fallback_interest.
  apply (keeps_try_except same_throttle); [|intros e; by apply (keeps_ret same_throttle)].
  apply (keeps_bind same_throttle); [by intros w|]. intros _.
  apply (keeps_bind same_throttle); [by intros w|].
  intros [last|]; [|by apply (keeps_ret same_throttle)].
  apply (keeps_bind same_throttle).
  - apply (keeps_for_fold same_throttle). intros results kw w.
    unfold interest_row. by destruct (Qltb _ _).
  - intros results. apply (keeps_bind same_throttle);
      [apply throttle_save_to_cache|]. intros _. by apply (keeps_ret same_throttle).
Qed.

End Waits.

(** X8. The waits of the retry loop count against the throttle window.
    When all three attempts fail with errors whose text contains "429", the
    call returns with the request time it recorded at least 210 seconds
    behind the clock: a request asked for from then on, with that stamp
    still in place, is allowed. *)
Theorem throttle_after_retries E geo timeframe use_cache cache_hours w e0 e1 e2 :
  reaches_query E geo timeframe use_cache cache_hours w ->
  related_queries E 0 = Raise e0 ->
  related_queries E 1 = Raise e1 ->
  related_queries E 2 = Raise e2 ->
  contains "429" (str e0) = true ->
  contains "429" (str e1) = true ->
  contains "429" (str e2) = true ->
  exists returned w' ts,
    fetch_google_trends E geo timeframe use_cache cache_hours w
    = (Return returned, w')
    /\ last_request w' = Stamp ts
    /\ (210 <= clock w' - ts)%Q
    /\ forall w'' allowed,
         last_request w'' = Stamp ts ->
         (clock w' <= clock w'')%Q ->
         can_make_request w'' = (Return allowed, w'') ->
         allowed = true.
Proof.
  intros Hreach H0 H1 H2 C0 C1 C2.
  destruct (fetch_google_trends_queries E geo timeframe use_cache cache_hours w
              Hreach) as (keywords & w1 & w2 & _ & Hbuild & _ & ->).
  destruct Hreach as (_ & _ & _ & _ & Hstamp).
  set (cache_key := "google_trends_" +:+ geo +:+ "_" +:+ timeframe).
  unfold try_except.
  rewrite (query_provider_retries E keywords geo timeframe cache_key w2
             Hbuild Hstamp).
  unfold mbind at 1, M_bind at 1. cbn [seq].
  match goal with
  | |- context [related_queries_retry E _ ?wq] =>
      destruct (related_queries_retry_Raise_clock E 0 [1; 2]%nat e0 wq H0)
        as (s0 & wa & -> & Hw0 & Hc0 & Hl0)
  end.
  destruct (related_queries_retry_Raise_clock E 1 [2]%nat e1 wa H1)
    as (s1 & wb & -> & Hw1 & Hc1 & Hl1).
  destruct (related_queries_retry_Raise_clock E 2 [] e2 wb H2)
    as (s2 & wc & -> & Hw2 & Hc2 & Hl2).
  cbn [related_queries_retry]. unfold mret at 1, M_ret at 1.
  destruct (never_raises_fallback_interest E keywords cache_key wc)
    as (returned & w' & Hf & _).
  pose proof (throttle_fallback_interest E keywords cache_key wc) as [Hclock Hlast].
  rewrite Hf in *. cbn [snd clock last_request] in *.
  exists returned, w', (clock w2). split; [done|].
  assert (last_request w' = Stamp (clock w2)) as Hs by congruence.
  assert (clock w' = (clock w2 + s0 + s1 + s2)%Q) as Hc by congruence.
  unfold backoff_wait in Hw0, Hw1, Hw2.
  rewrite C0 in Hw0. rewrite C1 in Hw1. rewrite C2 in Hw2. subst s0 s1 s2.
  change (inject_Z (30 * 2 ^ Z.of_nat 0)) with 30%Q in Hc.
  change (inject_Z (30 * 2 ^ Z.of_nat 1)) with 60%Q in Hc.
  change (inject_Z (30 * 2 ^ Z.of_nat 2)) with 120%Q in Hc.
  split; [done|]. split; [rewrite Hc; lra|].
  intros w'' allowed Hs'' Hlater. unfold can_make_request, MIN_REQUEST_INTERVAL.
  run. rewrite Hs''.
  assert (Qltb (clock w'' - clock w2) 60 = false) as ->
    by (apply Qltb_ge; rewrite Hc in Hlater; lra).
  by intros [= <-].
Qed.

Lemma throttle_after_retries_witness :
  exists returned w' ts,
    fetch_google_trends rate_limited_env "IN" "now 1-d" true 1 fresh_world
    = (Return returned, w')
    /\ last_request w' = Stamp ts
    /\ (210 <= clock w' - ts)%Q
    /\ forall w'' allowed,
         last_request w'' = Stamp ts ->
         (clock w' <= clock w'')%Q ->
         can_make_request w'' = (Return allowed, w'') ->
         allowed = true.
Proof.
  eapply (throttle_after_retries rate_limited_env "IN" "now 1-d" true 1
            fresh_world).
  - unfold reaches_query. split; [|split; [|split; [|split]]].
    + exists None. split; [vm_compute; reflexivity|discriminate].
    + vm_compute. reflexivity.
    + left. reflexivity.
    + intros keywords w1 _. reflexivity.
    + reflexivity.
  - reflexivity.
  - reflexivity.
  - reflexivity.
  - reflexivity.
  - reflexivity.
  - reflexivity.
Defined.

(** ** The fallback query *)

Section Fallback.

Variable E : env.

Lemma for_fold_interest_row last keywords results w :
  for_fold (interest_row last) results keywords w
  = (Return (results
             ++ ((fun kw => fallback_record kw (default 0%Q (last !! kw)) (clock w))
                   <$> List.filter (has_interest last) keywords)),
     w).
Proof.
  revert results. induction keywords as [|kw keywords IH]; intros results; simpl.
  - by rewrite app_nil_r.
  - unfold mbind, M_bind, interest_row, has_interest.
    destruct (Qltb 0 (default 0%Q (last !! kw))); run.
    + rewrite IH, <- app_assoc. done.
    + apply IH.
Qed.

Lemma fallback_interest_run keywords cache_key w last :
  interest_over_time E = Return (Some last) ->
  exists w',
    fallback_interest E keywords cache_key w
    = (Return (sort_by_score_reverse
                 ((fun kw => fallback_record kw (default 0%Q (last !! kw)) (clock w))
                    <$> List.filter (has_interest last) keywords)), w')
    /\ (write_cache E cache_key = Written ->
        cache w' = <[cache_key :=
                       Entry (clock w)
                         (sort_by_score_reverse
                            ((fun kw => fallback_record kw
                                          (default 0%Q (last !! kw)) (clock w))
                               <$> List.filter (has_interest last) keywords))]>
                     (cache w)).
Proof.
  intros Hdf. unfold fallback_interest, try_except.
  unfold mbind at 1, M_bind at 1, emit at 1.
  unfold mbind at 1, M_bind at 1, lift_outcome. rewrite Hdf.
  unfold mbind at 1, M_bind at 1. rewrite for_fold_interest_row.
  cbn [app clock]. unfold save_to_cache.
  destruct (write_cache E cache_key); run; eexists; (split; [reflexivity|]);
    try discriminate. done.
Qed.

End Fallback.

(** X9. With a time series at hand the fallback returns one record for each
    discovered keyword that has a positive value in the last row, and no
    other: each record carries that value as score and the tags [interest]
    and [google_trends_fallback], the list is ordered by non-increasing
    score, and it is written to the cache under the key of the call -- also
    when it is empty. *)
Theorem fallback_interest_result E keywords cache_key w last :
  interest_over_time E = Return (Some last) ->
  exists returned w',
    fallback_interest E keywords cache_key w = (Return returned, w')
    /\ keyword <$> returned ≡ₚ List.filter (has_interest last) keywords
    /\ StronglySorted score_ge returned
    /\ Forall (fun t => last !! keyword t = Some (score t)
                        /\ (0 < score t)%Q
                        /\ type t = interest
                        /\ source t = google_trends_fallback) returned
    /\ (write_cache E cache_key = Written ->
        cache w' !! cache_key = Some (Entry (clock w) returned)).
Proof.
  intros Hdf.
  destruct (fallback_interest_run E keywords cache_key w last Hdf)
    as (w' & Hrun & Hcache).
  eexists _, w'. split; [exact Hrun|].
  split; [|split; [|split]].
  - rewrite sort_by_score_reverse_perm.
    generalize (List.filter (has_interest last) keywords). intros l.
    induction l as [|kw l IH]; [done|]. rewrite !fmap_cons. simpl.
    by constructor.
  - apply sort_by_score_reverse_sorted.
  - rewrite sort_by_score_reverse_perm. apply Forall_fmap, Forall_forall.
    intros kw Hkw%list_elem_of_In%filter_In. destruct Hkw as [_ Hpos].
    unfold has_interest in Hpos. apply Qltb_lt in Hpos. simpl.
    destruct (last !! kw) as [q|]; simpl in *; [done|]. lra.
  - intros Hwrite. rewrite (Hcache Hwrite). apply lookup_insert_eq.
Qed.

Lemma fallback_interest_result_witness :
  exists returned w',
    fallback_interest interest_env seed_terms "google_trends_IN_now 1-d" fresh_world
    = (Return returned, w')
    /\ keyword <$> returned ≡ₚ ["education"; "exam"]
    /\ StronglySorted score_ge returned
    /\ cache w' !! "google_trends_IN_now 1-d" = Some (Entry 1000 returned).
Proof.
  destruct (fallback_interest_result interest_env seed_terms
              "google_trends_IN_now 1-d" fresh_world _ eq_refl)
    as (returned & w' & Hrun & Hkw & Hsorted & _ & Hcache).
  exists returned, w'. split; [exact Hrun|]. split; [exact Hkw|].
  split; [exact Hsorted|]. apply Hcache. reflexivity.
Defined.

(** X10. Without a time series -- the provider raises, or returns a missing
    or empty frame -- the fallback returns the empty list and writes
    nothing: the cache and the stamp file are as before. *)
Theorem fallback_interest_no_data E keywords cache_key w :
  interest_over_time E = Return None
  \/ (exists e, interest_over_time E = Raise e) ->
  exists w',
    fallback_interest E keywords cache_key w = (Return [], w')
    /\ same_files w w'.
Proof.
  intros Hdf. unfold fallback_interest. run.
  destruct Hdf as [->|[e ->]]; eexists; (split; [reflexivity|done]).
Qed.

Lemma fallback_interest_no_data_witness :
  exists w',
    fallback_interest offline_env seed_terms "google_trends_IN_now 1-d" saved_world
    = (Return [], w')
    /\ same_files saved_world w'.
Proof.
  apply (fallback_interest_no_data offline_env seed_terms
           "google_trends_IN_now 1-d" saved_world).
  right. eexists. reflexivity.
Defined.

(** ** Keyword discovery *)

Section Discovery.

Variable E : env.

Lemma autocomplete_run all_keywords seed w :
  exists w' evs,
    autocomplete E all_keywords seed w
    = (Return (all_keywords ∪ list_to_set (suggested E seed)), w')
    /\ trace w' = trace w ++ evs
    /\ List.filter is_suggest evs = [EvSuggest seed]
    /\ (clock w <= clock w')%Q
    /\ (clock w' <= clock w + 2)%Q.
Proof.
  destruct (random_range E (snd (emit (EvSuggest seed) w)))
    as (r & w1 & Hr & _ & Hlo & Hhi).
  unfold random in Hr. injection Hr as <- <-.
  assert (all_keywords ∪ list_to_set [] = all_keywords) as Hempty
    by apply (right_id_L ∅ (∪)).
  unfold autocomplete, suggested, uniform, random, sleep, try_except,
    mbind, M_bind, mret, M_ret, emit, lift_outcome.
  destruct (requests_get E seed) as [resp|e].
  - destruct (status_code resp =? 200)%Z.
    + destruct (json_1 resp) as [suggestions|e]; cbn [clock trace draws snd].
      * eexists _, [EvSuggest seed; EvSleep _]. split; [reflexivity|].
        cbn [clock trace]. rewrite <- app_assoc.
        split; [done|]. split; [done|]. split; lra.
      * eexists _, [EvSuggest seed]. rewrite Hempty.
        split; [reflexivity|]. cbn [clock trace].
        split; [done|]. split; [done|]. split; lra.
    + cbn [clock trace draws snd].
      eexists _, [EvSuggest seed; EvSleep _]. rewrite Hempty.
      split; [reflexivity|]. cbn [clock trace]. rewrite <- app_assoc.
      split; [done|]. split; [done|]. split; lra.
  - eexists _, [EvSuggest seed]. rewrite Hempty.
    split; [reflexivity|]. cbn [clock trace].
    split; [done|]. split; [done|]. split; lra.
Qed.

Lemma fetch_dynamic_keywords_run w :
  exists w' evs,
    fetch_dynamic_keywords E w
    = (Return (take 10 (set_order E (elements (discovered E)))), w')
    /\ trace w' = trace w ++ evs
    /\ List.filter is_suggest evs = EvSuggest <$> take 3 seed_terms
    /\ (clock w <= clock w')%Q
    /\ (clock w' <= clock w + 6)%Q.
Proof.
  unfold fetch_dynamic_keywords. cbn [seed_terms take for_fold].
  destruct (autocomplete_run (list_to_set seed_terms) "education" w)
    as (w1 & evs1 & H1 & Ht1 & Hs1 & Hlo1 & Hhi1).
  destruct (autocomplete_run
              (list_to_set seed_terms ∪ list_to_set (suggested E "education"))
              "exam" w1)
    as (w2 & evs2 & H2 & Ht2 & Hs2 & Hlo2 & Hhi2).
  destruct (autocomplete_run
              (list_to_set seed_terms ∪ list_to_set (suggested E "education")
               ∪ list_to_set (suggested E "exam"))
              "online course" w2)
    as (w3 & evs3 & H3 & Ht3 & Hs3 & Hlo3 & Hhi3).
  exists w3, (evs1 ++ evs2 ++ evs3).
  unfold mbind, M_bind, mret, M_ret. cbn [seed_terms] in H1, H2, H3.
  rewrite H1, H2, H3.
  assert (list_to_set seed_terms ∪ list_to_set (suggested E "education")
          ∪ list_to_set (suggested E "exam")
          ∪ list_to_set (suggested E "online course") = discovered E) as Hset.
  { unfold discovered. cbn [seed_terms take flat_map].
    rewrite !list_to_set_app_L. set_solver. }
  cbn [seed_terms] in Hset. rewrite Hset.
  split; [done|]. split; [by rewrite Ht3, Ht2, Ht1, <- !app_assoc|].
  split; [by rewrite !List.filter_app, Hs1, Hs2, Hs3|]. split; lra.
Qed.

End Discovery.

(** X11. The discovered keywords: whatever the autocomplete endpoint does,
    the returned list has no repeated string, and each of its elements is a
    seed term or one of the first two suggestions of a 200 answer for one of
    the first three seeds.  When seeds and suggestions together are at most
    ten, all of them are returned. *)
Theorem fetch_dynamic_keywords_elements E w :
  (forall l, set_order E l ≡ₚ l) ->
  exists keywords w',
    fetch_dynamic_keywords E w = (Return keywords, w')
    /\ NoDup keywords
    /\ (forall kw, kw ∈ keywords ->
          kw ∈ seed_terms
          \/ exists seed, seed ∈ take 3 seed_terms /\ kw ∈ suggested E seed)
    /\ ((size (discovered E) <= 10)%nat ->
        forall kw, kw ∈ keywords <-> kw ∈ discovered E).
Proof.
  intros Horder.
  destruct (fetch_dynamic_keywords_run E w) as (w' & evs & Hrun & _).
  eexists _, w'. split; [exact Hrun|].
  assert (NoDup (set_order E (elements (discovered E)))) as Hnd
    by (rewrite Horder; apply NoDup_elements).
  assert (forall kw, kw ∈ set_order E (elements (discovered E))
                     <-> kw ∈ discovered E) as Hin
    by (intros kw; by rewrite Horder, elem_of_elements).
  split; [|split].
  - eapply sublist_NoDup; [exact Hnd|apply sublist_take].
  - intros kw Hkw. apply (subseteq_take 10) in Hkw. apply Hin in Hkw.
    unfold discovered in Hkw.
    apply elem_of_union in Hkw as [Hseed|Hsug].
    + left. by apply elem_of_list_to_set in Hseed.
    + right. apply elem_of_list_to_set, list_elem_of_In, in_flat_map in Hsug
        as (seed & Hseed & Hkw).
      exists seed. split; by apply list_elem_of_In.
  - intros Hsize kw. rewrite take_ge; [apply Hin|].
    rewrite (Permutation_length (Horder _)). exact Hsize.
Qed.

Lemma fetch_dynamic_keywords_elements_witness :
  exists keywords w',
    fetch_dynamic_keywords mixed_case_env fresh_world = (Return keywords, w')
    /\ NoDup keywords
    /\ forall kw, kw ∈ keywords <-> kw ∈ discovered mixed_case_env.
Proof.
  destruct (fetch_dynamic_keywords_elements mixed_case_env fresh_world)
    as (keywords & w' & Hrun & Hnd & _ & Hall).
  { intros l. reflexivity. }
  exists keywords, w'. split; [exact Hrun|]. split; [exact Hnd|].
  apply Hall. vm_compute. lia.
Defined.

(** X12. When no lookup contributes -- every request raises, answers with
    another status than 200 or with an unusable body -- the discovered
    keywords are exactly the five seed terms. *)
Theorem fetch_dynamic_keywords_seeds_only E w :
  (forall l, set_order E l ≡ₚ l) ->
  (forall seed, seed ∈ take 3 seed_terms -> suggested E seed = []) ->
  exists keywords w',
    fetch_dynamic_keywords E w = (Return keywords, w')
    /\ keywords ≡ₚ seed_terms.
Proof.
  intros Horder Hnone.
  destruct (fetch_dynamic_keywords_run E w) as (w' & evs & Hrun & _).
  eexists _, w'. split; [exact Hrun|].
  assert (discovered E = list_to_set seed_terms) as ->.
  { unfold discovered. cbn [seed_terms take flat_map].
    rewrite !Hnone by (cbn [seed_terms take]; set_solver).
    simpl. by rewrite (right_id_L ∅ (∪)). }
  assert (NoDup seed_terms) as Hnd.
  { unfold seed_terms. repeat (constructor; [set_solver|]). constructor. }
  rewrite take_ge.
  - rewrite Horder. by apply elements_list_to_set.
  - rewrite (Permutation_length (Horder _)).
    rewrite (Permutation_length (elements_list_to_set _ Hnd)). simpl. lia.
Qed.

Lemma fetch_dynamic_keywords_seeds_only_witness :
  exists keywords w',
    fetch_dynamic_keywords quiet_env fresh_world = (Return keywords, w')
    /\ keywords ≡ₚ seed_terms.
Proof.
  apply (fetch_dynamic_keywords_seeds_only quiet_env fresh_world).
  - intros l. reflexivity.
  - intros seed _. reflexivity.
Defined.

(** X13. The cost of discovery: one call sends exactly three autocomplete
    requests, for the first three seed terms in their order, and takes at
    most six seconds of waiting. *)
Theorem fetch_dynamic_keywords_cost E w :
  exists evs,
    trace (snd (fetch_dynamic_keywords E w)) = trace w ++ evs
    /\ List.filter is_suggest evs
       = [EvSuggest "education"; EvSuggest "exam"; EvSuggest "online course"]
    /\ (clock w <= clock (snd (fetch_dynamic_keywords E w)))%Q
    /\ (clock (snd (fetch_dynamic_keywords E w)) <= clock w + 6)%Q.
Proof.
  destruct (fetch_dynamic_keywords_run E w)
    as (w' & evs & Hrun & Htrace & Hreq & Hlo & Hhi).
  exists evs. rewrite Hrun. done.
Qed.

(** ** The trending list *)

Section TrendingList.

Variable E : env.



Lemma get_trending_topics_miss geo w cached trending :
  get_cached_results ("trending_topics_" +:+ geo) 0.5 w = (Return cached, w) ->
  (forall r rs, cached <> Some (r :: rs)) ->
  TrendReq_basic E = None ->
  trending_searches E (lower E geo) = Return trending ->
  exists w',
    get_trending_topics E geo w
    = (Return (trending_record (clock w)
                 <$> List.filter (fun ik => is_education E (snd ik))
                       (enumerate trending)), w')
    /\ clock w' = clock w
    /\ (write_cache E ("trending_topics_" +:+ geo) = Written ->
        cache w' !! ("trending_topics_" +:+ geo)
        = Some (Entry (clock w)
                  (trending_record (clock w)
                     <$> List.filter (fun ik => is_education E (snd ik))
                           (enumerate trending)))).
Proof.
  intros Hcache Hmiss Hctor Htrending. unfold get_trending_topics.
  unfold mbind, M_bind at 1. rewrite Hcache.
  assert (forall k : M (list trend),
            match cached with Some (r :: rs) => mret (r :: rs) | _ => k end = k)
    as -> by (intros k; destruct cached as [[|r rs]|]; [done| |done];
              by destruct (Hmiss r rs)).
  unfold try_except, mbind, M_bind, emit, lift_failure, lift_outcome.
  rewrite Hctor, Htrending, for_fold_trending_row. cbn [app clock].
  unfold save_to_cache.
  destruct (write_cache E ("trending_topics_" +:+ geo)); run;
    eexists; (split; [reflexivity|]); (split; [done|]); try discriminate.
  intros _. apply lookup_insert_eq.
Qed.

End TrendingList.



(** X15. Write-through of the trending list: when a miss is answered with a
    non-empty list of education entries and the cache file can be written,
    the call that follows at once returns the same list from the cache, in
    whatever environment, and leaves the world as it is. *)
Theorem trending_topics_served_from_cache E geo w cached trending :
  get_cached_results ("trending_topics_" +:+ geo) 0.5 w = (Return cached, w) ->
  (forall r rs, cached <> Some (r :: rs)) ->
  TrendReq_basic E = None ->
  trending_searches E (lower E geo) = Return trending ->
  (exists kw, kw ∈ trending /\ is_education E kw = true) ->
  write_cache E ("trending_topics_" +:+ geo) = Written ->
  exists returned w',
    get_trending_topics E geo w = (Return returned, w')
    /\ returned <> []
    /\ forall E', get_trending_topics E' geo w' = (Return returned, w').
Proof.
  intros Hcache Hmiss Hctor Htrending (kw & Hkw & Hedu) Hwrite.
  destruct (get_trending_topics_miss E geo w cached trending
              Hcache Hmiss Hctor Htrending) as (w' & Hrun & Hclock & Hentry).
  specialize (Hentry Hwrite).
  destruct (trending_record (clock w)
              <$> List.filter (fun ik => is_education E (snd ik)) (enumerate trending))
    as [|r rs] eqn:Hreturned.
  { apply fmap_nil_inv in Hreturned.
    apply list_elem_of_lookup in Hkw as [i Hi].
    assert ((i, kw) ∈ List.filter (fun ik => is_education E (snd ik))
                        (enumerate trending)) as Hin.
    { apply list_elem_of_In, filter_In. split; [|done].
      apply list_elem_of_In, list_elem_of_lookup. exists i.
      unfold enumerate. by rewrite list_lookup_imap, Hi. }
    rewrite Hreturned in Hin. by apply elem_of_nil in Hin. }
  exists (r :: rs), w'. split; [exact Hrun|]. split; [done|].
  intros E'. unfold get_trending_topics. unfold mbind, M_bind.
  rewrite (get_cached_results_fresh _ _ _ (clock w) (r :: rs)); [done|done|].
  rewrite Hclock. lra.
Qed.

Lemma trending_topics_served_from_cache_witness :
  exists returned w',
    get_trending_topics scenario_env "IN" fresh_world = (Return returned, w')
    /\ returned <> []
    /\ forall E', get_trending_topics E' "IN" w' = (Return returned, w').
Proof.
  apply (trending_topics_served_from_cache scenario_env "IN" fresh_world None
           ["iPhone 16 launch"; "JEE Main result 2025"; "Cricket score"]).
  - vm_compute. reflexivity.
  - discriminate.
  - reflexivity.
  - reflexivity.
  - exists "JEE Main result 2025". split; [set_solver|reflexivity].
  - reflexivity.
Defined.

(** X16. When the lookup of [get_trending_topics] returns without a
    non-empty list and the constructor of the client or the trending request
    then fails, the call returns the empty list and writes nothing. *)
Theorem trending_topics_failure E geo w cached :
  get_cached_results ("trending_topics_" +:+ geo) 0.5 w = (Return cached, w) ->
  (forall r rs, cached <> Some (r :: rs)) ->
  (exists e, TrendReq_basic E = Some e)
  \/ (exists e, trending_searches E (lower E geo) = Raise e) ->
  exists w', get_trending_topics E geo w = (Return [], w')
             /\ same_files w w'.
Proof.
  intros Hcache Hmiss Hfail. unfold get_trending_topics.
  unfold mbind, M_bind at 1. rewrite Hcache.
  assert (forall k : M (list trend),
            match cached with Some (r :: rs) => mret (r :: rs) | _ => k end = k)
    as -> by (intros k; destruct cached as [[|r rs]|]; [done| |done];
              by destruct (Hmiss r rs)).
  unfold try_except, mbind, M_bind, emit, lift_failure, lift_outcome.
  destruct Hfail as [[e ->]|[e He]].
  - eexists. split; [reflexivity|done].
  - destruct (TrendReq_basic E); [eexists; split; [reflexivity|done]|].
    rewrite He. eexists. split; [reflexivity|done].
Qed.

Lemma trending_topics_failure_witness :
  exists w', get_trending_topics offline_env "IN" primed_world = (Return [], w')
             /\ same_files primed_world w'.
Proof.
  apply (trending_topics_failure offline_env "IN" primed_world None).
  - vm_compute. reflexivity.
  - discriminate.
  - left. eexists. reflexivity.
Defined.

(** ** Which rows convert *)

Section Converting.

Variable E : env.

Lemma visits_rising_row r : visits E (fun acc => rising_row E acc r) [(rising, r)].
Proof.
  apply visits_row.
  - intros. by apply rising_row_seen.
  - intros. by eapply rising_row_new.
Qed.

Lemma visits_top_row r : visits E (fun acc => top_row E acc r) [(top, r)].
Proof.
  apply visits_row.
  - intros. by apply top_row_seen.
  - intros. by eapply top_row_new.
Qed.

Lemma gets_through_nil : gets_through E mret [].
Proof. intros results seen w _. by eexists. Qed.

Lemma gets_through_seq m1 m2 l1 l2 :
  visits E m1 l1 -> gets_through E m1 l1 -> gets_through E m2 l2 ->
  gets_through E (fun acc => acc1 ← m1 acc; m2 acc1) (l1 ++ l2).
Proof.
  intros Hv H1 H2 results seen w Hconv.
  rewrite first_occurrences_app in Hconv. apply Forall_app in Hconv as [Hc1 Hc2].
  destruct (H1 results seen w Hc1) as [acc1 Hm1].
  unfold mbind, M_bind. rewrite Hm1.
  apply Hv in Hm1 as (_ & new & -> & _). by apply H2.
Qed.

Lemma gets_through_for_fold {A} (step : accumulator -> A -> M accumulator)
    (rows_in : A -> list (record_type * row)) (l : list A) :
  (forall a, visits E (fun acc => step acc a) (rows_in a)) ->
  (forall a, gets_through E (fun acc => step acc a) (rows_in a)) ->
  gets_through E (fun acc => for_fold step acc l) (flat_map rows_in l).
Proof.
  intros Hv Hg. induction l as [|a l IH]; simpl.
  - apply gets_through_nil.
  - apply (gets_through_seq (fun acc => step acc a) _ _ _ (Hv a) (Hg a) IH).
Qed.

Lemma gets_through_rising_row r :
  gets_through E (fun acc => rising_row E acc r) [(rising, r)].
Proof.
  intros results seen w. simpl. unfold row_key, rising_row, normalise. simpl.
  destruct (bool_decide _); [by eexists|].
  intros [Hc _]%Forall_cons. unfold convertible in Hc. simpl in Hc.
  destruct (value r) as [q|s]; [by eexists|].
  destruct Hc as [_ ->]. by eexists.
Qed.

Lemma gets_through_top_row r :
  gets_through E (fun acc => top_row E acc r) [(top, r)].
Proof.
  intros results seen w. simpl. unfold row_key, top_row, normalise. simpl.
  destruct (bool_decide _); [by eexists|].
  intros [Hc _]%Forall_cons. unfold convertible in Hc. simpl in Hc.
  destruct (value r) as [q|s]; [by eexists|]. by destruct Hc.
Qed.

Lemma gets_through_frame step ty (rows : option (list row)) :
  (forall r, visits E (fun acc => step acc r) [(ty, r)]) ->
  (forall r, gets_through E (fun acc => step acc r) [(ty, r)]) ->
  gets_through E (fun acc => match rows with
                           | Some rows => for_fold step acc rows
                           | None => mret acc
                           end)
               (pair ty <$> default [] rows).
Proof.
  intros Hv Hg. destruct rows as [rows|]; simpl; [|apply gets_through_nil].
  rewrite <- flat_map_singleton. by apply gets_through_for_fold.
Qed.

Lemma gets_through_group kg :
  gets_through E (fun acc => process_group E acc kg) (rows_of_group (snd kg)).
Proof.
  unfold process_group, rows_of_group.
  apply (gets_through_seq
           (fun acc => match g_rising (snd kg) with
                       | Some rows => for_fold (rising_row E) acc rows
                       | None => mret acc
                       end)
           (fun acc => match g_top (snd kg) with
                       | Some rows => for_fold (top_row E) acc rows
                       | None => mret acc
                       end)).
  - apply visits_frame, visits_rising_row.
  - apply gets_through_frame; [apply visits_rising_row|apply gets_through_rising_row].
  - apply gets_through_frame; [apply visits_top_row|apply gets_through_top_row].
Qed.

Lemma process_queries_gets_through data w :
  Forall convertible (first_occurrences E ∅ (rows_of data)) ->
  exists results, process_queries E data w = (Return results, w).
Proof.
  intros Hconv.
  destruct (gets_through_for_fold (process_group E)
              (fun kg => rows_of_group (snd kg)) data (visits_group E)
              gets_through_group [] ∅ w Hconv) as [acc Hrun].
  exists (fst acc). unfold process_queries, mbind, M_bind. by rewrite Hrun.
Qed.

Lemma built_from_convertible t tr : built_from t tr -> convertible tr.
Proof.
  intros (_ & _ & _ & [Hv|(Hty & Hv & _)]); unfold convertible; by rewrite Hv.
Qed.

Lemma first_occurrences_length seen rows :
  length (first_occurrences E seen rows)
  = size (list_to_set (row_key E <$> rows) ∖ seen : gset string).
Proof.
  revert seen. induction rows as [|tr rows IH]; intros seen.
  - replace ((list_to_set (row_key E <$> []) ∖ seen) : gset string)
      with (∅ : gset string) by set_solver.
    by rewrite size_empty.
  - cbn [first_occurrences]. rewrite fmap_cons, list_to_set_cons.
    case_bool_decide as Hin.
    + rewrite IH. f_equal. set_solver.
    + assert (forall K : gset string,
                ({[row_key E tr]} ∪ K) ∖ seen
                = {[row_key E tr]} ∪ (K ∖ (seen ∪ {[row_key E tr]}))) as Heq.
      { intros K. apply set_eq. intros k.
        destruct (decide (k = row_key E tr)); set_solver. }
      cbn [length]. rewrite IH, Heq.
      pose proof (size_union (C:=gset string) {[row_key E tr]}
                    (list_to_set (row_key E <$> rows)
                       ∖ (seen ∪ {[row_key E tr]}))) as Hsize.
      rewrite Hsize by set_solver.
      by rewrite size_singleton.
Qed.

End Converting.

(** X17. Whether the rows of a provider answer normalise is decided by the
    rows that are first of their query text: the loops of lines 220-250
    return a list exactly when each of those carries a number, or the
    sentinel in a "rising" frame (a later duplicate is skipped before its
    value is read). *)
Theorem process_queries_converts E data w :
  Forall convertible (first_occurrences E ∅ (rows_of data))
  <-> exists results, process_queries E data w = (Return results, w).
Proof.
  split.
  - apply process_queries_gets_through.
  - intros [results Hrun].
    apply process_queries_first_occurrences in Hrun as [_ Hbuilt].
    apply Forall_forall. intros tr Htr.
    apply list_elem_of_lookup in Htr as [i Hi].
    destruct (Forall2_lookup_r _ _ _ _ _ Hbuilt Hi) as (t & _ & Hb).
    by eapply built_from_convertible.
Qed.

(** X18. The list the loops of lines 220-250 return has one record for each
    distinct normalised query text of the answer: its length is the number
    of distinct keys, however many rows repeat one. *)
Theorem process_queries_length E data w results w' :
  process_queries E data w = (Return results, w') ->
  length results = size (list_to_set (row_key E <$> rows_of data) : gset string).
Proof.
  intros Hrun.
  apply process_queries_first_occurrences in Hrun as [_ Hbuilt].
  rewrite (Forall2_length _ _ _ Hbuilt), first_occurrences_length.
  f_equal. set_solver.
Qed.

Lemma process_queries_length_witness :
  length tie_results
  = size (list_to_set (row_key scenario_env <$> rows_of tie_data) : gset string).
Proof.
  apply (process_queries_length scenario_env tie_data fresh_world tie_results
           fresh_world).
  vm_compute. reflexivity.
Defined.

(** X19. A criterion for the primary path: the rows of an answer normalise
    to a non-empty list exactly when there is at least one row and every
    first occurrence converts. *)
Theorem normalises_iff E data :
  normalises E data
  <-> rows_of data <> []
      /\ Forall convertible (first_occurrences E ∅ (rows_of data)).
Proof.
  split.
  - intros Hnorm. destruct (Hnorm fresh_world) as (results & Hrun & Hne).
    pose proof Hrun as Hrun'.
    apply process_queries_first_occurrences in Hrun as [_ Hbuilt]. split.
    + intros Hnil. rewrite Hnil in Hbuilt. simpl in Hbuilt.
      by apply Forall2_nil_inv_r in Hbuilt.
    + apply Forall_forall. intros tr Htr.
      apply list_elem_of_lookup in Htr as [i Hi].
      destruct (Forall2_lookup_r _ _ _ _ _ Hbuilt Hi) as (t & _ & Hb).
      by eapply built_from_convertible.
  - intros [Hrows Hconv] w.
    destruct (process_queries_gets_through E data w Hconv) as [results Hrun].
    exists results. split; [done|].
    apply process_queries_first_occurrences in Hrun as [_ Hbuilt].
    intros ->. apply Forall2_nil_inv_l in Hbuilt.
    destruct (rows_of data) as [|tr rows]; [done|].
    simpl in Hbuilt. rewrite bool_decide_eq_false_2 in Hbuilt by set_solver.
    done.
Qed.

(** ** When an exception reaches the caller *)

Section Escapes.

Variable E : env.

Lemma constructor_run w :
  (exists w', try_except_TypeError
                (emit EvTrendReq;; lift_failure (TrendReq_full E))
                (emit EvTrendReq;; lift_failure (TrendReq_basic E)) w
              = (Return tt, w')
              /\ forall e, ~ constructor_raises E e)
  \/ (exists e w', try_except_TypeError
                     (emit EvTrendReq;; lift_failure (TrendReq_full E))
                     (emit EvTrendReq;; lift_failure (TrendReq_basic E)) w
                   = (Raise e, w')
                   /\ forall e', constructor_raises E e' <-> e' = e).
Proof.
  unfold constructor_raises, try_except_TypeError, mbind, M_bind, emit, lift_failure.
  destruct (TrendReq_full E) as [[msg|msg|msg]|] eqn:Hfull.
  - destruct (TrendReq_basic E) as [e|] eqn:Hbasic.
    + right. exists e. eexists. split; [reflexivity|]. intros e'. split.
      * intros [[[= <-] Hno]|[_ [= <-]]]; [by destruct (Hno msg)|done].
      * intros ->. right. eauto.
    + left. eexists. split; [reflexivity|].
      intros e [[[= <-] Hno]|[_ [=]]]. by destruct (Hno msg).
  - right. exists (ValueError msg). eexists. split; [reflexivity|]. intros e'. split.
    + intros [[[= <-] _]|[[msg' [=]] _]]. done.
    + intros ->. left. split; [done|]. intros msg' [=].
  - right. exists (OtherError msg). eexists. split; [reflexivity|]. intros e'. split.
    + intros [[[= <-] _]|[[msg' [=]] _]]. done.
    + intros ->. left. split; [done|]. intros msg' [=].
  - left. eexists. split; [reflexivity|].
    intros e [[[=] _]|[[msg [=]] _]].
Qed.

End Escapes.

Lemma fetch_google_trends_Raise E geo timeframe use_cache cache_hours w e :
  fst (fetch_google_trends E geo timeframe use_cache cache_hours w) = Raise e
  <-> (use_cache = true ->
       forall r rs,
         get_cached_results ("google_trends_" +:+ geo +:+ "_" +:+ timeframe)
           cache_hours w
         <> (Return (Some (r :: rs)), w))
      /\ can_make_request w = (Return true, w)
      /\ constructor_raises E e.
Proof.
  unfold fetch_google_trends.
  set (cache_key := "google_trends_" +:+ geo +:+ "_" +:+ timeframe).
  assert (exists cached,
            (if use_cache then get_cached_results cache_key cache_hours
             else mret None) w = (Return cached, w)
            /\ (use_cache = false -> cached = None)
            /\ (use_cache = true ->
                get_cached_results cache_key cache_hours w = (Return cached, w)))
    as (cached & Hc & Hoff & Hon).
  { destruct use_cache.
    - destruct (get_cached_results_returns cache_key cache_hours w) as [cached Hc].
      by exists cached.
    - by exists None. }
  unfold mbind at 1, M_bind at 1. rewrite Hc.
  assert (forall r rs, cached = Some (r :: rs) ->
            ~ (use_cache = true ->
               forall r rs, get_cached_results cache_key cache_hours w
                            <> (Return (Some (r :: rs)), w))) as Hhit.
  { intros r rs -> Hmiss. destruct use_cache; [|by specialize (Hoff eq_refl)].
    by apply (Hmiss eq_refl r rs), Hon. }
  assert ((forall r rs, cached <> Some (r :: rs)) ->
            (use_cache = true ->
             forall r rs, get_cached_results cache_key cache_hours w
                          <> (Return (Some (r :: rs)), w))) as Hmiss.
  { intros Hne Huse r rs Hget. rewrite (Hon Huse) in Hget.
    injection Hget as Heq. by apply (Hne r rs). }
  assert (forall k : M (list trend),
            (fst (k w) = Raise e
             <-> can_make_request w = (Return true, w) /\ constructor_raises E e) ->
            fst (match cached with Some (r :: rs) => mret (r :: rs) | _ => k end w)
            = Raise e
            <-> (use_cache = true ->
                 forall r rs, get_cached_results cache_key cache_hours w
                              <> (Return (Some (r :: rs)), w))
                /\ can_make_request w = (Return true, w)
                /\ constructor_raises E e) as Hcached.
  { intros k Hk. destruct cached as [[|r rs]|].
    - rewrite Hk. split; [intros H; split; [by apply Hmiss|done]|tauto].
    - split; [done|]. intros [H _]. by destruct (Hhit r rs eq_refl).
    - rewrite Hk. split; [intros H; split; [by apply Hmiss|done]|tauto]. }
  apply Hcached. clear Hcached.
  destruct (can_make_request_returns w) as [allowed Hallowed].
  unfold mbind at 1, M_bind at 1. rewrite Hallowed.
  destruct allowed; cbn [negb].
  - destruct (fetch_dynamic_keywords_never_raises E w) as (keywords & w1 & Hk & _).
    unfold mbind at 1, M_bind at 1. rewrite Hk.
    unfold mbind at 1, M_bind at 1.
    destruct (constructor_run E w1) as [(w2 & -> & Hno)|(e0 & w2 & -> & Hyes)].
    + destruct (never_raises_try_except
                  (query_provider E keywords geo timeframe cache_key)
                  (on_error E cache_key) (never_raises_on_error E cache_key) w2)
        as (a & w3 & -> & _).
      split; [done|]. intros [_ Hraises]. by destruct (Hno e).
    + cbn [fst]. rewrite Hyes. split; [intros [= ->]; by split|by intros [_ ->]].
  - destruct (get_cached_results_returns cache_key 24 w) as [cached' Hc'].
    unfold mbind at 1, M_bind at 1. rewrite Hc'.
    split; [by destruct cached' as [[|r rs]|]|]. by intros [[=] _].
Qed.

(** X20. When the cache lookups and the throttle check of a call return,
    the only exception that leaves [fetch_google_trends] is one of the
    client constructor of lines 169-184, which stands before the outer
    [try]: the call raises [e] exactly when the first lookup gave no
    non-empty list, the throttle is open, and the constructor raises [e] (at
    the first call with anything but a [TypeError], or at the second call
    after a [TypeError]). *)
Theorem fetch_google_trends_raises_iff
    E geo timeframe (use_cache : bool) cache_hours w cached allowed e :
  let cache_key := "google_trends_" +:+ geo +:+ "_" +:+ timeframe in
  lookups_return cache_key ->
  (if use_cache then get_cached_results cache_key cache_hours else mret None) w
  = (Return cached, w) ->
  can_make_request w = (Return allowed, w) ->
  fst (fetch_google_trends E geo timeframe use_cache cache_hours w) = Raise e
  <-> (forall r rs, cached <> Some (r :: rs))
      /\ allowed = true
      /\ constructor_raises E e.
Proof.
  intros cache_key _ Hc Hallowed.
  rewrite fetch_google_trends_Raise. fold cache_key. split.
  - intros (Hmiss & Hopen & Hctor). split; [|split; [congruence|done]].
    intros r rs ->. destruct use_cache; [|discriminate].
    by apply (Hmiss eq_refl r rs).
  - intros (Hmiss & -> & Hctor). split; [|done].
    intros -> r rs Hget. rewrite Hc in Hget. injection Hget as ->.
    by apply (Hmiss r rs).
Qed.

Lemma fetch_google_trends_raises_iff_witness :
  fst (fetch_google_trends offline_env "IN" "now 1-d" true 1 fresh_world)
  = Raise (OtherError "HTTPSConnectionPool: Max retries exceeded")
  <-> (forall r rs, (None : option (list trend)) <> Some (r :: rs))
      /\ true = true
      /\ constructor_raises offline_env
           (OtherError "HTTPSConnectionPool: Max retries exceeded").
Proof.
  apply (fetch_google_trends_raises_iff offline_env "IN" "now 1-d" true 1
           fresh_world None true).
  - intros hours w. apply get_cached_results_returns.
  - vm_compute. reflexivity.
  - vm_compute. reflexivity.
Defined.

(** ** The Reddit listing *)

Section RedditRuns.

Variable E : env.
Variable R : Reddit.reddit_env.

Lemma append_posts_fst results l :
  fst (Reddit.append_posts results l)
  = results ++ (Reddit.record <$> Reddit.yielded l).
Proof.
  revert results. induction l as [|p rest IH|e]; intros results; simpl.
  - by rewrite app_nil_r.
  - by rewrite IH, <- app_assoc.
  - by rewrite app_nil_r.
Qed.

Lemma append_posts_snd results l :
  snd (Reddit.append_posts results l) = None <-> Reddit.completes l = true.
Proof.
  revert results. induction l as [|p rest IH|e]; intros results; simpl; [done|apply IH|done].
Qed.

(** A pause of the loop: between 0.2 and 0.6 seconds, and no file touched. *)
Lemma pause_run {A} (a : A) w :
  exists w',
    (seconds ← uniform E (2 # 10) (6 # 10); sleep seconds;; mret a) w
    = (Return a, w')
    /\ same_files w w'
    /\ (2 # 10 <= clock w' - clock w)%Q /\ (clock w' - clock w <= 6 # 10)%Q.
Proof.
  destruct (random_range E w) as (r & w1 & Hr & _ & Hlo & Hhi).
  pose proof Hr as Hw1. unfold random in Hw1. injection Hw1 as _ <-.
  unfold uniform, sleep, mbind, M_bind, mret, M_ret. rewrite Hr.
  eexists. split; [reflexivity|]. split; [by split|].
  cbn [clock]. split; lra.
Qed.

Lemma subreddit_run results name w :
  exists w',
    Reddit.subreddit E R results name w
    = (Return (results ++ Reddit.records_of R name), w')
    /\ same_files w w'
    /\ if Reddit.completes (Reddit.hot R name 8)
       then (2 # 10 <= clock w' - clock w)%Q /\ (clock w' - clock w <= 6 # 10)%Q
       else clock w' = clock w.
Proof.
  unfold Reddit.subreddit, Reddit.records_of.
  pose proof (append_posts_fst results (Reddit.hot R name 8)) as Hfst.
  pose proof (append_posts_snd results (Reddit.hot R name 8)) as Hsnd.
  destruct (Reddit.append_posts results (Reddit.hot R name 8)) as [results' stopped].
  cbn [fst snd] in *. subst results'.
  destruct stopped as [e|].
  - assert (Reddit.completes (Reddit.hot R name 8) = false) as ->.
    { destruct (Reddit.completes _); [|done]. by destruct Hsnd as [_ Hsnd]; specialize (Hsnd eq_refl). }
    exists w. unfold try_except, lift_failure, mbind, M_bind, mret, M_ret.
    by repeat split.
  - rewrite (proj1 Hsnd eq_refl).
    unfold try_except, lift_failure. unfold mbind at 1, M_bind at 1.
    destruct (pause_run (results ++ (Reddit.record <$> Reddit.yielded (Reddit.hot R name 8))) w)
      as (w' & -> & Hfiles & Hclock).
    by exists w'.
Qed.

Lemma for_fold_subreddit names results w :
  exists w',
    for_fold (Reddit.subreddit E R) results names w
    = (Return (results ++ flat_map (Reddit.records_of R) names), w')
    /\ same_files w w'
    /\ ((2 # 10) * inject_Z (Z.of_nat (length (List.filter
                         (fun name => Reddit.completes (Reddit.hot R name 8)) names)))
        <= clock w' - clock w)%Q
    /\ (clock w' - clock w
        <= (6 # 10) * inject_Z (Z.of_nat (length (List.filter
                         (fun name => Reddit.completes (Reddit.hot R name 8)) names))))%Q.
Proof.
  revert results w. induction names as [|name names IH]; intros results w.
  - exists w. cbn [for_fold flat_map List.filter length].
    rewrite app_nil_r. split; [done|]. split; [done|].
    change (inject_Z (Z.of_nat 0)) with 0%Q. split; lra.
  - destruct (subreddit_run results name w) as (w1 & Hrun & Hfiles1 & Hclock1).
    destruct (IH (results ++ Reddit.records_of R name) w1)
      as (w' & Hrest & Hfiles & Hlo & Hhi).
    exists w'. cbn [for_fold flat_map List.filter].
    unfold mbind, M_bind. rewrite Hrun, Hrest, <- app_assoc.
    split; [done|]. split; [by etrans|].
    destruct (Reddit.completes (Reddit.hot R name 8)).
    + cbn [length]. rewrite Nat2Z.inj_succ, <- Z.add_1_r, inject_Z_plus.
      change (inject_Z 1) with 1%Q. destruct Hclock1. split; lra.
    + rewrite Hclock1 in *. done.
Qed.

Lemma fetch_reddit_trends_run w :
  exists w',
    Reddit.fetch_reddit_trends E R w = (Return (Reddit.all_records R), w')
    /\ same_files w w'
    /\ ((2 # 10) * inject_Z (Z.of_nat (Reddit.pauses R)) <= clock w' - clock w)%Q
    /\ (clock w' - clock w <= (6 # 10) * inject_Z (Z.of_nat (Reddit.pauses R)))%Q.
Proof.
  unfold Reddit.fetch_reddit_trends, Reddit.all_records, Reddit.pauses,
    try_except, lift_failure.
  unfold mbind at 1, M_bind at 1.
  destruct (Reddit.Reddit R) as [e|].
  - exists w. split; [done|]. split; [done|].
    change (inject_Z (Z.of_nat 0)) with 0%Q. split; lra.
  - destruct (for_fold_subreddit Reddit.SUBREDDITS [] w) as (w' & -> & Hfiles & Hclock).
    by exists w'.
Qed.

End RedditRuns.

Lemma pauses_le R : (inject_Z (Z.of_nat (Reddit.pauses R)) <= 55)%Q.
Proof.
  change 55%Q with (inject_Z 55). rewrite <- Zle_Qle.
  assert (Reddit.pauses R <= 55)%nat; [|lia].
  unfold Reddit.pauses. destruct (Reddit.Reddit R); [lia|].
  etrans; [apply List.filter_length_le|]. done.
Qed.

(** X21. [fetch_reddit_trends] never raises, touches no file, and returns the
    submissions in the order of [SUBREDDITS]: for each subreddit the posts
    its listing handed out, those before an exception included, so a
    failing subreddit neither loses its first posts nor stops the others.
    When the client cannot be built the result is the empty list. *)
Theorem fetch_reddit_trends_result E R w :
  exists w',
    Reddit.fetch_reddit_trends E R w = (Return (Reddit.all_records R), w')
    /\ same_files w w'.
Proof.
  destruct (fetch_reddit_trends_run E R w) as (w' & Hrun & Hfiles & _).
  by exists w'.
Qed.

(** X22. With listings that respect [limit=8], a run returns at most 440
    records (8 for each of the 55 subreddits). *)
Theorem fetch_reddit_trends_length E R w results w' :
  (forall name, (length (Reddit.yielded (Reddit.hot R name 8)) <= 8)%nat) ->
  Reddit.fetch_reddit_trends E R w = (Return results, w') ->
  (length results <= 440)%nat.
Proof.
  intros Hlimit Hrun.
  destruct (fetch_reddit_trends_run E R w) as (w1 & Hres & _).
  rewrite Hres in Hrun. injection Hrun as <- _.
  unfold Reddit.all_records. destruct (Reddit.Reddit R); [simpl; lia|].
  assert (forall names,
            (length (flat_map (Reddit.records_of R) names) <= 8 * length names)%nat)
    as Hlen.
  { induction names as [|name names IH]; [simpl; lia|].
    cbn [flat_map length]. rewrite length_app. unfold Reddit.records_of at 1.
    rewrite length_fmap. specialize (Hlimit name). lia. }
  apply (Hlen Reddit.SUBREDDITS).
Qed.

Lemma fetch_reddit_trends_length_witness :
  (length (Reddit.all_records Reddit.campus) <= 440)%nat.
Proof.
  apply (fetch_reddit_trends_length quiet_env Reddit.campus fresh_world
           (Reddit.all_records Reddit.campus)
           (snd (Reddit.fetch_reddit_trends quiet_env Reddit.campus fresh_world))).
  - intros name. cbn [Reddit.hot Reddit.campus].
    destruct (String.eqb name "education"); [simpl; lia|].
    destruct (String.eqb name "Teachers"); simpl; lia.
  - vm_compute. reflexivity.
Defined.

(** X23. A run pauses once for each subreddit whose listing ended without
    an exception, between 0.2 and 0.6 seconds each time, and not at all
    after a failure: the clock advances by at most 33 seconds. *)
Theorem fetch_reddit_trends_pauses E R w :
  ((2 # 10) * inject_Z (Z.of_nat (Reddit.pauses R))
   <= clock (snd (Reddit.fetch_reddit_trends E R w)) - clock w)%Q
  /\ (clock (snd (Reddit.fetch_reddit_trends E R w)) - clock w
      <= (6 # 10) * inject_Z (Z.of_nat (Reddit.pauses R)))%Q
  /\ (clock (snd (Reddit.fetch_reddit_trends E R w)) - clock w <= 33)%Q.
Proof.
  destruct (fetch_reddit_trends_run E R w) as (w' & -> & _ & Hlo & Hhi).
  cbn [snd]. split; [done|]. split; [done|].
  pose proof (pauses_le R) as Hle. lra.
Qed.

(** ** The scheduled job *)

Section Jobs.

Import Scheduler.

Variable E : env.
Variable R : Reddit.reddit_env.
Variable D : db_env.

Lemma session_rows `{Item A} (items : list A) (db : list Trend) :
  foldl (fun db item => db ++ [new_Trend item]) db items
  = db ++ (new_Trend <$> items).
Proof.
  revert db. induction items as [|item items IH]; intros db; simpl.
  - by rewrite app_nil_r.
  - by rewrite IH, <- app_assoc.
Qed.

Lemma save_to_db_run `{Item A} (items : list A) s :
  commit D (new_Trend <$> items) = None ->
  save_to_db D items s
  = (Return tt, {| files := files s; table := table s ++ (new_Trend <$> items) |}).
Proof.
  intros Hcommit. unfold save_to_db. rewrite session_rows. simpl.
  by rewrite Hcommit.
Qed.

Lemma scheduled_job_run s google w1 :
  fetch_google_trends E "IN" "now 1-d" true 1 (files s) = (Return google, w1) ->
  (forall rows, commit D rows = None) ->
  exists w2,
    scheduled_job E R D s
    = (Return tt,
       {| files := w2;
          table := table s ++ (new_Trend <$> google)
                     ++ (new_Trend <$> Reddit.all_records R) |})
    /\ same_files w1 w2
    /\ (clock w1 <= clock w2)%Q /\ (clock w2 <= clock w1 + 33)%Q.
Proof.
  intros Hgoogle Hcommit.
  destruct (fetch_reddit_trends_run E R w1) as (w2 & Hreddit & Hfiles & Hlo & Hhi).
  exists w2. split; [|split; [done|]].
  - unfold scheduled_job, in_files. unfold mbind, J_bind.
    rewrite Hgoogle. cbn [files table]. rewrite Hreddit.
    rewrite !save_to_db_run by done. cbn [files table].
    by rewrite <- app_assoc.
  - pose proof (pauses_le R) as Hle.
    assert (0 <= inject_Z (Z.of_nat (Reddit.pauses R)))%Q
      by (change 0%Q with (inject_Z 0); rewrite <- Zle_Qle; lia).
    split; lra.
Qed.

End Jobs.

(** X24. One failing constructor stops the whole job: when the Google call
    of [scheduled_job] finds no usable cache entry and an open throttle and
    the client constructor raises, the job raises that exception before
    Reddit is asked, and nothing is saved. *)
Theorem scheduled_job_propagates E R D s e :
  (forall r rs,
     get_cached_results "google_trends_IN_now 1-d" 1 (Scheduler.files s)
     <> (Return (Some (r :: rs)), Scheduler.files s)) ->
  can_make_request (Scheduler.files s) = (Return true, Scheduler.files s) ->
  constructor_raises E e ->
  exists w',
    fetch_google_trends E "IN" "now 1-d" true 1 (Scheduler.files s) = (Raise e, w')
    /\ Scheduler.scheduled_job E R D s
       = (Raise e, {| Scheduler.files := w'; Scheduler.table := Scheduler.table s |}).
Proof.
  intros Hmiss Hallowed Hctor.
  pose proof (proj2 (fetch_google_trends_Raise E "IN" "now 1-d" true 1
                       (Scheduler.files s) e)) as Hraise.
  destruct (fetch_google_trends E "IN" "now 1-d" true 1 (Scheduler.files s))
    as [r w'] eqn:Hrun.
  cbn [fst] in Hraise. rewrite Hraise by (split; [intros _; apply Hmiss|done]).
  exists w'. split; [done|].
  unfold Scheduler.scheduled_job, Scheduler.in_files. unfold mbind, Scheduler.J_bind.
  rewrite Hrun, Hraise by (split; [intros _; apply Hmiss|done]). done.
Qed.

Lemma scheduled_job_propagates_witness :
  exists w',
    fetch_google_trends offline_env "IN" "now 1-d" true 1
      (Scheduler.files Scheduler.empty_system)
    = (Raise (OtherError "HTTPSConnectionPool: Max retries exceeded"), w')
    /\ Scheduler.scheduled_job offline_env Reddit.campus Scheduler.sound_db
         Scheduler.empty_system
       = (Raise (OtherError "HTTPSConnectionPool: Max retries exceeded"),
          {| Scheduler.files := w';
             Scheduler.table := Scheduler.table Scheduler.empty_system |}).
Proof.
  apply (scheduled_job_propagates offline_env Reddit.campus Scheduler.sound_db
           Scheduler.empty_system
           (OtherError "HTTPSConnectionPool: Max retries exceeded")).
  - intros r rs. vm_compute. discriminate.
  - vm_compute. reflexivity.
  - left. split; [reflexivity|]. intros msg. discriminate.
Defined.



(** X26. Rows pile up: a job whose Google call took the primary path and
    cached its result leaves that result as the entry of the query key,
    written no later than the job ends.  Any job that finds this entry less
    than an hour old -- the scheduler fires every 30 seconds -- reads the
    result from the cache and stores the same Google rows once more,
    whatever the provider answers by then. *)
Theorem scheduled_job_repeats E R D s data :
  reaches_query E "IN" "now 1-d" true 1 (Scheduler.files s) ->
  answers_with E data ->
  normalises E data ->
  write_cache E "google_trends_IN_now 1-d" = Written ->
  (forall rows, Scheduler.commit D rows = None) ->
  exists (google : list trend) s1 t,
    google <> []
    /\ Scheduler.scheduled_job E R D s = (Return tt, s1)
    /\ Scheduler.table s1
       = Scheduler.table s ++ (Scheduler.new_Trend <$> google)
           ++ (Scheduler.new_Trend <$> Reddit.all_records R)
    /\ cache (Scheduler.files s1) !! "google_trends_IN_now 1-d"
       = Some (Entry t google)
    /\ (t <= clock (Scheduler.files s1))%Q
    /\ forall E' R' s1',
         cache (Scheduler.files s1') !! "google_trends_IN_now 1-d"
         = Some (Entry t google) ->
         (clock (Scheduler.files s1') - t < 3600)%Q ->
         exists s2,
           Scheduler.scheduled_job E' R' D s1' = (Return tt, s2)
           /\ Scheduler.table s2
              = Scheduler.table s1' ++ (Scheduler.new_Trend <$> google)
                  ++ (Scheduler.new_Trend <$> Reddit.all_records R').
Proof.
  intros Hreach Hanswer Hnorm Hwrite Hcommit.
  destruct (fetch_google_trends_write_through E "IN" "now 1-d" 1
              (Scheduler.files s) data Hreach Hanswer Hnorm Hwrite)
    as (r & rs & w1 & Hgoogle & Hentry).
  destruct (scheduled_job_run E R D s (r :: rs) w1 Hgoogle Hcommit)
    as (w2 & Hjob & [Hcache _] & Hlo & Hhi).
  eexists (r :: rs), _, (clock w1). split; [done|]. split; [exact Hjob|].
  split; [done|]. cbn [Scheduler.files Scheduler.table].
  split; [by rewrite Hcache|]. split; [done|].
  intros E' R' s1' Hentry' Hfresh.
  assert (fetch_google_trends E' "IN" "now 1-d" true 1 (Scheduler.files s1')
          = (Return (r :: rs), Scheduler.files s1')) as Hagain.
  { apply (fetch_google_trends_fresh_entry E' "IN" "now 1-d" 1 _ (clock w1));
      [done|lra]. }
  destruct (scheduled_job_run E' R' D s1' (r :: rs) _ Hagain Hcommit)
    as (w3 & Hjob' & _).
  eexists. split; [exact Hjob'|]. done.
Qed.

Lemma scheduled_job_repeats_witness :
  exists (google : list trend) s1 t,
    google <> []
    /\ Scheduler.scheduled_job scenario_env Reddit.campus Scheduler.sound_db
         Scheduler.empty_system = (Return tt, s1)
    /\ Scheduler.table s1
       = Scheduler.table Scheduler.empty_system ++ (Scheduler.new_Trend <$> google)
           ++ (Scheduler.new_Trend <$> Reddit.all_records Reddit.campus)
    /\ cache (Scheduler.files s1) !! "google_trends_IN_now 1-d"
       = Some (Entry t google)
    /\ (t <= clock (Scheduler.files s1))%Q
    /\ forall E' R' s1',
         cache (Scheduler.files s1') !! "google_trends_IN_now 1-d"
         = Some (Entry t google) ->
         (clock (Scheduler.files s1') - t < 3600)%Q ->
         exists s2,
           Scheduler.scheduled_job E' R' Scheduler.sound_db s1' = (Return tt, s2)
           /\ Scheduler.table s2
              = Scheduler.table s1' ++ (Scheduler.new_Trend <$> google)
                  ++ (Scheduler.new_Trend <$> Reddit.all_records R').
Proof.
  apply (scheduled_job_repeats scenario_env Reddit.campus Scheduler.sound_db
           Scheduler.empty_system tie_data).
  - unfold reaches_query. split; [|split; [|split; [|split]]].
    + exists None. split; [vm_compute; reflexivity|discriminate].
    + vm_compute. reflexivity.
    + left. reflexivity.
    + intros keywords w1 _. reflexivity.
    + reflexivity.
  - exists 0%nat. split; [lia|]. split; [reflexivity|]. intros j Hj. lia.
  - intros w2. eexists. split; [vm_compute; reflexivity|discriminate].
  - reflexivity.
  - intros rows. reflexivity.
Defined.

(** ** The video chart *)

Section Videos.

Import YouTube.

Lemma video_item_Return results v results' :
  video_item results v = Return results'
  <-> exists i, charted v i /\ results' = results ++ [i].
Proof.
  unfold video_item, charted, subscript. split.
  - destruct (snippet v) as [[title|]|]; try done.
    destruct (statistics v) as [viewCount|]; try done.
    destruct (float (default (Numeric 0) viewCount)) as [q|e] eqn:Hfloat; [|done].
    intros [= <-]. eexists. split; [|reflexivity].
    exists title, viewCount. by repeat split.
  - intros (i & (title & viewCount & -> & -> & -> & <- & <-) & ->).
    by destruct i.
Qed.

Lemma videos_loop_Return l results results' :
  videos_loop results l = Return results'
  <-> exists new, Forall2 charted l new /\ results' = results ++ new.
Proof.
  revert results. induction l as [|v l IH]; intros results; simpl.
  - split.
    + intros [= <-]. exists []. by rewrite app_nil_r.
    + intros (new & Hnew & ->). apply Forall2_nil_inv_l in Hnew as ->.
      by rewrite app_nil_r.
  - destruct (video_item results v) as [results1|e] eqn:Hv.
    + apply video_item_Return in Hv as (i & Hi & ->). rewrite IH. split.
      * intros (new & Hnew & ->). exists (i :: new).
        split; [by constructor|by rewrite <- app_assoc].
      * intros (new & Hnew & ->).
        apply Forall2_cons_inv_l in Hnew as (i' & new' & Hi' & Hnew' & ->).
        exists new'. split; [done|]. rewrite <- app_assoc. simpl.
        do 2 f_equal.
        destruct Hi as (t & c & Ht & Hc & Hs & Hk & Hsrc).
        destruct Hi' as (t' & c' & Ht' & Hc' & Hs' & Hk' & Hsrc').
        rewrite Ht in Ht'. rewrite Hc in Hc'.
        injection Ht' as <-. injection Hc' as <-.
        rewrite Hs in Hs'. injection Hs' as Hscore.
        destruct i, i'. simpl in *. congruence.
    + split; [done|]. intros (new & Hnew & _).
      apply Forall2_cons_inv_l in Hnew as (i & new' & Hi & _ & _).
      assert (video_item results v = Return (results ++ [i])) as Hok
        by (apply video_item_Return; eauto).
      congruence.
Qed.

End Videos.

(** X27. [fetch_youtube_trends] has no handler: it returns a list exactly
    when the client is built, the request answers with an "items" list,
    and every item has its title, its statistics and a view count that
    converts (or none, which counts as 0).  The list then has one record
    for each item, in the order of the chart. *)
Theorem fetch_youtube_trends_returns_iff Y results :
  YouTube.fetch_youtube_trends Y = Return results
  <-> YouTube.build Y = None
      /\ exists items,
           YouTube.execute Y = Return (Some items)
           /\ Forall2 YouTube.charted items results.
Proof.
  unfold YouTube.fetch_youtube_trends, YouTube.subscript.
  destruct (YouTube.build Y) as [e|]; [split; [done|by intros [? _]]|].
  destruct (YouTube.execute Y) as [[items|]|e].
  - rewrite videos_loop_Return. split.
    + intros (new & Hnew & ->). split; [done|]. by exists items.
    + intros (_ & items' & [= <-] & Hnew). by exists results.
  - split; [done|]. by intros (_ & items & [=] & _).
  - split; [done|]. by intros (_ & items & [=] & _).
Qed.

Lemma fetch_youtube_trends_returns_iff_witness :
  exists results,
    YouTube.fetch_youtube_trends YouTube.chart = Return results
    /\ length results = 2%nat.
Proof.
  exists [ {| YouTube.keyword := "Board results explained";
              YouTube.score := 1500000; YouTube.source := "youtube" |};
           {| YouTube.keyword := "Live: convocation";
              YouTube.score := 0; YouTube.source := "youtube" |} ].
  split; [|reflexivity].
  apply (proj2 (fetch_youtube_trends_returns_iff YouTube.chart _)).
  split; [reflexivity|]. eexists. split; [reflexivity|].
  repeat constructor; eexists _, _; repeat split.
Defined.
